(** * Quote acquisition and economic normalisation (crypto_prices/scraper.py)

    A shallow embedding of [get_market_rate], [get_quotes] and the sweep of
    [main], together with the properties of the rate resolver, the rate
    cache, the rank assignment and the derived spread and fee metrics.

    Python values are embedded as the values [response.json()] can produce.
    Python's [float] is an interface ([PyFloat]) with two instances: IEEE
    binary64 (Rocq's primitive floats), which is what CPython computes, and
    exact rationals, in which decimal figures are exact.  Everything proved
    for an arbitrary instance holds for both.

    The BigQuery sink of the scraper is embedded as calls to a service that
    holds the datasets and tables of the project and may fail to be
    reached; the URLs of the two endpoints as the strings that are sent;
    and of the analysis script (analysis/analysis.py) the loading, the
    price bins, the combinations and their subsets, and the names of the
    charts.  What the charts show (the group means, the figures) is not
    embedded. *)

From Stdlib Require Import ZArith QArith Lqa Floats String Ascii List.
From Stdlib Require Import DecimalString.
From stdpp Require Import base option list gmap strings.

Local Open Scope string_scope.
Local Open Scope Z_scope.
Set Warnings "-inexact-float".

(** ** Python exceptions and results *)

(** The exception classes that the embedded code can raise.  [HTTPError],
    [ConnectionError] and [JSONDecodeError] are the subclasses of
    [requests.exceptions.RequestException] that [requests.get],
    [raise_for_status] and [response.json] raise ([response.json] since
    requests 2.27; [ConnectionError] stands for every transport error). *)
Inductive exn : Type :=
  | TypeError
  | AttributeError
  | IndexError
  | KeyError
  | ValueError
  | OverflowError
  | ZeroDivisionError
  | HTTPError (status_code : Z)
  | ConnectionError
  | JSONDecodeError.

Definition is_request_exception (e : exn) : bool :=
  match e with
  | HTTPError _ | ConnectionError | JSONDecodeError => true
  | _ => false
  end.

Inductive result (A : Type) : Type :=
  | Ok (a : A)
  | Raise (e : exn).
Arguments Ok {A} a.
Arguments Raise {A} e.

#[global] Instance result_ret : MRet result := fun _ a => Ok a.
#[global] Instance result_bind : MBind result := fun _ _ f m =>
  match m with
  | Ok a => f a
  | Raise e => Raise e
  end.

Definition returns {A} (r : result A) : Prop := exists a, r = Ok a.

Definition of_option {A} (e : exn) (o : option A) : result A :=
  match o with
  | Some a => Ok a
  | None => Raise e
  end.

(** ** Python's float *)

(** Integers up to this magnitude are far inside the range of a float: sums
    of a handful of them still convert without [OverflowError]. *)
Definition small_int_bound : Z := 2 ^ 1000.

(** The operations of [float] that the scraper uses.  [f_of_int] is the
    implicit [int] to [float] conversion ([None]: OverflowError) and
    [f_int_div] is [int / int] for a nonzero divisor ([None]:
    OverflowError). *)
Class PyFloat (F : Type) : Type := {
  f_add : F -> F -> F;
  f_sub : F -> F -> F;
  f_mul : F -> F -> F;
  f_div : F -> F -> F;
  f_is_zero : F -> bool;
  f_pos : F -> bool;
  f_of_int : Z -> option F;
  f_int_div : Z -> Z -> option F;
}.

(** What the proofs use of a float: a positive float is not zero, and small
    ints convert and divide without OverflowError. *)
Class PyFloatLaws (F : Type) `{PyFloat F} : Prop := {
  f_pos_nonzero : forall x : F, f_pos x = true -> f_is_zero x = false;
  f_of_int_small : forall z,
    Z.abs z <= 8 * small_int_bound -> is_Some (f_of_int (F:=F) z);
  f_int_div_small : forall a b,
    Z.abs a <= 8 * small_int_bound -> b <> 0 ->
    is_Some (f_int_div (F:=F) a b);
}.

(** *** IEEE binary64 *)

Module Binary64.

(** [float(n)] raises OverflowError exactly when [n] rounds to 2^1024,
    that is from the midpoint between the largest float and 2^1024 on. *)
Definition overflow_threshold : Z := 2 ^ 1024 - 2 ^ 970.

Definition round (m e : Z) (negative_zero : bool) : float :=
  SF2Prim (binary_normalize prec emax m e negative_zero).

Definition of_int (z : Z) : option float :=
  if Z.abs z <? overflow_threshold then Some (round z 0 false) else None.

(** [a / b] on ints is the correctly rounded quotient: the quotient is
    computed with at least 55 bits and a sticky bit, then rounded once. *)
Definition int_div (a b : Z) : option float :=
  if Z.abs a <? overflow_threshold * Z.abs b then
    let k := 55 + Z.log2 (Z.abs b) in
    let (q, r) := Z.div_eucl (Z.abs a * 2 ^ k) (Z.abs b) in
    let m := 2 * q + (if r =? 0 then 0 else 1) in
    let negative := xorb (a <? 0) (b <? 0) in
    Some (round (if negative then - m else m) (- (k + 1)) negative)
  else None.

Definition is_zero (x : float) : bool := PrimFloat.eqb x 0%float.
Definition pos (x : float) : bool := PrimFloat.ltb 0%float x.

End Binary64.

#[global] Instance binary64 : PyFloat float := {|
  f_add := PrimFloat.add;
  f_sub := PrimFloat.sub;
  f_mul := PrimFloat.mul;
  f_div := PrimFloat.div;
  f_is_zero := Binary64.is_zero;
  f_pos := Binary64.pos;
  f_of_int := Binary64.of_int;
  f_int_div := Binary64.int_div;
|}.

(** *** Exact rationals, kept in lowest terms *)

Module Exact.

Definition add (x y : Q) : Q := Qred (x + y).
Definition sub (x y : Q) : Q := Qred (x - y).
Definition mul (x y : Q) : Q := Qred (x * y).
Definition div (x y : Q) : Q := Qred (x / y).
Definition is_zero (x : Q) : bool := Qeq_bool x 0.
Definition pos (x : Q) : bool := negb (Qle_bool x 0).
Definition of_int (z : Z) : option Q := Some (inject_Z z).
Definition int_div (a b : Z) : option Q :=
  Some (Qred (inject_Z a / inject_Z b)).

End Exact.

#[global] Instance exact : PyFloat Q := {|
  f_add := Exact.add;
  f_sub := Exact.sub;
  f_mul := Exact.mul;
  f_div := Exact.div;
  f_is_zero := Exact.is_zero;
  f_pos := Exact.pos;
  f_of_int := Exact.of_int;
  f_int_div := Exact.int_div;
|}.

(** ** Python values *)

Section Python.
Context {F : Type} `{PyFloat F}.

(** The values that [response.json()] returns; a dict is the list of its
    items, and a lookup takes the first item with the key. *)
#[warnings="-register-all"]
Inductive pyval : Type :=
  | PyNone
  | PyBool (b : bool)
  | PyInt (z : Z)
  | PyFloat_ (x : F)
  | PyStr (s : string)
  | PyList (l : list pyval)
  | PyDict (items : list (string * pyval)).

(** Truth value testing: [if v:]. *)
Definition truthy (v : pyval) : bool :=
  match v with
  | PyNone => false
  | PyBool b => b
  | PyInt z => negb (z =? 0)
  | PyFloat_ x => negb (f_is_zero x)
  | PyStr s => negb (String.eqb s "")
  | PyList l => negb (Nat.eqb (length l) 0)
  | PyDict items => negb (Nat.eqb (length items) 0)
  end.

(** The numeric tower: [bool] is a subclass of [int]. *)
Inductive num : Type :=
  | NInt (z : Z)
  | NFloat (x : F).

Definition as_num (v : pyval) : option num :=
  match v with
  | PyBool b => Some (NInt (Z.b2z b))
  | PyInt z => Some (NInt z)
  | PyFloat_ x => Some (NFloat x)
  | _ => None
  end.

Definition to_float (n : num) : result F :=
  match n with
  | NInt z => of_option OverflowError (f_of_int z)
  | NFloat x => Ok x
  end.

(** [a op b] for [-] and [*] on numbers: ints stay ints, anything mixed
    with a float is converted to float first. *)
Definition arith (int_op : Z -> Z -> Z) (float_op : F -> F -> F)
    (a b : pyval) : result pyval :=
  match as_num a, as_num b with
  | Some (NInt x), Some (NInt y) => Ok (PyInt (int_op x y))
  | Some x, Some y =>
      fx ← to_float x; fy ← to_float y; Ok (PyFloat_ (float_op fx fy))
  | _, _ => Raise TypeError
  end.

(** [a - b]: defined on numbers only. *)
Definition py_sub : pyval -> pyval -> result pyval := arith Z.sub f_sub.

(** [a * b] with a float on the left, the only form the scraper uses
    (sequence repetition needs an int operand and a sequence). *)
Definition py_mul : pyval -> pyval -> result pyval := arith Z.mul f_mul.

(** [a + b]: numbers add, strings and lists concatenate. *)
Definition py_add (a b : pyval) : result pyval :=
  match a, b with
  | PyStr s, PyStr t => Ok (PyStr (s ++ t)%string)
  | PyList l, PyList m => Ok (PyList (l ++ m)%list)
  | _, _ => arith Z.add f_add a b
  end.

(** A float divisor is tested after the conversions; an int converts to
    0.0 only when it is 0. *)
Definition num_is_zero (n : num) : bool :=
  match n with
  | NInt z => z =? 0
  | NFloat x => f_is_zero x
  end.

(** [a / b], true division: OverflowError of a conversion comes before the
    test of the divisor. *)
Definition py_truediv (a b : pyval) : result pyval :=
  match as_num a, as_num b with
  | Some (NInt x), Some (NInt y) =>
      if y =? 0 then Raise ZeroDivisionError
      else q ← of_option OverflowError (f_int_div x y); Ok (PyFloat_ q)
  | Some x, Some y =>
      fx ← to_float x; fy ← to_float y;
      if num_is_zero y then Raise ZeroDivisionError
      else Ok (PyFloat_ (f_div fx fy))
  | _, _ => Raise TypeError
  end.

(** [a > 0]: defined on numbers only; None, strings, lists and dicts do not
    compare with an int. *)
Definition py_gt0 (a : pyval) : result bool :=
  match as_num a with
  | Some (NInt z) => Ok (0 <? z)
  | Some (NFloat x) => Ok (f_pos x)
  | None => Raise TypeError
  end.

Fixpoint dict_lookup (items : list (string * pyval)) (key : string)
    : option pyval :=
  match items with
  | [] => None
  | (k, v) :: rest => if String.eqb k key then Some v else dict_lookup rest key
  end.

(** [d.get(key, fallback)]: AttributeError when [d] is not a dict. *)
Definition py_get (d : pyval) (key : string) (fallback : pyval)
    : result pyval :=
  match d with
  | PyDict items => Ok (default fallback (dict_lookup items key))
  | _ => Raise AttributeError
  end.

Fixpoint chars (s : string) : list pyval :=
  match s with
  | EmptyString => []
  | String c rest => PyStr (String c EmptyString) :: chars rest
  end.

(** What a [for] loop iterates over: the elements of a list, the characters
    of a string, the keys of a dict; other values are not iterable. *)
Definition py_iter (v : pyval) : result (list pyval) :=
  match v with
  | PyList l => Ok l
  | PyStr s => Ok (chars s)
  | PyDict items => Ok (map (fun kv => PyStr (fst kv)) items)
  | _ => Raise TypeError
  end.

End Python.
Arguments pyval F : clear implicits.
Arguments num F : clear implicits.

(** ** The derived metrics (main, lines 207 to 242) *)

Section Metrics.
Context {F : Type} `{PyFloat F}.

(** The locals read from one provider entry (lines 207 to 214). *)
Record raw_quote : Type := {
  provider_name : pyval F;
  amount_in : pyval F;
  amount_out : pyval F;
  exchange_rate : pyval F;
  network_fee : pyval F;
  provider_fee : pyval F;
  extra_fee : pyval F;
}.

(** The locals computed from them (lines 216 to 242). *)
Record metrics : Type := {
  expected_amount_out : pyval F;
  spread : pyval F;
  spread_percentage : pyval F;
  spread_in_fiat : pyval F;
  total_explicit_fee : pyval F;
  total_fee_including_spread : pyval F;
  total_fee_percentage : pyval F;
}.

(** Lines 207 to 214: [get] with a default substitutes it only for a
    missing key, and raises AttributeError on anything but a dict. *)
Definition read_item (item : pyval F) : result raw_quote :=
  provider_info ← py_get item "providerInfo" (PyDict []);
  name ← py_get provider_info "name" (PyStr "N/A");
  quote ← py_get item "quote" (PyDict []);
  a_in ← py_get quote "amountIn" PyNone;
  a_out ← py_get quote "amountOut" PyNone;
  rate ← py_get quote "exchangeRate" PyNone;
  n_fee ← py_get quote "networkFee" (PyInt 0);
  p_fee ← py_get quote "providerFee" (PyInt 0);
  e_fee ← py_get quote "extraFee" (PyInt 0);
  Ok {| provider_name := name; amount_in := a_in; amount_out := a_out;
        exchange_rate := rate; network_fee := n_fee; provider_fee := p_fee;
        extra_fee := e_fee |}.

(** [market_rate and market_rate > 0]: None and 0.0 are false. *)
Definition rate_usable (market_rate : option F) : bool :=
  match market_rate with
  | None => false
  | Some rate => negb (f_is_zero rate) && f_pos rate
  end.

(** Lines 225 and 226. *)
Definition expected_at_market (rate : F) (q : raw_quote) : result (pyval F) :=
  t1 ← py_sub (amount_in q) (network_fee q);
  t2 ← py_sub t1 (provider_fee q);
  amount_after_fees ← py_sub t2 (extra_fee q);
  py_truediv amount_after_fees (PyFloat_ rate).

(** Lines 216 to 233: expected amount, spread, spread percentage and spread
    in fiat. *)
Definition spread_fields (market_rate : option F) (q : raw_quote)
    : result (pyval F * pyval F * pyval F * pyval F) :=
  match market_rate with
  | Some rate =>
      if rate_usable market_rate && truthy (amount_in q) then
        expected ← expected_at_market rate q;
        if truthy (amount_out q) then
          spread ← py_sub expected (amount_out q);
          positive ← py_gt0 expected;
          percentage ←
            (if positive : bool then
               ratio ← py_truediv spread expected; py_mul ratio (PyInt 100)
             else Ok (PyInt 0));
          in_fiat ← py_mul spread (PyFloat_ rate);
          Ok (expected, spread, percentage, in_fiat)
        else Ok (expected, PyInt 0, PyInt 0, PyInt 0)
      else Ok (PyInt 0, PyInt 0, PyInt 0, PyInt 0)
  | None => Ok (PyInt 0, PyInt 0, PyInt 0, PyInt 0)
  end.

(** Lines 216 to 242. *)
Definition derive (market_rate : option F) (q : raw_quote) : result metrics :=
  '(expected, spread, percentage, in_fiat) ← spread_fields market_rate q;
  fees ← py_add (network_fee q) (provider_fee q);
  explicit ← py_add fees (extra_fee q);
  including_spread ← py_add explicit in_fiat;
  positive ← py_gt0 (amount_in q);
  fee_percentage ←
    (if positive : bool then
       ratio ← py_truediv including_spread (amount_in q);
       py_mul ratio (PyInt 100)
     else Ok (PyInt 0));
  Ok {| expected_amount_out := expected; spread := spread;
        spread_percentage := percentage; spread_in_fiat := in_fiat;
        total_explicit_fee := explicit;
        total_fee_including_spread := including_spread;
        total_fee_percentage := fee_percentage |}.

End Metrics.
Arguments raw_quote F : clear implicits.
Arguments metrics F : clear implicits.

(** ** Strings *)

(** [s.split(sep)] for a one-character separator. *)
Fixpoint split (sep : ascii) (s : string) : list string :=
  match s with
  | EmptyString => [EmptyString]
  | String c rest =>
      if Ascii.eqb c sep then EmptyString :: split sep rest
      else match split sep rest with
           | first :: others => String c first :: others
           | [] => [String c EmptyString]
           end
  end.

Definition map_chars (f : ascii -> ascii) : string -> string :=
  fix go s :=
    match s with
    | EmptyString => EmptyString
    | String c rest => String (f c) (go rest)
    end.

Definition lower_char (c : ascii) : ascii :=
  let n := nat_of_ascii c in
  if (65 <=? n)%nat && (n <=? 90)%nat then ascii_of_nat (n + 32) else c.

Definition upper_char (c : ascii) : ascii :=
  let n := nat_of_ascii c in
  if (97 <=? n)%nat && (n <=? 122)%nat then ascii_of_nat (n - 32) else c.

(** [s.lower()] and [s.upper()] on ASCII text, which is what the region and
    currency codes are. *)
Definition lower : string -> string := map_chars lower_char.
Definition upper : string -> string := map_chars upper_char.

(** ** The outside world *)

Section World.
Context {F : Type}.

(** What is sent upstream: the rate endpoint is keyed by chain id, token
    address and fiat code (lines 16 to 23), the quote endpoint by region,
    crypto identifier, fiat code, amount and payment method (lines 56 to
    67).  The URL is a rendering of these fields. *)
Inductive request : Type :=
  | RateRequest (chain_id token_address fiat : string)
  | QuoteRequest (region crypto_currency_id fiat : string) (amount : Z)
      (payment_method_id : string).

(** What [requests.get] does: it raises (no connection, timeout), or it
    returns a response with a status code and a body that decodes as JSON
    or does not. *)
Inductive http_outcome : Type :=
  | NoResponse
  | Response (status_code : Z) (body : option (pyval F)).

(** The collaborators the scraper does not control: the upstream service
    (its answer to the n-th request of the run), the clock, and Python's
    [float(s)] on a string ([None]: ValueError). *)
Record environment : Type := {
  upstream : nat -> request -> http_outcome;
  clock : nat -> string;
  float_of_str : string -> option F;
}.

(** One row handed to the sink (lines 244 to 265). *)
Record row : Type := {
  Timestamp : string;
  Amount : pyval F;
  FiatCurrency : string;
  CryptoCurrency : string;
  Region : string;
  PaymentMethod : string;
  Provider : pyval F;
  Rank : Z;
  AmountOut : pyval F;
  ExchangeRate : pyval F;
  MarketRate : option F;
  ExpectedAmountOut : pyval F;
  Spread : pyval F;
  SpreadPercentage : pyval F;
  NetworkFee : pyval F;
  ProviderFee : pyval F;
  ExtraFee : pyval F;
  TotalExplicitFee : pyval F;
  TotalFeeIncludingSpread : pyval F;
  TotalFeePercentage : pyval F;
}.

(** The messages printed. *)
Inductive diagnostic : Type :=
  | RateLimitedRetrying (delay : Z)
  | ErrorFetchingMarketRate (e : exn)
  | FailedAfterRetries
  | FetchingQuotesFor (amount : Z)
  | MarketRateFor (crypto_name currency_code : string) (market_rate : F)
  | CouldNotFetchMarketRate (crypto_name currency_code : string)
  | ErrorFetchingQuotes (payment_method : string) (e : exn)
  | InsertingRows (count : nat) (currency_code region : string)
  | ScrapingComplete.

(** What the run does to the outside, in order. *)
Inductive event : Type :=
  | HttpGet (r : request)
  | Sleep (seconds : Q)
  | Print (d : diagnostic)
  | InsertRows (rows : list row).

(** The state of a run: how many requests and clock readings were made,
    the events so far, and the two mutable locals of [main]. *)
Record world : Type := {
  requests_sent : nat;
  clock_reads : nat;
  trace : list event;
  market_rates_cache : gmap string (option F);
  rows_to_insert : list row;
}.

End World.
Arguments request : clear implicits.
Arguments http_outcome F : clear implicits.
Arguments environment F : clear implicits.
Arguments row F : clear implicits.
Arguments diagnostic F : clear implicits.
Arguments event F : clear implicits.
Arguments world F : clear implicits.

(** Computations that read and change the world and may raise. *)
Definition M (F A : Type) : Type := world F -> result A * world F.

#[global] Instance M_ret {F} : MRet (M F) := fun _ a w => (Ok a, w).
#[global] Instance M_bind {F} : MBind (M F) := fun _ _ f m w =>
  match m w with
  | (Ok a, w') => f a w'
  | (Raise e, w') => (Raise e, w')
  end.

Definition lift {F A} (r : result A) : M F A := fun w => (r, w).

Definition raise {F A} (e : exn) : M F A := lift (Raise e).

(** [try: body except Exception as e: handler e]; a handler re-raises what
    its except clauses do not match. *)
Definition try_except {F A} (body : M F A) (handler : exn -> M F A) : M F A :=
  fun w =>
    match body w with
    | (Ok a, w') => (Ok a, w')
    | (Raise e, w') => handler e w'
    end.

Definition emit {F} (e : event F) : M F unit := fun w =>
  (Ok tt, {| requests_sent := requests_sent w; clock_reads := clock_reads w;
             trace := trace w ++ [e];
             market_rates_cache := market_rates_cache w;
             rows_to_insert := rows_to_insert w |}).

Definition print {F} (d : diagnostic F) : M F unit := emit (Print d).

Definition sleep {F} (seconds : Q) : M F unit := emit (Sleep seconds).

Fixpoint for_each {F A} (l : list A) (body : A -> M F unit) : M F unit :=
  match l with
  | [] => mret tt
  | x :: rest => body x;; for_each rest body
  end.

(** ** The scraper *)

Section Scraper.
Context {F : Type} `{PyFloat F}.
Variable E : environment F.

(** [requests.get(url)]: one more request is sent; the upstream decides. *)
Definition requests_get (r : request) : M F (Z * option (pyval F)) := fun w =>
  let w' := {| requests_sent := S (requests_sent w);
               clock_reads := clock_reads w;
               trace := trace w ++ [HttpGet r];
               market_rates_cache := market_rates_cache w;
               rows_to_insert := rows_to_insert w |} in
  match upstream E (requests_sent w) r with
  | NoResponse => (Raise ConnectionError, w')
  | Response status_code body => (Ok (status_code, body), w')
  end.

(** [response.raise_for_status()]: HTTPError for a 4xx or 5xx status. *)
Definition raise_for_status (response : Z * option (pyval F)) : M F unit :=
  let status_code := fst response in
  if (400 <=? status_code) && (status_code <? 600)
  then raise (HTTPError status_code) else mret tt.

(** [response.json()]. *)
Definition response_json (response : Z * option (pyval F)) : M F (pyval F) :=
  lift (of_option JSONDecodeError (snd response)).

(** [float(v)]. *)
Definition py_float (v : pyval F) : result F :=
  match v with
  | PyBool b => of_option OverflowError (f_of_int (Z.b2z b))
  | PyInt z => of_option OverflowError (f_of_int z)
  | PyFloat_ x => Ok x
  | PyStr s => of_option ValueError (float_of_str E s)
  | PyNone | PyList _ | PyDict _ => Raise TypeError
  end.

(** Lines 29 to 33, the body of the [try]. *)
Definition fetch_market_rate (r : request) : M F F :=
  response ← requests_get r;
  raise_for_status response;;
  data ← response_json response;
  value ← lift (py_get data "value" (PyInt 0));
  lift (py_float value).

(** Lines 34 to 44, the except clauses: a rate limit sleeps for [delay] and
    lets the loop go on ([None]); any other exception makes the function
    return None ([Some None]). *)
Definition on_error (delay : Z) (e : exn) : M F (option (option F)) :=
  match e with
  | HTTPError status_code =>
      if status_code =? 429 then
        print (RateLimitedRetrying delay);;
        sleep (inject_Z delay);;
        mret None
      else print (ErrorFetchingMarketRate e);; mret (Some None)
  | _ => print (ErrorFetchingMarketRate e);; mret (Some None)
  end.

(** Lines 27 to 47: the loop over [range(retries)], by the attempts that
    remain, with the current [delay].  The body either returns from the
    function ([Some]) or goes to the next iteration ([None]). *)
Fixpoint attempts (r : request) (remaining : nat) (delay : Z)
    : M F (option F) :=
  match remaining with
  | O => print FailedAfterRetries;; mret None
  | S remaining' =>
      returned ←
        try_except
          (market_rate ← fetch_market_rate r; mret (Some (Some market_rate)))
          (on_error delay);
      match returned with
      | Some market_rate => mret market_rate
      | None => attempts r remaining' (delay * 2)
      end
  end.

(** Lines 5 to 47. *)
Definition get_market_rate (crypto_currency_id fiat_currency : string)
    : M F (option F) :=
  let parts := split "/" crypto_currency_id in
  chain_id ← lift (of_option IndexError (parts !! 3%nat));
  token_address ← lift (of_option IndexError (parts !! 4%nat));
  attempts (RateRequest chain_id token_address (lower fiat_currency)) 3 1.

(** Lines 49 to 71. *)
Definition get_quotes (region fiat_currency : string) (amount : Z)
    (payment_method crypto_currency_id : string) : M F (pyval F) :=
  let payment_method_id := ("/payments/" ++ payment_method)%string in
  response ←
    requests_get (QuoteRequest (lower region) crypto_currency_id
                    (lower fiat_currency) amount payment_method_id);
  raise_for_status response;;
  response_json response.

(** [if market_rate:] on the resolver's result (line 189). *)
Definition rate_truthy (market_rate : option F) : bool :=
  match market_rate with
  | None => false
  | Some rate => negb (f_is_zero rate)
  end.

Definition cache_store (key : string) (value : option F) : M F unit := fun w =>
  (Ok tt, {| requests_sent := requests_sent w; clock_reads := clock_reads w;
             trace := trace w;
             market_rates_cache := <[key := value]> (market_rates_cache w);
             rows_to_insert := rows_to_insert w |}).

Definition cache_lookup (key : string) : M F (option (option F)) := fun w =>
  (Ok (market_rates_cache w !! key), w).

(** Line 186. *)
Definition cache_key (crypto_id currency_code : string) : string :=
  (crypto_id ++ "_" ++ currency_code)%string.

(** Lines 186 to 196: the rate of a pair, through the cache. *)
Definition resolve (crypto_name crypto_id currency_code : string)
    : M F (option F) :=
  let key := cache_key crypto_id currency_code in
  cached ← cache_lookup key;
  (if cached is None then
     market_rate ← get_market_rate crypto_id currency_code;
     match market_rate with
     | Some rate =>
         if rate_truthy market_rate then
           cache_store key market_rate;;
           print (MarketRateFor crypto_name currency_code rate)
         else
           print (CouldNotFetchMarketRate crypto_name currency_code);;
           cache_store key None
     | None =>
         print (CouldNotFetchMarketRate crypto_name currency_code);;
         cache_store key None
     end
   else mret tt);;
  cached ← cache_lookup key;
  lift (of_option KeyError cached).

(** [datetime.now().isoformat()]. *)
Definition now : M F string := fun w =>
  (Ok (clock E (clock_reads w)),
   {| requests_sent := requests_sent w; clock_reads := S (clock_reads w);
      trace := trace w; market_rates_cache := market_rates_cache w;
      rows_to_insert := rows_to_insert w |}).

Definition set_rows (rows : list (row F)) : M F unit := fun w =>
  (Ok tt, {| requests_sent := requests_sent w; clock_reads := clock_reads w;
             trace := trace w; market_rates_cache := market_rates_cache w;
             rows_to_insert := rows |}).

Definition get_rows : M F (list (row F)) := fun w => (Ok (rows_to_insert w), w).

(** [rows_to_insert.append(r)]. *)
Definition append_row (r : row F) : M F unit :=
  rows ← get_rows; set_rows (rows ++ [r]).

(** The labels of one request tuple, as the loops of [main] bind them. *)
Record labels : Type := {
  amount : Z;
  crypto_name : string;
  crypto_id : string;
  region_code : string;
  currency_code : string;
  payment_method : string;
}.

(** Lines 244 to 265: the row built from the locals. *)
Definition make_row (l : labels) (market_rate : option F) (rank : Z)
    (timestamp : string) (q : raw_quote F) (m : metrics F) : row F :=
  {| Timestamp := timestamp;
     Amount := amount_in q;
     FiatCurrency := currency_code l;
     CryptoCurrency := crypto_name l;
     Region := upper (region_code l);
     PaymentMethod := payment_method l;
     Provider := provider_name q;
     Rank := rank;
     AmountOut := amount_out q;
     ExchangeRate := exchange_rate q;
     MarketRate := market_rate;
     ExpectedAmountOut := expected_amount_out m;
     Spread := spread m;
     SpreadPercentage := spread_percentage m;
     NetworkFee := network_fee q;
     ProviderFee := provider_fee q;
     ExtraFee := extra_fee q;
     TotalExplicitFee := total_explicit_fee m;
     TotalFeeIncludingSpread := total_fee_including_spread m;
     TotalFeePercentage := total_fee_percentage m |}.

(** Lines 207 to 265: one provider entry becomes one row. *)
Definition normalize_item (l : labels) (market_rate : option F) (rank : Z)
    (item : pyval F) : M F unit :=
  q ← lift (read_item item);
  m ← lift (derive market_rate q);
  timestamp ← now;
  append_row (make_row l market_rate rank timestamp q m).

(** Line 206: [for rank, item in enumerate(items, rank)]. *)
Fixpoint normalize_items (l : labels) (market_rate : option F) (rank : Z)
    (items : list (pyval F)) : M F unit :=
  match items with
  | [] => mret tt
  | item :: rest =>
      normalize_item l market_rate rank item;;
      normalize_items l market_rate (rank + 1) rest
  end.

(** What [get_quotes] sends for a request tuple. *)
Definition quote_request (l : labels) : request :=
  QuoteRequest (lower (region_code l)) (crypto_id l)
    (lower (currency_code l)) (amount l)
    ("/payments/" ++ payment_method l)%string.

(** Lines 202 to 266, the body of the [try]. *)
Definition fetch_and_normalize (l : labels) (market_rate : option F)
    : M F unit :=
  quotes_data ←
    get_quotes (region_code l) (currency_code l) (amount l)
      (payment_method l) (crypto_id l);
  success ← lift (py_get quotes_data "success" PyNone);
  (if truthy success then
     items ← lift (py_iter success);
     normalize_items l market_rate 1 items
   else mret tt);;
  sleep 0.1.

(** Lines 201 to 269: only a RequestException is handled. *)
Definition quotes_for_payment_method (l : labels) (market_rate : option F)
    : M F unit :=
  try_except (fetch_and_normalize l market_rate)
    (fun e =>
       if is_request_exception e
       then print (ErrorFetchingQuotes (payment_method l) e)
       else raise e).

(** Lines 127 to 134; the sink itself is an external collaborator. *)
Definition append_to_bigquery (rows : list (row F)) : M F unit :=
  if rows is [] then mret tt else emit (InsertRows rows).

Definition regions : list (string * string) :=
  [("de", "EUR"); ("gb", "GBP"); ("us-va", "USD")].

Definition crypto_currencies : list (string * string) :=
  [("ETH (Mainnet)",
    "/currencies/crypto/1/0x0000000000000000000000000000000000000000");
   ("USDT (Ethereum)",
    "/currencies/crypto/1/0xdac17f958d2ee523a2206206994597c13d831ec7");
   ("USDT (BNB Chain)",
    "/currencies/crypto/56/0x55d398326f99059ff775485246999027b3197955")].

Definition payment_methods_by_region : list (string * list string) :=
  [("de", ["sepa-bank-transfer"; "rev-pay"; "debit-credit-card"; "paypal";
           "binance-p2p"]);
   ("gb", ["debit-credit-card"; "gbp-bank-transfer"; "rev-pay"; "paypal"]);
   ("us-va", ["venmo"; "debit-credit-card"; "paypal";
              "instant-bank-transfer"])].

Fixpoint assoc {A} (table : list (string * A)) (key : string) : option A :=
  match table with
  | [] => None
  | (k, v) :: rest => if String.eqb k key then Some v else assoc rest key
  end.

(** [range(start, stop, step)] for a positive step. *)
Definition range (start stop step : Z) : list Z :=
  map (fun i => start + step * Z.of_nat i)
    (seq 0 (Z.to_nat ((stop - start + step - 1) / step))).

Definition PRICE_RANGE : list Z := 30 :: range 100 30000 1000.

(** Lines 185 to 273: one (amount, crypto, region) combination. *)
Definition region_sweep (amount : Z) (crypto region : string * string)
    : M F unit :=
  market_rate ← resolve (fst crypto) (snd crypto) (snd region);
  set_rows [];;
  for_each (default [] (assoc payment_methods_by_region (fst region)))
    (fun payment_method =>
       quotes_for_payment_method
         {| amount := amount; crypto_name := fst crypto;
            crypto_id := snd crypto; region_code := fst region;
            currency_code := snd region; payment_method := payment_method |}
         market_rate);;
  rows ← get_rows;
  if rows is [] then mret tt
  else
    print (InsertingRows (length rows) (snd region) (upper (fst region)));;
    append_to_bigquery rows.

Definition clear_cache : M F unit := fun w =>
  (Ok tt, {| requests_sent := requests_sent w; clock_reads := clock_reads w;
             trace := trace w; market_rates_cache := ∅;
             rows_to_insert := rows_to_insert w |}).

(** Lines 178 to 275: the sweep of [main], after the sink is set up. *)
Definition main : M F unit :=
  clear_cache;;
  for_each PRICE_RANGE (fun amount =>
    print (FetchingQuotesFor amount);;
    for_each crypto_currencies (fun crypto =>
      for_each regions (fun region => region_sweep amount crypto region)));;
  print ScrapingComplete.

End Scraper.

(** ** Well-formed quotes *)

Section WellFormed.
Context {F : Type} `{PyFloat F}.

(** A number as the quote endpoint sends them: a float, or an int of
    moderate size. *)
Definition small_number (v : pyval F) : bool :=
  match as_num v with
  | Some (NInt z) => Z.abs z <=? small_int_bound
  | Some (NFloat _) => true
  | None => false
  end.

(** The RawQuote of the data model: [amountIn] and the fees are numbers
    (absent fees were replaced by 0), [amountOut] is a number or is absent
    or otherwise false. *)
Definition well_formed (q : raw_quote F) : bool :=
  small_number (amount_in q)
  && (negb (truthy (amount_out q)) || small_number (amount_out q))
  && small_number (network_fee q)
  && small_number (provider_fee q)
  && small_number (extra_fee q).

(** A provider entry whose fields read as a well-formed quote. *)
Definition well_formed_item (item : pyval F) : bool :=
  match read_item item with
  | Ok q => well_formed q
  | Raise _ => false
  end.

(** A number equal to zero: 0, 0.0, -0.0 (and False). *)
Definition is_zero_number (v : pyval F) : bool :=
  match as_num v with
  | Some n => num_is_zero n
  | None => false
  end.

(** A number that is a float, or an int within [k] times the bound. *)
Definition within (k : Z) (v : pyval F) : Prop :=
  match as_num v with
  | Some (NInt z) => Z.abs z <= k * small_int_bound
  | Some (NFloat _) => True
  | None => False
  end.

End WellFormed.

(** The rational that a Python number denotes in exact arithmetic. *)
Definition exact_value (v : pyval Q) : Q :=
  match as_num v with
  | Some (NInt z) => inject_Z z
  | Some (NFloat x) => x
  | None => 0
  end.

(** [|x - c| < tolerance] on binary64 floats. *)
Definition close_to (x c tolerance : float) : bool :=
  PrimFloat.ltb (PrimFloat.abs (PrimFloat.sub x c)) tolerance.

Definition initial_world {F} : world F :=
  {| requests_sent := 0; clock_reads := 0; trace := [];
     market_rates_cache := ∅; rows_to_insert := [] |}.

#[global] Instance exn_eq_dec : EqDecision exn.
Proof. solve_decision. Defined.

(** ** Observing a run *)

Section Observations.
Context {F : Type}.

(** The upstream signalled a rate limit: HTTP 429. *)
Definition rate_limited (o : http_outcome F) : bool :=
  match o with
  | Response status_code _ => status_code =? 429
  | NoResponse => false
  end.

(** The quote endpoint failed: no response, a 4xx or 5xx status, or a body
    that is not JSON.  These are the RequestExceptions of [get_quotes]. *)
Definition fetch_failed (o : http_outcome F) : bool :=
  match o with
  | NoResponse => true
  | Response status_code body =>
      (400 <=? status_code) && (status_code <? 600) || bool_decide (body = None)
  end.

(** The quote endpoint answered with a dict whose [success] entry is
    absent or false (an empty list, for one). *)
Definition empty_success `{PyFloat F} (o : http_outcome F) : bool :=
  match o with
  | Response status_code (Some (PyDict items)) =>
      negb ((400 <=? status_code) && (status_code <? 600))
      && negb (truthy (default PyNone (dict_lookup items "success")))
  | _ => false
  end.

(** The quote endpoint answered with a dict whose [success] entry is a
    list of well-formed provider entries. *)
Definition well_formed_success `{PyFloat F} (o : http_outcome F) : bool :=
  match o with
  | Response status_code (Some (PyDict items)) =>
      negb ((400 <=? status_code) && (status_code <? 600))
      && match dict_lookup items "success" with
         | Some (PyList entries) => forallb well_formed_item entries
         | _ => false
         end
  | _ => false
  end.

(** What the body of the [try] in [get_market_rate] evaluates to on an
    upstream outcome, and what the resolver then returns when the outcome
    is not a rate limit. *)
Definition fetch_result (E : environment F) `{PyFloat F}
    (o : http_outcome F) : result F :=
  match o with
  | NoResponse => Raise ConnectionError
  | Response status_code body =>
      if (400 <=? status_code) && (status_code <? 600)
      then Raise (HTTPError status_code)
      else
        data ← of_option JSONDecodeError body;
        value ← py_get data "value" (PyInt 0);
        py_float E value
  end.

Definition settled_rate (E : environment F) `{PyFloat F}
    (o : http_outcome F) : option F :=
  match fetch_result E o with
  | Ok x => Some x
  | Raise _ => None
  end.

Definition sleeps (t : list (event F)) : list Q :=
  omap (fun e => if e is Sleep seconds then Some seconds else None) t.

Definition http_gets (t : list (event F)) : list request :=
  omap (fun e => if e is HttpGet r then Some r else None) t.

Definition inserted (t : list (event F)) : list (list (row F)) :=
  omap (fun e => if e is InsertRows rows then Some rows else None) t.

(** The world after [n] more requests and the events [t], the locals of
    [main] untouched. *)
Definition advanced (w : world F) (n : nat) (t : list (event F)) : world F :=
  {| requests_sent := requests_sent w + n; clock_reads := clock_reads w;
     trace := trace w ++ t; market_rates_cache := market_rates_cache w;
     rows_to_insert := rows_to_insert w |}.

(** The world after the rows [new] were appended, one clock reading
    each. *)
Definition appended (w : world F) (new : list (row F)) : world F :=
  {| requests_sent := requests_sent w;
     clock_reads := clock_reads w + length new;
     trace := trace w; market_rates_cache := market_rates_cache w;
     rows_to_insert := rows_to_insert w ++ new |}.

End Observations.

(** ** Sample quotes *)

(** The worked example: amountIn 1000, network fee 5, provider fee 10, extra
    fee 0, and the amount out given. *)
Definition example_quote {F} (out : F) : raw_quote F :=
  {| provider_name := PyStr "N/A"; amount_in := PyInt 1000;
     amount_out := PyFloat_ out; exchange_rate := PyNone;
     network_fee := PyInt 5; provider_fee := PyInt 10;
     extra_fee := PyInt 0 |}.

(** The same entry as the upstream sends it, without an [extraFee] key. *)
Definition example_item {F} (out : F) : pyval F :=
  PyDict [("quote",
           PyDict [("amountIn", PyInt 1000); ("amountOut", PyFloat_ out);
                   ("networkFee", PyInt 5); ("providerFee", PyInt 10)])].

(** [q] with another [amount_out]. *)
Definition with_amount_out {F} (q : raw_quote F) (v : pyval F) : raw_quote F :=
  {| provider_name := provider_name q; amount_in := amount_in q;
     amount_out := v; exchange_rate := exchange_rate q;
     network_fee := network_fee q; provider_fee := provider_fee q;
     extra_fee := extra_fee q |}.

(** A provider entry whose quote has no [amountIn]. *)
Definition quote_without_amount_in {F} : pyval F :=
  PyDict [("providerInfo", PyDict [("name", PyStr "Acme")]);
          ("quote", PyDict [("amountOut", PyInt 1); ("networkFee", PyInt 5)])].

(** ** Sample environments *)

(** An upstream that rate-limits the first [limited] requests and then
    answers every request with a rate of 2000. *)
Definition rate_limiting_upstream (limited : nat) : environment float :=
  {| upstream n r :=
       if (n <? limited)%nat then Response 429 None
       else Response 200 (Some (PyDict [("value", PyInt 2000)]));
     clock _ := "2024-01-01T00:00:00";
     float_of_str _ := None |}.

Definition eth : string :=
  "/currencies/crypto/1/0x0000000000000000000000000000000000000000".

(** An upstream whose rate endpoint answers 2000 and whose quote endpoint
    answers every request with the given body. *)
Definition quoting_upstream (body : pyval float) : environment float :=
  {| upstream _ r :=
       match r with
       | RateRequest _ _ _ =>
           Response 200 (Some (PyDict [("value", PyInt 2000)]))
       | QuoteRequest _ _ _ _ _ => Response 200 (Some body)
       end;
     clock _ := "2024-01-01T00:00:00";
     float_of_str _ := None |}.

Definition provider_entry (name : string) (amount_out : float) : pyval float :=
  PyDict [("providerInfo", PyDict [("name", PyStr name)]);
          ("quote", PyDict [("amountIn", PyInt 1000);
                            ("amountOut", PyFloat_ amount_out);
                            ("networkFee", PyInt 5);
                            ("providerFee", PyInt 10)])].

Definition sample_labels : labels :=
  {| amount := 1000; crypto_name := "ETH (Mainnet)"; crypto_id := eth;
     region_code := "de"; currency_code := "EUR";
     payment_method := "paypal" |}.

(** A quote whose network fee exceeds the amount paid in. *)
Definition overcharged_quote : raw_quote float :=
  {| provider_name := PyStr "N/A"; amount_in := PyInt 10;
     amount_out := PyFloat_ 0.49%float; exchange_rate := PyNone;
     network_fee := PyInt 20; provider_fee := PyInt 0;
     extra_fee := PyInt 0 |}.

(** The locals read from an entry whose quote has no [amountIn]. *)
Definition raw_without_amount_in : raw_quote float :=
  {| provider_name := PyStr "Acme"; amount_in := PyNone;
     amount_out := PyInt 1; exchange_rate := PyNone;
     network_fee := PyInt 5; provider_fee := PyInt 0;
     extra_fee := PyInt 0 |}.

Definition three_entries : list (pyval float) :=
  [provider_entry "Zeta" 0.49; provider_entry "Alpha" 0.48;
   provider_entry "Mid" 0.5].

(** A response of the quote endpoint with three providers. *)
Definition three_providers : pyval float :=
  PyDict [("success", PyList three_entries)].

(** ** Requests of a sweep *)

#[global] Instance request_eq_dec : EqDecision request.
Proof. solve_decision. Defined.

(** How many times the request [r] was sent in the events [t]. *)
Definition times_sent {F} (r : request) (t : list (event F)) : nat :=
  length (filter (fun r' => r' = r) (http_gets t)).

(** The rate request of a (crypto, region) combination of [main]. *)
Definition rate_request_of (crypto region : string * string) : request :=
  let parts := split "/" crypto.2 in
  RateRequest (default "" (parts !! 3%nat)) (default "" (parts !! 4%nat))
    (lower region.2).

(** An action keeps a property of the world, whether it returns or
    raises. *)
Definition preserves {F A} (P : world F -> Prop) (m : M F A) : Prop :=
  forall w, P w -> P (m w).2.

(** During the sweep, [r] was sent at most 3 times more than before it, and
    once it was sent the combinations it belongs to are cached. *)
Definition sweep_invariant {F} (r : request) (base : nat) (w : world F)
    : Prop :=
  (times_sent r (trace w) <= base + 3)%nat
  /\ forall crypto region,
       crypto ∈ crypto_currencies -> region ∈ regions ->
       rate_request_of crypto region = r ->
       (base < times_sent r (trace w))%nat ->
       is_Some (market_rates_cache w !! cache_key crypto.2 region.2).

(** ** Answers of the quote endpoint *)

(** The response of a successful fetch with the [success] entry [s]. *)
Definition answered {F} (E : environment F) (w : world F) (l : labels)
    (s : pyval F) : Prop :=
  exists status_code items,
    upstream E (requests_sent w) (quote_request l) =
      Response status_code (Some (PyDict items))
    /\ (400 <=? status_code) && (status_code <? 600) = false
    /\ default PyNone (dict_lookup items "success") = s.

(** What the sweep copes with from the quote endpoint. *)
Definition quotes_ok {F} `{PyFloat F} (o : http_outcome F) : bool :=
  fetch_failed o || empty_success o || well_formed_success o.

(** ** What a sweep is configured to do *)

(** Line 199: the payment methods of a region. *)
Definition methods_of (region : string * string) : list string :=
  default [] (assoc payment_methods_by_region region.1).

(** The request tuples of the loops of [main] (lines 181 to 200), in the
    order in which the loops reach them. *)
Definition sweep_labels : list labels :=
  amount ← PRICE_RANGE;
  crypto ← crypto_currencies;
  region ← regions;
  payment_method ← methods_of region;
  [{| amount := amount; crypto_name := crypto.1; crypto_id := crypto.2;
      region_code := region.1; currency_code := region.2;
      payment_method := payment_method |}].

Definition sweep_quote_requests : list request :=
  quote_request <$> sweep_labels.

Definition sweep_rate_requests : list request :=
  crypto ← crypto_currencies; region ← regions;
  [rate_request_of crypto region].

Definition is_quote_request (r : request) : bool :=
  match r with
  | QuoteRequest _ _ _ _ _ => true
  | RateRequest _ _ _ => false
  end.

(** The pauses of the retry loop: [delay], doubled after each. *)
Fixpoint delays (n : nat) (delay : Z) : list Q :=
  match n with
  | O => []
  | S n' => inject_Z delay :: delays n' (delay * 2)
  end.

Section SweepEvents.
Context {F : Type}.

(** A row of the (crypto, region) combination. *)
Definition sweep_row (crypto region : string * string) (r : row F) : Prop :=
  CryptoCurrency r = crypto.1 /\ FiatCurrency r = region.2
  /\ Region r = upper region.1 /\ PaymentMethod r ∈ methods_of region
  /\ 1 <= Rank r.

(** A batch handed to the sink: the rows of one combination, at least
    one. *)
Definition sweep_batch (rows : list (row F)) : Prop :=
  rows <> []
  /\ exists crypto region,
       crypto ∈ crypto_currencies /\ region ∈ regions
       /\ Forall (sweep_row crypto region) rows.

(** What the sweep may do to the outside. *)
Definition sweep_event (e : event F) : Prop :=
  match e with
  | HttpGet r => r ∈ sweep_rate_requests \/ r ∈ sweep_quote_requests
  | Sleep seconds => seconds ∈ [0.1; 1; 2; 4]%Q
  | Print _ => True
  | InsertRows rows => sweep_batch rows
  end.

(** What resolving the rate of [r] may do. *)
Definition rate_event (r : request) (pauses : list Q) (e : event F) : Prop :=
  match e with
  | HttpGet r' => r' = r
  | Sleep seconds => seconds ∈ pauses
  | Print _ => True
  | InsertRows _ => False
  end.

(** What handling a payment method may do after its request. *)
Definition quote_event (e : event F) : Prop :=
  match e with
  | Sleep seconds => seconds = 0.1%Q
  | Print _ => True
  | HttpGet _ | InsertRows _ => False
  end.

(** [w'] is [w] after the events [t] and the rows [new], one clock reading
    each; the cache and the request counter are left open. *)
Definition extends (w w' : world F) (t : list (event F))
    (new : list (row F)) : Prop :=
  trace w' = (trace w ++ t)%list
  /\ rows_to_insert w' = (rows_to_insert w ++ new)%list
  /\ clock_reads w' = (clock_reads w + length new)%nat.

(** The events since [t0] are events of the sweep. *)
Definition sweep_trace (t0 : list (event F)) (w : world F) : Prop :=
  exists t, trace w = (t0 ++ t)%list /\ Forall sweep_event t.

(** The quote requests among the events [t]. *)
Definition quote_gets (t : list (event F)) : list request :=
  filter (fun r => is_quote_request r = true) (http_gets t).

(** The timestamps of the rows handed to the sink by the events [t]. *)
Definition inserted_stamps (t : list (event F)) : list string :=
  map Timestamp (concat (inserted t)).

(** The rows inserted since [t0], and the pending ones if asked for, are
    stamped with the clock readings since [c0], in order. *)
Definition stamped (E : environment F) (c0 : nat) (t0 : list (event F))
    (pending : bool) (w : world F) : Prop :=
  exists t,
    trace w = (t0 ++ t)%list /\ (c0 <= clock_reads w)%nat
    /\ (inserted_stamps t ++
        (if pending then map Timestamp (rows_to_insert w) else []))%list
       = map (clock E) (seq c0 (clock_reads w - c0)).

End SweepEvents.

(** The rows that [normalize_items] makes of entries ranked from [rank]
    on. *)
Definition made_row {F} `{PyFloat F} (l : labels) (market_rate : option F)
    (rank : Z) (r : row F) : Prop :=
  rank <= Rank r
  /\ exists q m,
       derive market_rate q = Ok m
       /\ r = make_row l market_rate (Rank r) (Timestamp r) q m.

(** ** Text *)

(** How many times the character [c] occurs in [s]. *)
Fixpoint occurrences (c : ascii) (s : string) : nat :=
  match s with
  | EmptyString => 0
  | String c' rest =>
      (if Ascii.eqb c' c then 1 else 0) + occurrences c rest
  end.

(** Every character of [s] satisfies [f]. *)
Fixpoint all_chars (f : ascii -> bool) (s : string) : bool :=
  match s with
  | EmptyString => true
  | String c rest => f c && all_chars f rest
  end.

(** ** The columns of the table (lines 98 to 119) *)

(** An int, a float or a bool. *)
Definition is_number {F} (v : pyval F) : bool :=
  match v with
  | PyBool _ | PyInt _ | PyFloat_ _ => true
  | _ => false
  end.

Inductive column_type : Type := TIMESTAMP | FLOAT | STRING | INTEGER.

Definition schema : list (string * column_type) :=
  [("Timestamp", TIMESTAMP); ("Amount", FLOAT); ("FiatCurrency", STRING);
   ("CryptoCurrency", STRING); ("Region", STRING);
   ("PaymentMethod", STRING); ("Provider", STRING); ("Rank", INTEGER);
   ("AmountOut", FLOAT); ("ExchangeRate", FLOAT); ("MarketRate", FLOAT);
   ("ExpectedAmountOut", FLOAT); ("Spread", FLOAT);
   ("SpreadPercentage", FLOAT); ("NetworkFee", FLOAT);
   ("ProviderFee", FLOAT); ("ExtraFee", FLOAT); ("TotalExplicitFee", FLOAT);
   ("TotalFeeIncludingSpread", FLOAT); ("TotalFeePercentage", FLOAT)].

(** Lines 244 to 265: the row as the dict that is appended. *)
Definition row_dict {F} (r : row F) : list (string * pyval F) :=
  [("Timestamp", PyStr (Timestamp r)); ("Amount", Amount r);
   ("FiatCurrency", PyStr (FiatCurrency r));
   ("CryptoCurrency", PyStr (CryptoCurrency r));
   ("Region", PyStr (Region r)); ("PaymentMethod", PyStr (PaymentMethod r));
   ("Provider", Provider r); ("Rank", PyInt (Rank r));
   ("AmountOut", AmountOut r); ("ExchangeRate", ExchangeRate r);
   ("MarketRate", from_option PyFloat_ PyNone (MarketRate r));
   ("ExpectedAmountOut", ExpectedAmountOut r); ("Spread", Spread r);
   ("SpreadPercentage", SpreadPercentage r); ("NetworkFee", NetworkFee r);
   ("ProviderFee", ProviderFee r); ("ExtraFee", ExtraFee r);
   ("TotalExplicitFee", TotalExplicitFee r);
   ("TotalFeeIncludingSpread", TotalFeeIncludingSpread r);
   ("TotalFeePercentage", TotalFeePercentage r)].

(** A value of the type of a column, or a null. *)
Definition conforms {F} (ty : column_type) (v : pyval F) : bool :=
  match ty, v with
  | _, PyNone => true
  | (TIMESTAMP | STRING), PyStr _ => true
  | INTEGER, PyInt _ => true
  | FLOAT, _ => is_number v
  | _, _ => false
  end.

(** The columns copied from the response as they are. *)
Definition copied_columns : list string :=
  ["Provider"; "AmountOut"; "ExchangeRate"].

(** ** The BigQuery sink (scraper.py, lines 75 to 134) *)

Module Sink.

Definition PROJECT_ID : string := "unbiased-reporting".
Definition DATASET_ID : string := "articles".
Definition TABLE_ID : string := "crypto_quotes".

(** The errors of the BigQuery client that matter here: a dataset or table
    that does not exist, one that exists already, and any other failure of
    a call (no permission, no connection). *)
Inductive api_error : Type :=
  | NotFound
  | Conflict
  | ServiceUnavailable.

Inductive outcome (A : Type) : Type :=
  | Done (a : A)
  | Failed (e : api_error).
Arguments Done {A} a.
Arguments Failed {A} e.

(** The messages printed. *)
Inductive message : Type :=
  | CreatedDataset (project dataset : string)
  | CreatedTable (project dataset table : string)
  | InsertErrors (errors : list nat).

Section Cloud.
Context {F : Type}.

(** A row as JSON, and a table: its schema and the rows stored. *)
Definition json_row : Type := list (string * pyval F).

Record table : Type := {
  columns : list (string * column_type);
  stored : list json_row;
}.

(** The project as the service holds it, the calls made to the service so
    far and what was printed. *)
Record cloud : Type := {
  datasets : gset string;
  tables : gmap (string * string) table;
  api_calls : nat;
  printed : list message;
}.

(** What the code does not control: whether the n-th call reaches the
    service, and which rows the service accepts for a schema. *)
Record service : Type := {
  unavailable : nat -> bool;
  accepts : list (string * column_type) -> json_row -> bool;
}.

Definition B (A : Type) : Type := cloud -> outcome A * cloud.

#[global] Instance B_ret : MRet B := fun _ a c => (Done a, c).
#[global] Instance B_bind : MBind B := fun _ _ f m c =>
  match m c with
  | (Done a, c') => f a c'
  | (Failed e, c') => (Failed e, c')
  end.

(** [try: body except Exception: handler]. *)
Definition try_except {A} (body : B A) (handler : B A) : B A := fun c =>
  match body c with
  | (Done a, c') => (Done a, c')
  | (Failed _, c') => handler c'
  end.

Definition print (m : message) : B unit := fun c =>
  (Done tt, {| datasets := datasets c; tables := tables c;
               api_calls := api_calls c; printed := printed c ++ [m] |}).

Variable S : service.

(** One call of the client: it is counted, and it fails when the service
    cannot be reached. *)
Definition call {A} (request : cloud -> outcome A * cloud) : B A := fun c =>
  let c' := {| datasets := datasets c; tables := tables c;
               api_calls := Datatypes.S (api_calls c);
               printed := printed c |} in
  if unavailable S (api_calls c) then (Failed ServiceUnavailable, c')
  else request c'.

(** [client.get_dataset]: NotFound for a dataset that does not exist. *)
Definition get_dataset (dataset : string) : B unit :=
  call (fun c =>
    (if decide (dataset ∈ datasets c) then Done tt else Failed NotFound, c)).

(** [client.create_dataset]: Conflict for a dataset that exists. *)
Definition create_dataset (dataset : string) : B unit :=
  call (fun c =>
    if decide (dataset ∈ datasets c) then (Failed Conflict, c)
    else (Done tt, {| datasets := {[dataset]} ∪ datasets c;
                      tables := tables c; api_calls := api_calls c;
                      printed := printed c |})).

(** [client.get_table]. *)
Definition get_table (dataset name : string) : B unit :=
  call (fun c =>
    (if tables c !! (dataset, name) is Some _ then Done tt
     else Failed NotFound, c)).

(** [client.create_table]: the dataset has to exist, the table not. *)
Definition create_table (dataset name : string)
    (schema : list (string * column_type)) : B unit :=
  call (fun c =>
    if decide (dataset ∈ datasets c) then
      if tables c !! (dataset, name) is Some _ then (Failed Conflict, c)
      else (Done tt,
            {| datasets := datasets c;
               tables := <[(dataset, name) :=
                            {| columns := schema; stored := [] |}]>
                           (tables c);
               api_calls := api_calls c; printed := printed c |})
    else (Failed NotFound, c)).

(** The positions of the rows that the service does not accept. *)
Fixpoint rejected_from (position : nat)
    (schema : list (string * column_type)) (rows : list json_row)
    : list nat :=
  match rows with
  | [] => []
  | row :: rest =>
      (if accepts S schema row then [] else [position])
      ++ rejected_from (Datatypes.S position) schema rest
  end.

Definition rejected (schema : list (string * column_type))
    (rows : list json_row) : list nat :=
  rejected_from 0 schema rows.

(** [client.insert_rows_json]: the rows are stored when all are accepted;
    otherwise none is, and the errors are returned. *)
Definition insert_rows_json (dataset name : string) (rows : list json_row)
    : B (list nat) :=
  call (fun c =>
    match tables c !! (dataset, name) with
    | None => (Failed NotFound, c)
    | Some t =>
        let errors := rejected (columns t) rows in
        if errors is [] then
          (Done [],
           {| datasets := datasets c;
              tables := <[(dataset, name) :=
                           {| columns := columns t;
                              stored := stored t ++ rows |}]> (tables c);
              api_calls := api_calls c; printed := printed c |})
        else (Done errors, c)
    end).

(** Lines 86 to 93. *)
Definition create_bigquery_dataset_if_not_exists : B unit :=
  try_except (get_dataset DATASET_ID)
    (create_dataset DATASET_ID;;
     print (CreatedDataset PROJECT_ID DATASET_ID)).

(** Lines 95 to 125. *)
Definition create_bigquery_table_if_not_exists : B unit :=
  try_except (get_table DATASET_ID TABLE_ID)
    (create_table DATASET_ID TABLE_ID schema;;
     print (CreatedTable PROJECT_ID DATASET_ID TABLE_ID)).

(** Lines 127 to 134. *)
Definition append_to_bigquery (rows : list (row F)) : B unit :=
  if rows is [] then mret tt
  else
    errors ← insert_rows_json DATASET_ID TABLE_ID (row_dict <$> rows);
    if errors is [] then mret tt else print (InsertErrors errors).

(** Lines 140 to 142, the first statements of [main]. *)
Definition set_up : B unit :=
  create_bigquery_dataset_if_not_exists;;
  create_bigquery_table_if_not_exists.

(** The batches of a run, handed over one after the other (line 273). *)
Fixpoint appends (batches : list (list (row F))) : B unit :=
  match batches with
  | [] => mret tt
  | rows :: rest => append_to_bigquery rows;; appends rest
  end.

End Cloud.
Arguments cloud F : clear implicits.
Arguments service F : clear implicits.
Arguments table F : clear implicits.
Arguments json_row F : clear implicits.
Arguments B F A : clear implicits.

End Sink.

(** ** The analysis script (analysis/analysis.py) *)

Module Analysis.

Definition PROJECT_ID : string := "unbiased-reporting".
Definition DATASET_ID : string := "unbiased-reporting".
Definition TABLE_ID : string := "crypto_quotes".

(** A cell of the data frame as a number (None: null or not a number) and
    as a label (None: null). *)
Definition number (row : Sink.json_row Q) (column : string) : option Q :=
  match dict_lookup row column with
  | Some (PyInt z) => Some (inject_Z z)
  | Some (PyFloat_ x) => Some x
  | _ => None
  end.

Definition label (row : Sink.json_row Q) (column : string) : option string :=
  match dict_lookup row column with
  | Some (PyStr s) => Some s
  | _ => None
  end.

(** Lines 26 and 27. *)
Definition bins : list Q := [0; 500; 5000; 30001]%Q.
Definition labels : list string :=
  ["Low (0-499)"; "Medium (500-4999)"; "High (5k+)"].

(** [pd.cut(x, bins=bins, labels=labels, right=False)] on one value: the
    edges at or below [x] are counted; no edge or every edge gives no bin,
    and so does a null. *)
Definition cut (bins : list Q) (labels : list string) (x : option Q)
    : option string :=
  x ← x;
  let ids := length (filter (fun edge => Qle_bool edge x = true) bins) in
  if Nat.eqb ids 0 || Nat.eqb ids (length bins) then None
  else labels !! (ids - 1)%nat.

(** Line 28: the [PriceBin] of a row. *)
Definition PriceBin (row : Sink.json_row Q) : option string :=
  cut bins labels (number row "Amount").

(** [c.isalnum()] and [c.isspace()] for the characters up to U+00FF. *)
Definition isalnum (c : ascii) : bool :=
  let n := nat_of_ascii c in
  ((48 <=? n) && (n <=? 57) || (65 <=? n) && (n <=? 90)
   || (97 <=? n) && (n <=? 122)
   || bool_decide (n ∈ [170; 178; 179; 181; 185; 186; 188; 189; 190])
   || (192 <=? n) && negb (Nat.eqb n 215) && negb (Nat.eqb n 247))%nat.

Definition isspace (c : ascii) : bool :=
  let n := nat_of_ascii c in
  ((9 <=? n) && (n <=? 13) || (28 <=? n) && (n <=? 32)
   || Nat.eqb n 133 || Nat.eqb n 160)%nat.

(** [s.rstrip()]. *)
Fixpoint rstrip (s : string) : string :=
  match s with
  | EmptyString => EmptyString
  | String c rest =>
      match rstrip rest with
      | EmptyString => if isspace c then EmptyString else String c EmptyString
      | kept => String c kept
      end
  end.

Fixpoint keep (f : ascii -> bool) (s : string) : string :=
  match s with
  | EmptyString => EmptyString
  | String c rest => if f c then String c (keep f rest) else keep f rest
  end.

(** Lines 60, 86 and 113: the crypto name as it goes into a file name. *)
Definition safe_crypto (crypto : string) : string :=
  rstrip (keep (fun c => isalnum c || Ascii.eqb c " " || Ascii.eqb c "_")
            crypto).

(** Lines 61, 87 and 114. *)
Definition rank_chart (crypto region : string) : string :=
  "rank_charts/Rank_" ++ safe_crypto crypto ++ "_" ++ region ++ ".html".
Definition fee_chart (crypto region : string) : string :=
  "fee_charts/Fee_" ++ safe_crypto crypto ++ "_" ++ region ++ ".html".
Definition rank_vs_fee_chart (crypto region : string) : string :=
  "rank_vs_fee_charts/RankVsFee_" ++ safe_crypto crypto ++ "_" ++ region
  ++ ".html".

(** [drop_duplicates()]: the first of equal rows is kept, in place. *)
Fixpoint drop_duplicates {A} `{EqDecision A} (l : list A) : list A :=
  match l with
  | [] => []
  | x :: rest => x :: filter (fun y => y <> x) (drop_duplicates rest)
  end.

(** Line 38. *)
Definition unique_combinations (df : list (Sink.json_row Q))
    : list (option string * option string) :=
  drop_duplicates
    (map (fun row => (label row "CryptoCurrency", label row "Region")) df).

(** [series == value]: a null equals nothing, not even a null. *)
Definition equals (cell value : option string) : bool :=
  match cell, value with
  | Some s, Some v => String.eqb s v
  | _, _ => false
  end.

(** Lines 44, 72 and 98. *)
Definition subset_df (df : list (Sink.json_row Q))
    (crypto region : option string) : list (Sink.json_row Q) :=
  filter (fun row => equals (label row "CryptoCurrency") crypto
                     && equals (label row "Region") region = true) df.

Inductive message : Type :=
  | Connecting
  | Loaded (rows : nat)
  | FailedToLoad
  | CreatingPriceBins
  | GeneratingRankCharts
  | GeneratingFeeCharts
  | GeneratingRankVsFeeCharts
  | Saved (filename : string)
  | AnalysisComplete.

(** What the script does besides computing: it prints, makes directories
    and writes charts. *)
Inductive output : Type :=
  | Printed (m : message)
  | MadeDir (path : string)
  | Wrote (filename : string).

(** What has been done, and the exception that ended it, if any. *)
Definition run : Type := list output * option exn.

Definition and_then (first second : run) : run :=
  match first with
  | (outputs, None) => ((outputs ++ second.1)%list, second.2)
  | (outputs, Some e) => (outputs, Some e)
  end.

(** One of the three loops over the combinations (lines 40 to 63, 68 to
    89, 94 to 116): a chart for each combination whose subset is not
    empty.  The characters of a null crypto name cannot be iterated
    (TypeError); a null region would be formatted as [None]. *)
Fixpoint charts (df : list (Sink.json_row Q))
    (filename : string -> string -> string)
    (combinations : list (option string * option string)) : run :=
  match combinations with
  | [] => ([], None)
  | (crypto, region) :: rest =>
      if subset_df df crypto region is [] then charts df filename rest
      else
        match crypto with
        | None => ([], Some TypeError)
        | Some name =>
            let file := filename name (default "None" region) in
            and_then ([Wrote file; Printed (Saved file)], None)
              (charts df filename rest)
        end
  end.

(** Lines 25 to 118, on the rows loaded. *)
Definition analyse (df : list (Sink.json_row Q)) : run :=
  let combinations := unique_combinations df in
  and_then
    ([Printed CreatingPriceBins; MadeDir "rank_charts";
      MadeDir "fee_charts"; MadeDir "rank_vs_fee_charts";
      Printed GeneratingRankCharts], None)
    (and_then (charts df rank_chart combinations)
       (and_then ([Printed GeneratingFeeCharts], None)
          (and_then (charts df fee_chart combinations)
             (and_then ([Printed GeneratingRankVsFeeCharts], None)
                (and_then (charts df rank_vs_fee_chart combinations)
                   ([Printed AnalysisComplete], None)))))).

(** The query of line 15: every row of the table; NotFound when the
    dataset or the table does not exist. *)
Definition query (S : Sink.service Q) : Sink.B Q (list (Sink.json_row Q)) :=
  Sink.call S (fun c =>
    (if decide (DATASET_ID ∈ Sink.datasets c) then
       match Sink.tables c !! (DATASET_ID, TABLE_ID) with
       | Some t => Sink.Done (Sink.stored t)
       | None => Sink.Failed Sink.NotFound
       end
     else Sink.Failed Sink.NotFound, c)).

(** The script: when the rows cannot be loaded it exits (lines 17 to
    22). *)
Definition script (S : Sink.service Q) (c : Sink.cloud Q)
    : run * Sink.cloud Q :=
  match query S c with
  | (Sink.Done df, c') =>
      (and_then ([Printed Connecting; Printed (Loaded (length df))], None)
         (analyse df), c')
  | (Sink.Failed _, c') =>
      (([Printed Connecting; Printed FailedToLoad], None), c')
  end.

(** The characters kept in a file name. *)
Definition kept_char (c : ascii) : bool :=
  isalnum c || Ascii.eqb c " " || Ascii.eqb c "_".

(** The last character of [s] is not white space. *)
Fixpoint ends_clean (s : string) : bool :=
  match s with
  | EmptyString => true
  | String c EmptyString => negb (isspace c)
  | String _ rest => ends_clean rest
  end.



(** What the analysis can see of the project: whether its dataset exists,
    and its table. *)
Definition view (c : Sink.cloud Q) : bool * option (Sink.table Q) :=
  (bool_decide (DATASET_ID ∈ Sink.datasets c),
   Sink.tables c !! (DATASET_ID, TABLE_ID)).

End Analysis.

(** ** The URLs (lines 16 to 23 and 53 to 67) *)

(** The characters that [urllib.parse.quote] never encodes: ASCII letters
    and digits and [_.-~]. *)
Definition unreserved (c : ascii) : bool :=
  let n := nat_of_ascii c in
  ((48 <=? n) && (n <=? 57) || (65 <=? n) && (n <=? 90)
   || (97 <=? n) && (n <=? 122)
   || bool_decide (n ∈ [45; 46; 95; 126]))%nat.

Definition hex_digit (n : nat) : ascii :=
  ascii_of_nat (if (n <? 10)%nat then 48 + n else 55 + n).

(** [%XX] for one byte. *)
Definition percent (byte : nat) : string :=
  String "%" (String (hex_digit (byte / 16))
                (String (hex_digit (byte mod 16)) EmptyString)).

(** One character in a URL: itself when it is unreserved or a slash,
    otherwise its UTF-8 bytes, percent-encoded (one byte up to U+007F, two
    up to U+00FF). *)
Definition quote_char (c : ascii) : string :=
  let n := nat_of_ascii c in
  if unreserved c || Ascii.eqb c "/" then String c EmptyString
  else if (n <? 128)%nat then percent n
  else percent (192 + n / 64) ++ percent (128 + n mod 64).

(** [requests.utils.quote(s)], that is [urllib.parse.quote(s, safe='/')]. *)
Fixpoint quote (s : string) : string :=
  match s with
  | EmptyString => EmptyString
  | String c rest => quote_char c ++ quote rest
  end.

(** [f"{amount}"] for an int. *)
Definition str (z : Z) : string := NilZero.string_of_int (Z.to_int z).

(** The URL of a request: lines 16 to 23 for the rate endpoint, lines 56
    to 67 for the quote endpoint, whose wallet address is empty. *)
Definition url (r : request) : string :=
  match r with
  | RateRequest chain_id token_address fiat =>
      "https://on-ramp-cache.api.cx.metamask.io/currencies/crypto/"
      ++ chain_id ++ "/" ++ token_address ++ "/amount"
      ++ "?value=1"
      ++ "&fiat=%2Fcurrencies%2Ffiat%2F" ++ fiat
      ++ "&sdk=2.1.8"
      ++ "&context=browser"
      ++ "&keys="
  | QuoteRequest region crypto_currency_id fiat amount payment_method_id =>
      "https://on-ramp.api.cx.metamask.io/providers/all/quote?"
      ++ "regionId=%2Fregions%2F" ++ region
      ++ "&cryptoCurrencyId=" ++ quote crypto_currency_id
      ++ "&fiatCurrencyId=%2Fcurrencies%2Ffiat%2F" ++ fiat
      ++ "&amount=" ++ str amount
      ++ "&paymentMethodId%5B0%5D=" ++ quote payment_method_id
      ++ "&walletAddress=" ++ ""
      ++ "&sdk=2.1.8"
      ++ "&context=browser"
      ++ "&keys="
  end.

(** What [quote] can produce: the characters it keeps, and [%]. *)
Definition quoted_char (c : ascii) : bool :=
  unreserved c || Ascii.eqb c "/" || Ascii.eqb c "%".

(** The first character that a quoted string encodes, and the rest. *)
Definition unhex (c : ascii) : nat :=
  let n := nat_of_ascii c in
  (if n <? 58 then n - 48 else n - 55)%nat.

Definition unquote_char (s : string) : option (ascii * string) :=
  match s with
  | String "%" (String a (String b rest)) =>
      let n := (16 * unhex a + unhex b)%nat in
      if (n <? 128)%nat then Some (ascii_of_nat n, rest)
      else
        match rest with
        | String "%" (String a' (String b' rest')) =>
            let m := (16 * unhex a' + unhex b')%nat in
            Some (ascii_of_nat ((n - 192) * 64 + (m - 128)), rest')
        | _ => None
        end
  | String c rest => Some (c, rest)
  | EmptyString => None
  end.

(** ** What can end a sweep, and what an entry is *)

(** The exceptions that wrong data raises. *)
Definition is_data_error (e : exn) : bool :=
  match e with
  | TypeError | AttributeError | OverflowError => true
  | _ => false
  end.

Definition is_dict {F} (v : pyval F) : bool :=
  match v with
  | PyDict _ => true
  | _ => false
  end.

(** ** More samples *)

(** An upstream whose rate endpoint answers 2000 and whose quote endpoint
    answers the first requests with three providers and the later ones
    with none; each clock reading is a letter of its own. *)
Definition stamping_upstream : environment float :=
  {| upstream n r :=
       match r with
       | RateRequest _ _ _ =>
           Response 200 (Some (PyDict [("value", PyInt 2000)]))
       | QuoteRequest _ _ _ _ _ =>
           Response 200
             (Some (if (n <? 3)%nat then three_providers
                    else PyDict [("success", PyList [])]))
       end;
     clock n := String (ascii_of_nat (65 + n)) EmptyString;
     float_of_str _ := None |}.

(** An upstream that answers every request with an empty object. *)
Definition valueless_upstream : environment float :=
  {| upstream _ _ := Response 200 (Some (PyDict []));
     clock _ := "2024-01-01T00:00:00";
     float_of_str _ := None |}.

(** The metrics of the worked example, in binary64 and in exact
    arithmetic. *)
Definition example_metrics : metrics float :=
  Eval vm_compute in
    match derive (Some 2000%float) (example_quote 0.49%float) with
    | Ok m => m
    | Raise _ =>
        {| expected_amount_out := PyNone; spread := PyNone;
           spread_percentage := PyNone; spread_in_fiat := PyNone;
           total_explicit_fee := PyNone;
           total_fee_including_spread := PyNone;
           total_fee_percentage := PyNone |}
    end.

Definition exact_example_metrics : metrics Q :=
  Eval vm_compute in
    match derive (Some 2000%Q) (example_quote (49 # 100)%Q) with
    | Ok m => m
    | Raise _ =>
        {| expected_amount_out := PyNone; spread := PyNone;
           spread_percentage := PyNone; spread_in_fiat := PyNone;
           total_explicit_fee := PyNone;
           total_fee_including_spread := PyNone;
           total_fee_percentage := PyNone |}
    end.

Definition example_row : row float :=
  make_row sample_labels (Some 2000%float) 1 "2024-01-01T00:00:00"
    (example_quote 0.49%float) example_metrics.

(** A service that is always reached and accepts every row, and one that
    loses the first call. *)
Definition reachable {F} : Sink.service F :=
  {| Sink.unavailable _ := false; Sink.accepts _ _ := true |}.

Definition first_call_lost {F} : Sink.service F :=
  {| Sink.unavailable n := Nat.eqb n 0; Sink.accepts _ _ := true |}.

(** A project without datasets, and one set up. *)
Definition empty_project {F} : Sink.cloud F :=
  {| Sink.datasets := ∅; Sink.tables := ∅; Sink.api_calls := 0;
     Sink.printed := [] |}.

Definition project_set_up {F} : Sink.cloud F :=
  {| Sink.datasets := {[Sink.DATASET_ID]};
     Sink.tables :=
       {[(Sink.DATASET_ID, Sink.TABLE_ID) :=
           {| Sink.columns := schema; Sink.stored := [] |}]};
     Sink.api_calls := 0; Sink.printed := [] |}.

(** * Properties *)

(** ** The two float instances satisfy the laws *)

Lemma binary64_pos_nonzero (x : float) :
  Binary64.pos x = true -> Binary64.is_zero x = false.
Proof.
  unfold Binary64.pos, Binary64.is_zero.
  rewrite FloatAxioms.ltb_spec, FloatAxioms.eqb_spec.
  change (Prim2SF 0) with (S754_zero false).
  destruct (Prim2SF x) as [s| s| |s m e]; try destruct s; cbn; congruence.
Qed.

Lemma small_int_below_overflow :
  8 * small_int_bound < Binary64.overflow_threshold.
Proof. reflexivity. Qed.

Lemma binary64_of_int_small (z : Z) :
  Z.abs z <= 8 * small_int_bound -> is_Some (Binary64.of_int z).
Proof.
  intros Hz. unfold Binary64.of_int.
  pose proof small_int_below_overflow as Hb.
  destruct (Z.ltb_spec (Z.abs z) Binary64.overflow_threshold); [eauto | lia].
Qed.

Lemma binary64_int_div_small (a b : Z) :
  Z.abs a <= 8 * small_int_bound -> b <> 0 -> is_Some (Binary64.int_div a b).
Proof.
  intros Ha Hb. unfold Binary64.int_div.
  pose proof small_int_below_overflow as Hs.
  destruct (Z.ltb_spec (Z.abs a) (Binary64.overflow_threshold * Z.abs b))
    as [_ | Hge].
  - destruct (Z.div_eucl _ _); eauto.
  - exfalso. generalize dependent Binary64.overflow_threshold.
    generalize dependent small_int_bound. intros. nia.
Qed.

#[global] Instance binary64_laws : PyFloatLaws float.
Proof.
  split.
  - exact binary64_pos_nonzero.
  - exact binary64_of_int_small.
  - exact binary64_int_div_small.
Qed.

Lemma exact_pos_nonzero (x : Q) :
  Exact.pos x = true -> Exact.is_zero x = false.
Proof.
  unfold Exact.pos, Exact.is_zero. intros Hpos.
  destruct (Qeq_bool x 0) eqn:Hz; [| reflexivity].
  apply Qeq_bool_iff in Hz. apply negb_true_iff in Hpos.
  assert (Qle_bool x 0 = true) as Hle
    by (apply Qle_bool_iff; rewrite Hz; apply Qle_refl).
  congruence.
Qed.

#[global] Instance exact_laws : PyFloatLaws Q.
Proof.
  split.
  - exact exact_pos_nonzero.
  - intros z _. cbn. eauto.
  - intros a b _ _. cbn. eauto.
Qed.

(** ** Arithmetic on bounded numbers never raises *)

#[global] Arguments py_sub : simpl never.
#[global] Arguments py_add : simpl never.
#[global] Arguments py_mul : simpl never.
#[global] Arguments py_truediv : simpl never.
#[global] Arguments py_gt0 : simpl never.
#[global] Arguments expected_at_market : simpl never.
#[global] Arguments truthy : simpl never.

Section Arithmetic.
Context {F : Type} `{PyFloatLaws F}.
Implicit Types (a b c v : pyval F) (x y r : F).

Lemma small_int_bound_pos : 0 < small_int_bound.
Proof. reflexivity. Qed.

Lemma within_small v : small_number v = true -> within 1 v.
Proof.
  unfold small_number, within.
  destruct (as_num v) as [[z | x] |]; try done.
  intros Hz%Z.leb_le. lia.
Qed.

Lemma within_weaken j k v : j <= k -> within j v -> within k v.
Proof.
  unfold within. pose proof small_int_bound_pos.
  destruct (as_num v) as [[z | x] |]; try done. nia.
Qed.

Lemma within_int k z :
  Z.abs z <= k * small_int_bound -> within k (PyInt z : pyval F).
Proof. done. Qed.

Lemma within_float k x : within k (PyFloat_ x).
Proof. done. Qed.

Lemma to_float_within k v n :
  0 <= k <= 8 -> within k v -> as_num v = Some n -> exists x, to_float n = Ok x.
Proof.
  unfold within. intros Hk Hv Hn. rewrite Hn in Hv.
  destruct n as [z | x]; cbn; [| eauto].
  destruct (f_of_int_small (F:=F) z) as [x ->]; [| cbn; eauto].
  pose proof small_int_bound_pos. nia.
Qed.

(** Subtraction and addition of bounded numbers return a bounded number. *)
Lemma arith_within (int_op : Z -> Z -> Z) (float_op : F -> F -> F) j k a b :
  (forall m n : Z, Z.abs (int_op m n) <= Z.abs m + Z.abs n) ->
  0 <= j -> 0 <= k -> j + k <= 8 -> within j a -> within k b ->
  exists c, arith int_op float_op a b = Ok c /\ within (j + k) c.
Proof.
  intros Hop Hj Hk Hjk Ha Hb. unfold arith.
  destruct (as_num a) as [na |] eqn:Ea;
    [| unfold within in Ha; by rewrite Ea in Ha].
  destruct (as_num b) as [nb |] eqn:Eb;
    [| unfold within in Hb; by rewrite Eb in Hb].
  destruct (to_float_within j a na) as [fa Hfa]; [lia | done | done |].
  destruct (to_float_within k b nb) as [fb Hfb]; [lia | done | done |].
  unfold within in Ha, Hb. rewrite Ea in Ha. rewrite Eb in Hb.
  destruct na as [m | x], nb as [n | y]; cbn in *;
    rewrite ?Hfa, ?Hfb; cbn; eexists; (split; [done |]); try done.
  apply within_int. specialize (Hop m n). lia.
Qed.

Lemma py_sub_within j k a b :
  0 <= j -> 0 <= k -> j + k <= 8 -> within j a -> within k b ->
  exists c, py_sub a b = Ok c /\ within (j + k) c.
Proof. apply arith_within. lia. Qed.

Lemma py_add_within j k a b :
  0 <= j -> 0 <= k -> j + k <= 8 -> within j a -> within k b ->
  exists c, py_add a b = Ok c /\ within (j + k) c.
Proof.
  intros Hj Hk Hjk Ha Hb.
  assert (py_add a b = arith Z.add f_add a b) as ->.
  { destruct a, b; try done; by cbv in Ha, Hb. }
  apply arith_within; try done. lia.
Qed.

Lemma py_gt0_float x : py_gt0 (PyFloat_ x) = Ok (f_pos x).
Proof. done. Qed.

Lemma py_gt0_int (z : Z) : py_gt0 (PyInt z : pyval F) = Ok (0 <? z).
Proof. done. Qed.

Lemma py_gt0_within k a : within k a -> exists p, py_gt0 a = Ok p.
Proof.
  unfold within, py_gt0. destruct (as_num a) as [[z | x] |]; by eauto.
Qed.

(** A divisor that passed [> 0] is not zero. *)
Lemma py_truediv_within j k a b :
  0 <= j <= 8 -> 0 <= k <= 8 -> within j a -> within k b ->
  py_gt0 b = Ok true ->
  exists x, py_truediv a b = Ok (PyFloat_ x).
Proof.
  intros Hj Hk Ha Hb Hpos. unfold py_truediv, py_gt0 in *.
  destruct (as_num a) as [na |] eqn:Ea;
    [| unfold within in Ha; by rewrite Ea in Ha].
  destruct (as_num b) as [nb |] eqn:Eb; [| done].
  destruct (to_float_within j a na) as [fa Hfa]; [done | done | done |].
  destruct (to_float_within k b nb) as [fb Hfb]; [done | done | done |].
  unfold within in Ha, Hb. rewrite Ea in Ha. rewrite Eb in Hb.
  pose proof small_int_bound_pos as Hbound.
  destruct na as [m | x], nb as [n | y]; cbn in *.
  - assert (0 < n) as Hn by (apply Z.ltb_lt; congruence).
    assert ((n =? 0) = false) as -> by lia.
    destruct (f_int_div_small (F:=F) m n) as [q ->]; [nia | lia |].
    cbn. eauto.
  - rewrite Hfa. cbn. rewrite f_pos_nonzero; [eauto | congruence].
  - assert (0 < n) as Hn by (apply Z.ltb_lt; congruence).
    rewrite Hfb. cbn. assert ((n =? 0) = false) as -> by lia. eauto.
  - rewrite f_pos_nonzero; [eauto | congruence].
Qed.

Lemma py_truediv_rate k a r :
  0 <= k <= 8 -> within k a -> f_pos r = true ->
  exists x, py_truediv a (PyFloat_ r) = Ok (PyFloat_ x).
Proof.
  intros Hk Ha Hr. apply (py_truediv_within k 0); try done.
  by rewrite py_gt0_float, Hr.
Qed.

Lemma py_sub_from_float k x b :
  0 <= k <= 8 -> within k b ->
  exists y, py_sub (PyFloat_ x) b = Ok (PyFloat_ y).
Proof.
  intros Hk Hb. unfold py_sub, arith. cbn.
  destruct (as_num b) as [nb |] eqn:Eb;
    [| unfold within in Hb; by rewrite Eb in Hb].
  destruct (to_float_within k b nb) as [fb ->]; [done | done | done |].
  cbn. eauto.
Qed.

Lemma py_mul_float_int x (n : Z) :
  Z.abs n <= 8 * small_int_bound ->
  exists y, py_mul (PyFloat_ x) (PyInt n) = Ok (PyFloat_ y).
Proof.
  intros Hn. unfold py_mul, arith. cbn.
  destruct (f_of_int_small (F:=F) n) as [c ->]; [done |]. cbn. eauto.
Qed.

Lemma py_mul_floats x y :
  py_mul (PyFloat_ x) (PyFloat_ y) = Ok (PyFloat_ (f_mul x y)).
Proof. done. Qed.

Lemma hundred_small : Z.abs 100 <= 8 * small_int_bound.
Proof. by vm_compute. Qed.

(** A quotient turned into a percentage: [(a / b) * 100]. *)
Lemma percentage_within j k a b :
  0 <= j <= 8 -> 0 <= k <= 8 -> within j a -> within k b ->
  py_gt0 b = Ok true ->
  exists x,
    (ratio ← py_truediv a b; py_mul ratio (PyInt 100)) = Ok (PyFloat_ x).
Proof.
  intros Hj Hk Ha Hb Hpos.
  destruct (py_truediv_within j k a b) as [q ->]; try done. cbn.
  apply py_mul_float_int, hundred_small.
Qed.

End Arithmetic.

(** ** The derivation is total on well-formed quotes *)

Section DeriveTotal.
Context {F : Type} `{PyFloatLaws F}.
Implicit Types (q : raw_quote F) (rate : F) (market_rate : option F).

Lemma well_formed_fields q :
  well_formed q = true ->
  within 1 (amount_in q)
  /\ (truthy (amount_out q) = true -> within 1 (amount_out q))
  /\ within 1 (network_fee q) /\ within 1 (provider_fee q)
  /\ within 1 (extra_fee q).
Proof.
  unfold well_formed. rewrite !andb_true_iff, orb_true_iff, negb_true_iff.
  intros [[[[Hin Hout] Hn] Hp] He].
  repeat split; try by apply within_small.
  intros Ht. destruct Hout as [Hf | Hs]; [congruence | by apply within_small].
Qed.

Lemma rate_usable_pos rate :
  rate_usable (Some rate) = true -> f_pos rate = true.
Proof. cbn. by intros [_ ?]%andb_true_iff. Qed.

Lemma expected_at_market_total rate q :
  well_formed q = true -> f_pos rate = true ->
  exists x, expected_at_market rate q = Ok (PyFloat_ x).
Proof.
  intros (Hin & _ & Hn & Hp & He)%well_formed_fields Hrate.
  unfold expected_at_market.
  destruct (py_sub_within 1 1 (amount_in q) (network_fee q))
    as (t1 & -> & Ht1); try done. cbn.
  destruct (py_sub_within 2 1 t1 (provider_fee q))
    as (t2 & -> & Ht2); try done. cbn.
  destruct (py_sub_within 3 1 t2 (extra_fee q))
    as (t3 & -> & Ht3); try done. cbn.
  by apply (py_truediv_rate 4).
Qed.

Lemma spread_fields_total market_rate q :
  well_formed q = true ->
  exists e s p f, spread_fields market_rate q = Ok (e, s, p, f) /\ within 0 f.
Proof.
  intros Hq. unfold spread_fields.
  destruct market_rate as [rate |]; [| by do 4 eexists].
  destruct (rate_usable (Some rate)) eqn:Hu; [| by do 4 eexists].
  destruct (truthy (amount_in q)) eqn:Hin; [| by do 4 eexists]. cbn.
  apply rate_usable_pos in Hu.
  destruct (expected_at_market_total rate q) as [x ->]; try done. cbn.
  destruct (truthy (amount_out q)) eqn:Hout; [| by do 4 eexists].
  apply well_formed_fields in Hq as (_ & Ho & _). specialize (Ho Hout).
  destruct (py_sub_from_float 1 x (amount_out q)) as [s ->]; try done. cbn.
  rewrite py_gt0_float, py_mul_floats. cbn.
  destruct (f_pos x) eqn:Hx.
  - destruct (percentage_within 0 0 (PyFloat_ s) (PyFloat_ x : pyval F))
      as [p ->]; try done; [by rewrite py_gt0_float, Hx |].
    cbn. by do 4 eexists.
  - cbn. by do 4 eexists.
Qed.

(** A well-formed quote always yields its metrics. *)
Lemma derive_total market_rate q :
  well_formed q = true -> returns (derive market_rate q).
Proof.
  intros Hq. unfold derive.
  destruct (spread_fields_total market_rate q Hq) as (e & s & p & f & -> & Hf).
  apply well_formed_fields in Hq as (Hin & _ & Hn & Hp & He). cbn.
  destruct (py_add_within 1 1 (network_fee q) (provider_fee q))
    as (fees & -> & Hfees); try done. cbn.
  destruct (py_add_within 2 1 fees (extra_fee q))
    as (explicit & -> & Hexplicit); try done. cbn.
  destruct (py_add_within 3 0 explicit f) as (total & -> & Htotal); try done.
  cbn.
  destruct (py_gt0_within 1 (amount_in q) Hin) as [[] Hpos]; rewrite Hpos; cbn.
  - destruct (percentage_within 3 1 total (amount_in q)) as [x ->]; try done.
    by eexists.
  - by eexists.
Qed.

End DeriveTotal.

(** ** Exact arithmetic computes the rational value *)

Section ExactArithmetic.
Implicit Types (a b c : pyval Q).
Local Open Scope Q_scope.

Lemma exact_to_float (n : num Q) (x : Q) v :
  as_num v = Some n -> to_float n = Ok x -> x == exact_value v.
Proof.
  unfold exact_value. intros -> Hx.
  destruct n; cbn in Hx; injection Hx as <-; reflexivity.
Qed.

Lemma exact_arith (int_op : Z -> Z -> Z) (q_op : Q -> Q -> Q) a b c :
  (forall m n : Z, inject_Z (int_op m n) == q_op (inject_Z m) (inject_Z n)) ->
  arith int_op (fun x y => Qred (q_op x y)) a b = Ok c ->
  Proper (Qeq ==> Qeq ==> Qeq) q_op ->
  exact_value c == q_op (exact_value a) (exact_value b).
Proof.
  intros Hop Hc Hproper. unfold arith in Hc.
  destruct (as_num a) as [na |] eqn:Ea; [| done].
  destruct (as_num b) as [nb |] eqn:Eb; [| by destruct na].
  unfold exact_value at 2 3. rewrite Ea, Eb.
  destruct na as [m | x], nb as [n | y]; cbn in Hc;
    injection Hc as <-; unfold exact_value; cbn;
    rewrite ?Qred_correct; auto; reflexivity.
Qed.

Lemma exact_sub a b c :
  py_sub a b = Ok c -> exact_value c == exact_value a - exact_value b.
Proof.
  intros Hc. apply (exact_arith Z.sub Qminus); [| exact Hc | tc_solve].
  intros m n. unfold Z.sub. rewrite inject_Z_plus, inject_Z_opp. reflexivity.
Qed.

Lemma exact_add a b c :
  is_Some (as_num a) -> py_add a b = Ok c ->
  exact_value c == exact_value a + exact_value b.
Proof.
  intros [na Ha] Hc.
  apply (exact_arith Z.add Qplus);
    [intros m n; rewrite inject_Z_plus; reflexivity | | tc_solve].
  destruct a, b; try done.
Qed.

Lemma exact_truediv a b c :
  py_truediv a b = Ok c -> exact_value c == exact_value a / exact_value b.
Proof.
  unfold py_truediv. intros Hc.
  destruct (as_num a) as [na |] eqn:Ea; [| done].
  destruct (as_num b) as [nb |] eqn:Eb; [| by destruct na].
  unfold exact_value at 2 3. rewrite Ea, Eb.
  destruct na as [m | x], nb as [n | y]; cbn in Hc.
  - destruct (Z.eqb n 0); [done |]. injection Hc as <-.
    unfold exact_value; cbn. apply Qred_correct.
  - destruct (Exact.is_zero y); [done |]. injection Hc as <-.
    unfold exact_value; cbn. apply Qred_correct.
  - destruct (Z.eqb n 0); [done |]. injection Hc as <-.
    unfold exact_value; cbn. apply Qred_correct.
  - destruct (Exact.is_zero y); [done |]. injection Hc as <-.
    unfold exact_value; cbn. apply Qred_correct.
Qed.

Lemma exact_expected_at_market (rate : Q) (q : raw_quote Q) e :
  expected_at_market rate q = Ok e ->
  exact_value e ==
    (exact_value (amount_in q) - exact_value (network_fee q)
     - exact_value (provider_fee q) - exact_value (extra_fee q)) / rate.
Proof.
  unfold expected_at_market. intros He.
  destruct (py_sub (amount_in q) (network_fee q)) as [t1 |] eqn:E1; [| done].
  cbn in He.
  destruct (py_sub t1 (provider_fee q)) as [t2 |] eqn:E2; [| done].
  cbn in He.
  destruct (py_sub t2 (extra_fee q)) as [t3 |] eqn:E3; [| done].
  cbn in He.
  apply exact_truediv in He. apply exact_sub in E1, E2, E3.
  rewrite He, E3, E2, E1. reflexivity.
Qed.

End ExactArithmetic.

(** ** The derived metrics *)

Section Derive.
Context {F : Type} `{PyFloatLaws F}.
Implicit Types (q : raw_quote F) (rate : F) (market_rate : option F).

Lemma rate_usable_of_pos rate :
  f_pos rate = true -> rate_usable (Some rate) = true.
Proof. intros Hr. cbn. by rewrite (f_pos_nonzero _ Hr), Hr. Qed.

(** What [derive] returns, read back line by line. *)
Lemma derive_Ok market_rate q m :
  derive market_rate q = Ok m ->
  exists fees,
    spread_fields market_rate q =
      Ok (expected_amount_out m, spread m, spread_percentage m,
          spread_in_fiat m)
    /\ py_add (network_fee q) (provider_fee q) = Ok fees
    /\ py_add fees (extra_fee q) = Ok (total_explicit_fee m)
    /\ py_add (total_explicit_fee m) (spread_in_fiat m) =
         Ok (total_fee_including_spread m)
    /\ exists positive,
         py_gt0 (amount_in q) = Ok positive
         /\ (if positive : bool then
               ratio ←
                 py_truediv (total_fee_including_spread m) (amount_in q);
               py_mul ratio (PyInt 100)
             else Ok (PyInt 0)) = Ok (total_fee_percentage m).
Proof.
  unfold derive. intros Hm.
  destruct (spread_fields market_rate q) as [[[[e s] p] f] |]; [| done].
  cbn in Hm.
  destruct (py_add (network_fee q) (provider_fee q)) as [fees |]; [| done].
  cbn in Hm.
  destruct (py_add fees (extra_fee q)) as [explicit |] eqn:E2; [| done].
  cbn in Hm.
  destruct (py_add explicit f) as [total |] eqn:E3; [| done]. cbn in Hm.
  destruct (py_gt0 (amount_in q)) as [positive |] eqn:E4; [| done].
  cbn in Hm.
  destruct (if positive then _ else _) as [pct |] eqn:E5; [| done].
  cbn in Hm. injection Hm as <-. cbn. eauto 10.
Qed.

(** Lines 222 to 226 on a usable rate and a true [amount_in]. *)
Lemma spread_fields_usable rate q :
  f_pos rate = true -> truthy (amount_in q) = true ->
  spread_fields (Some rate) q =
    (expected ← expected_at_market rate q;
     if truthy (amount_out q) then
       spread ← py_sub expected (amount_out q);
       positive ← py_gt0 expected;
       percentage ←
         (if positive : bool then
            ratio ← py_truediv spread expected; py_mul ratio (PyInt 100)
          else Ok (PyInt 0));
       in_fiat ← py_mul spread (PyFloat_ rate);
       Ok (expected, spread, percentage, in_fiat)
     else Ok (expected, PyInt 0, PyInt 0, PyInt 0)).
Proof.
  intros Hr Hin. unfold spread_fields.
  by rewrite (rate_usable_of_pos _ Hr), Hin.
Qed.

Lemma spread_fields_degraded market_rate q :
  rate_usable market_rate && truthy (amount_in q) = false ->
  spread_fields market_rate q = Ok (PyInt 0, PyInt 0, PyInt 0, PyInt 0).
Proof.
  unfold spread_fields. intros Hd.
  destruct market_rate as [rate |]; [| done]. by rewrite Hd.
Qed.

End Derive.

(** Inversion of one successful bind in a hypothesis. *)
Ltac bind_inv H :=
  match type of H with
  | mbind _ ?r = Ok _ =>
      let E := fresh "E" in
      destruct r eqn:E; cbn in H; [| discriminate H]
  end.

Lemma read_item_fields {F} (items : list (string * pyval F)) fields q :
  read_item (PyDict items) = Ok q ->
  dict_lookup items "quote" = Some (PyDict fields) ->
  amount_in q = default PyNone (dict_lookup fields "amountIn")
  /\ amount_out q = default PyNone (dict_lookup fields "amountOut")
  /\ network_fee q = default (PyInt 0) (dict_lookup fields "networkFee")
  /\ provider_fee q = default (PyInt 0) (dict_lookup fields "providerFee")
  /\ extra_fee q = default (PyInt 0) (dict_lookup fields "extraFee").
Proof.
  unfold read_item. intros Hq Hquote. cbn in Hq.
  destruct (py_get (default (PyDict []) (dict_lookup items "providerInfo")) _ _)
    as [name |]; [| done].
  cbn in Hq. rewrite Hquote in Hq. cbn in Hq. by injection Hq as <-.
Qed.

(** C1: with a market rate above 0 and a true [amountIn], the expected
    amount out is [(amountIn - networkFee - providerFee - extraFee) / rate],
    computed left to right with Python's [-] and [/]; in exact arithmetic
    that is the rational quotient; fees absent from the quote read as 0.
    On the worked example (1000 in, fees 5, 10 and 0, rate 2000, 0.49 out)
    exact arithmetic gives 0.4925, 0.0025, 100/197 = 0.5076..., 5, 15, 20
    and 2, and binary64 gives 0.4925 and 15 exactly and the other figures
    within rounding error: 0.0025000000000000022, 0.5076142131979701,
    5.000000000000004, 20.000000000000004, 2.0000000000000004. *)
Theorem expected_amount_out_at_market_rate :
  (forall (F : Type) (HF : PyFloat F) (HL : PyFloatLaws F)
          (rate : F) (q : raw_quote F),
     f_pos rate = true -> truthy (amount_in q) = true ->
     well_formed q = true ->
     exists m e,
       derive (Some rate) q = Ok m
       /\ (t1 ← py_sub (amount_in q) (network_fee q);
           t2 ← py_sub t1 (provider_fee q);
           after_fees ← py_sub t2 (extra_fee q);
           py_truediv after_fees (PyFloat_ rate)) = Ok e
       /\ expected_amount_out m = e)
  /\ (forall (rate : Q) (q : raw_quote Q) (m : metrics Q),
        f_pos rate = true -> truthy (amount_in q) = true ->
        derive (Some rate) q = Ok m ->
        (exact_value (expected_amount_out m) ==
           (exact_value (amount_in q) - exact_value (network_fee q)
            - exact_value (provider_fee q) - exact_value (extra_fee q))
           / rate)%Q)
  /\ (forall (F : Type) (items fields : list (string * pyval F)) q,
        read_item (PyDict items) = Ok q ->
        dict_lookup items "quote" = Some (PyDict fields) ->
        network_fee q = default (PyInt 0) (dict_lookup fields "networkFee")
        /\ provider_fee q = default (PyInt 0) (dict_lookup fields "providerFee")
        /\ extra_fee q = default (PyInt 0) (dict_lookup fields "extraFee"))
  /\ (read_item (example_item 0.49%Q) = Ok (example_quote 0.49%Q)
      /\ exists m : metrics Q,
        derive (Some 2000%Q) (example_quote 0.49%Q) = Ok m
        /\ (exact_value (expected_amount_out m) == 0.4925
            /\ exact_value (spread m) == 0.0025
            /\ exact_value (spread_percentage m) == 100 / 197
            /\ 0.5076 < exact_value (spread_percentage m) < 0.5077
            /\ exact_value (spread_in_fiat m) == 5
            /\ exact_value (total_fee_including_spread m) == 20
            /\ exact_value (total_fee_percentage m) == 2)%Q
        /\ total_explicit_fee m = PyInt 15)
  /\ (read_item (example_item 0.49%float) = Ok (example_quote 0.49%float)
      /\ derive (Some 2000%float) (example_quote 0.49%float) =
         Ok {| expected_amount_out := PyFloat_ 0.4925%float;
               spread := PyFloat_ 0.0025000000000000022%float;
               spread_percentage := PyFloat_ 0.5076142131979701%float;
               spread_in_fiat := PyFloat_ 5.000000000000004%float;
               total_explicit_fee := PyInt 15;
               total_fee_including_spread := PyFloat_ 20.000000000000004%float;
               total_fee_percentage := PyFloat_ 2.0000000000000004%float |}
      /\ close_to 0.0025000000000000022 0.0025 1e-17 = true
      /\ close_to 0.5076142131979701 0.5076 1e-4 = true
      /\ close_to 5.000000000000004 5 1e-14 = true
      /\ close_to 20.000000000000004 20 1e-14 = true
      /\ close_to 2.0000000000000004 2 1e-15 = true).
Proof.
  split; [| split; [| split; [| split]]].
  - intros F HF HL rate q Hrate Hin Hq.
    destruct (derive_total (Some rate) q Hq) as [m Hm].
    destruct (expected_at_market_total rate q Hq Hrate) as [x Hx].
    exists m, (PyFloat_ x). split; [done |]. split; [exact Hx |].
    apply derive_Ok in Hm as (_ & Hs & _).
    rewrite spread_fields_usable, Hx in Hs by done. cbn in Hs.
    destruct (truthy (amount_out q)); [| by injection Hs as <-].
    repeat bind_inv Hs. by injection Hs as <-.
  - intros rate q m Hrate Hin Hm.
    apply derive_Ok in Hm as (_ & Hs & _).
    rewrite spread_fields_usable in Hs by done.
    destruct (expected_at_market rate q) as [e |] eqn:He; [| done].
    apply exact_expected_at_market in He. rewrite <- He. cbn in Hs.
    destruct (truthy (amount_out q)); [| by injection Hs as <-].
    repeat bind_inv Hs. by injection Hs as <-.
  - intros F items fields q Hq Hquote.
    by destruct (read_item_fields items fields q Hq Hquote) as (_ & _ & ?).
  - split; [reflexivity |]. eexists. split; [vm_compute; reflexivity |].
    by vm_compute.
  - by vm_compute.
Qed.

Section DerivedFields.
Context {F : Type} `{PyFloatLaws F}.
Implicit Types (q : raw_quote F) (rate : F) (market_rate : option F).

Lemma zero_number_false (v : pyval F) :
  is_zero_number v = true -> truthy v = false.
Proof.
  unfold is_zero_number, truthy.
  destruct v as [| [] | z | x | | |]; cbn; try done.
  - by intros ->.
  - by intros ->.
Qed.

Lemma zero_number_not_positive (v : pyval F) :
  is_zero_number v = true -> py_gt0 v = Ok false.
Proof.
  unfold is_zero_number, py_gt0.
  destruct v as [| [] | z | x | | |]; cbn; try done.
  - intros ->%Z.eqb_eq. done.
  - intros Hz. destruct (f_pos x) eqn:Hp; [| done].
    apply f_pos_nonzero in Hp. congruence.
Qed.

Lemma py_truediv_float (a b c : pyval F) :
  py_truediv a b = Ok c -> exists x, c = PyFloat_ x.
Proof.
  unfold py_truediv.
  destruct (as_num a) as [[m | x] |], (as_num b) as [[n | y] |]; cbn;
    try done; repeat case_match; cbn; try done;
    intros Hc; try bind_inv Hc; try bind_inv Hc;
    repeat case_match; try done; injection Hc as <-; eauto.
Qed.

(** Everything after line 233 on a well-formed quote. *)
Lemma derive_of_spread_fields market_rate q e s p f :
  well_formed q = true ->
  spread_fields market_rate q = Ok (e, s, p, f) ->
  exists m,
    derive market_rate q = Ok m
    /\ expected_amount_out m = e /\ spread m = s
    /\ spread_percentage m = p /\ spread_in_fiat m = f.
Proof.
  intros Hq Hs. destruct (derive_total market_rate q Hq) as [m Hm].
  exists m. split; [done |].
  apply derive_Ok in Hm as (_ & Hs' & _). rewrite Hs in Hs'.
  by injection Hs' as <- <- <- <-.
Qed.

End DerivedFields.

Section DegradedPath.
Context {F : Type} `{PyFloatLaws F}.
Implicit Types (q : raw_quote F) (rate : F) (market_rate : option F).

Lemma derive_without_amount_in market_rate q :
  amount_in q = PyNone ->
  small_number (network_fee q) = true ->
  small_number (provider_fee q) = true ->
  small_number (extra_fee q) = true ->
  derive market_rate q = Raise TypeError.
Proof.
  intros Hin Hn%within_small Hp%within_small He%within_small. unfold derive.
  rewrite spread_fields_degraded
    by (rewrite Hin; apply andb_false_r).
  cbn.
  destruct (py_add_within 1 1 (network_fee q) (provider_fee q))
    as (fees & -> & Hfees); try done. cbn.
  destruct (py_add_within 2 1 fees (extra_fee q))
    as (explicit & -> & Hexplicit); try done. cbn.
  destruct (py_add_within 3 0 explicit (PyInt 0)) as (total & -> & Htotal);
    try done.
  cbn. by rewrite Hin.
Qed.

Lemma derive_needs_amount_in market_rate q :
  amount_in q = PyNone -> ~ returns (derive market_rate q).
Proof.
  intros Hin [m Hm]. apply derive_Ok in Hm as (_ & _ & _ & _ & _ & p & Hp & _).
  by rewrite Hin in Hp.
Qed.

End DegradedPath.

(** C2: when the market rate is None (unresolved) or is not above 0, or
    [amountIn] is absent or zero, lines 217 to 233 leave the expected amount
    out, the spread, the spread percentage and the spread in fiat at the
    int 0, whatever the other fields of the quote are, and raise nothing;
    every record that the derivation returns carries these zeros, and on a
    well-formed quote it returns one. *)
Theorem degraded_path_zero_fields :
  forall (F : Type) (HF : PyFloat F) (market_rate : option F)
         (q : raw_quote F),
    market_rate = None
    \/ (exists rate, market_rate = Some rate /\ f_pos rate = false)
    \/ amount_in q = PyNone
    \/ is_zero_number (amount_in q) = true ->
    spread_fields market_rate q = Ok (PyInt 0, PyInt 0, PyInt 0, PyInt 0)
    /\ (forall m,
          derive market_rate q = Ok m ->
          expected_amount_out m = PyInt 0 /\ spread m = PyInt 0
          /\ spread_percentage m = PyInt 0 /\ spread_in_fiat m = PyInt 0)
    /\ (PyFloatLaws F -> well_formed q = true ->
        returns (derive market_rate q)).
Proof.
  intros F HF market_rate q Hdegraded.
  assert (spread_fields market_rate q =
            Ok (PyInt 0, PyInt 0, PyInt 0, PyInt 0)) as Hfields.
  { apply spread_fields_degraded.
    destruct Hdegraded as [-> | [(rate & -> & Hrate) | [Hin | Hin]]].
    - done.
    - cbn. by rewrite Hrate, andb_false_r.
    - rewrite Hin. apply andb_false_r.
    - rewrite (zero_number_false _ Hin). apply andb_false_r. }
  split; [done |]. split.
  - intros m Hm. apply derive_Ok in Hm as (_ & Hs & _).
    rewrite Hfields in Hs. by injection Hs as <- <- <- <-.
  - intros HL Hq. by apply derive_total.
Qed.

(** C3: the derivation is not total: it never returns when [amountIn] is
    absent (None), because [amount_in > 0] on line 242 compares None with
    an int: with numeric fees it raises TypeError, an entry without a quote
    raises TypeError, and [main] ends with that TypeError, which its
    [except] clause does not handle.  With [amountIn] present and zero, on
    a well-formed quote, the derivation returns and the total fee
    percentage is the int 0. *)
Theorem total_fee_percentage_guard :
  (forall (F : Type) (HF : PyFloat F) (market_rate : option F)
          (q : raw_quote F),
     amount_in q = PyNone -> ~ returns (derive market_rate q))
  /\ (forall (F : Type) (HF : PyFloat F) (HL : PyFloatLaws F)
             (market_rate : option F) (q : raw_quote F),
        amount_in q = PyNone ->
        small_number (network_fee q) = true ->
        small_number (provider_fee q) = true ->
        small_number (extra_fee q) = true ->
        derive market_rate q = Raise TypeError)
  /\ (forall (F : Type) (HF : PyFloat F) (HL : PyFloatLaws F)
             (market_rate : option F) (q : raw_quote F),
        well_formed q = true -> is_zero_number (amount_in q) = true ->
        exists m,
          derive market_rate q = Ok m /\ total_fee_percentage m = PyInt 0)
  /\ (q ← read_item (PyDict []); derive (Some 2000%float) q) = Raise TypeError
  /\ (q ← read_item (quote_without_amount_in (F:=float)); derive None q)
      = Raise TypeError
  /\ (let E := quoting_upstream
                 (PyDict [("success", PyList [quote_without_amount_in])]) in
      (main E initial_world).1 = Raise TypeError
      /\ inserted (trace (main E initial_world).2) = []).
Proof.
  split; [| split; [| split; [| split; [| split]]]].
  - intros F HF market_rate q. apply derive_needs_amount_in.
  - intros F HF HL market_rate q. apply derive_without_amount_in.
  - intros F HF HL market_rate q Hq Hz.
    destruct (derive_total market_rate q Hq) as [m Hm]. exists m.
    split; [done |].
    apply derive_Ok in Hm as (_ & _ & _ & _ & _ & p & Hp & Hpct).
    rewrite zero_number_not_positive in Hp by done.
    injection Hp as <-. by injection Hpct as <-.
  - reflexivity.
  - reflexivity.
  - by vm_compute.
Qed.

Lemma exact_pos_lt (x : Q) : f_pos x = true -> (0 < x)%Q.
Proof.
  cbn. unfold Exact.pos. intros Hx%negb_true_iff.
  apply Qnot_le_lt. intros Hle%Qle_bool_iff. congruence.
Qed.

Lemma exact_not_pos (x : Q) : (x <= 0)%Q -> f_pos x = false.
Proof.
  cbn. unfold Exact.pos. intros Hx%Qle_bool_iff. by rewrite Hx.
Qed.

(** C9: with a market rate above 0 and a true [amountIn], a zero
    [amountOut] (0, 0.0, -0.0) leaves the spread, the spread percentage and
    the spread in fiat at the int 0, exactly as an absent [amountOut] does,
    while the expected amount out is still lines 225 and 226. *)
Theorem zero_amount_out_has_no_spread :
  forall (F : Type) (HF : PyFloat F) (HL : PyFloatLaws F)
         (rate : F) (q : raw_quote F),
    f_pos rate = true -> truthy (amount_in q) = true ->
    well_formed q = true -> is_zero_number (amount_out q) = true ->
    exists m e,
      derive (Some rate) q = Ok m
      /\ expected_at_market rate q = Ok e
      /\ expected_amount_out m = e
      /\ spread m = PyInt 0 /\ spread_percentage m = PyInt 0
      /\ spread_in_fiat m = PyInt 0
      /\ derive (Some rate) (with_amount_out q PyNone) = Ok m.
Proof.
  intros F HF HL rate q Hrate Hin Hq Hz.
  apply zero_number_false in Hz.
  destruct (expected_at_market_total rate q Hq Hrate) as [x Hx].
  assert (spread_fields (Some rate) q =
            Ok (PyFloat_ x, PyInt 0, PyInt 0, PyInt 0)) as Hs.
  { rewrite spread_fields_usable by done. rewrite Hx. cbn. by rewrite Hz. }
  destruct (derive_of_spread_fields _ _ _ _ _ _ Hq Hs)
    as (m & Hm & He & Hsp & Hpc & Hfi).
  exists m, (PyFloat_ x). repeat (split; [done |]).
  rewrite <- Hm. unfold derive, spread_fields, expected_at_market. cbn.
  rewrite Hz. change (truthy PyNone) with false. reflexivity.
Qed.

(** C10: with a market rate above 0, a true [amountIn] and a true
    [amountOut], when the expected amount out is not above 0 the spread is
    still [expected - amountOut], the spread percentage is the int 0 (the
    division by the expected amount is skipped) and the derivation returns:
    nothing raises, ZeroDivisionError included.  In exact arithmetic the
    expected amount is not above 0 whenever the total explicit fee is at
    least [amountIn]. *)
Theorem spread_when_fees_exceed_amount :
  (forall (F : Type) (HF : PyFloat F) (HL : PyFloatLaws F)
          (rate : F) (q : raw_quote F) (e : pyval F),
     f_pos rate = true -> truthy (amount_in q) = true ->
     truthy (amount_out q) = true -> well_formed q = true ->
     expected_at_market rate q = Ok e -> py_gt0 e = Ok false ->
     exists m s,
       derive (Some rate) q = Ok m
       /\ expected_amount_out m = e
       /\ py_sub e (amount_out q) = Ok s /\ spread m = s
       /\ spread_percentage m = PyInt 0
       /\ py_mul s (PyFloat_ rate) = Ok (spread_in_fiat m))
  /\ (forall (rate : Q) (q : raw_quote Q) (m : metrics Q),
        f_pos rate = true -> truthy (amount_in q) = true ->
        truthy (amount_out q) = true -> well_formed q = true ->
        derive (Some rate) q = Ok m ->
        (exact_value (amount_in q) <= exact_value (total_explicit_fee m))%Q ->
        (exact_value (expected_amount_out m) <= 0)%Q
        /\ (exact_value (spread m) ==
              exact_value (expected_amount_out m)
              - exact_value (amount_out q))%Q
        /\ spread_percentage m = PyInt 0).
Proof.
  split.
  - intros F HF HL rate q e Hrate Hin Hout Hq He Hpos.
    destruct (expected_at_market_total rate q Hq Hrate) as [x Hx].
    assert (e = PyFloat_ x) as -> by congruence.
    apply well_formed_fields in Hq as Hfields.
    destruct Hfields as (_ & Ho & _). specialize (Ho Hout).
    destruct (py_sub_from_float 1 x (amount_out q)) as [s Hs]; try done.
    assert (spread_fields (Some rate) q =
              Ok (PyFloat_ x, PyFloat_ s, PyInt 0,
                  PyFloat_ (f_mul s rate))) as Hfields.
    { rewrite spread_fields_usable by done. rewrite Hx. cbn.
      rewrite Hout, Hs. cbn. rewrite Hpos. cbn.
      by rewrite py_mul_floats. }
    destruct (derive_of_spread_fields _ _ _ _ _ _ Hq Hfields)
      as (m & Hm & Hme & Hms & Hmp & Hmf).
    exists m, (PyFloat_ s). repeat (split; [done |]).
    by rewrite py_mul_floats, Hmf.
  - intros rate q m Hrate Hin Hout Hq Hm Hfees.
    apply well_formed_fields in Hq as Hfields.
    destruct Hfields as (Ha & _ & Hn & Hp & Hx).
    apply derive_Ok in Hm as (fees & Hs & Hf1 & Hf2 & _).
    rewrite spread_fields_usable in Hs by done.
    destruct (expected_at_market rate q) as [e |] eqn:He; [| done].
    cbn in Hs. rewrite Hout in Hs.
    pose proof (exact_expected_at_market _ _ _ He) as Hve.
    unfold expected_at_market in He. repeat bind_inv He.
    apply py_truediv_float in He as [x ->].
    apply exact_add in Hf1 as Hv1;
      [| unfold within in Hn; destruct (as_num (network_fee q)); by eauto].
    apply exact_add in Hf2 as Hv2;
      [| destruct (py_add_within 1 1 _ _ ltac:(done) ltac:(done) ltac:(done)
                     Hn Hp) as (fees' & Hfees' & Hw);
         assert (fees' = fees) as -> by congruence;
         unfold within in Hw; destruct (as_num fees); by eauto].
    apply exact_pos_lt in Hrate.
    assert (x <= 0)%Q as Hx0.
    { change x with (exact_value (PyFloat_ x)). rewrite Hve.
      apply Qle_shift_div_r; [done |]. rewrite Hv2, Hv1 in Hfees. lra. }
    bind_inv Hs. rewrite py_gt0_float, (exact_not_pos _ Hx0) in Hs.
    cbn in Hs. bind_inv Hs. injection Hs as <- <- <- _.
    split; [done |]. split; [| done]. by apply exact_sub.
Qed.

(** ** The rate resolver *)

(** Unfolding of the monad and of the primitive actions. *)
Ltac run :=
  cbv beta iota zeta delta
    [mbind M_bind mret M_ret try_except lift raise print sleep emit
     requests_get raise_for_status response_json
     of_option fst snd cache_lookup cache_store on_error now set_rows
     get_rows append_row];
  cbn [requests_sent clock_reads trace market_rates_cache rows_to_insert].

Section Resolver.
Context {F : Type} `{PyFloat F}.
Variable E : environment F.
Implicit Types (w : world F) (r : request) (d : Z) (n : nat).

Lemma advanced_0 w : advanced w 0 [] = w.
Proof.
  destruct w. unfold advanced. cbn. by rewrite Nat.add_0_r, app_nil_r.
Qed.

Lemma advanced_advanced w n1 t1 n2 t2 :
  advanced (advanced w n1 t1) n2 t2 = advanced w (n1 + n2) (t1 ++ t2).
Proof.
  unfold advanced. cbn. by rewrite Nat.add_assoc, app_assoc.
Qed.

Lemma advanced_1 w (e : event F) :
  {| requests_sent := S (requests_sent w); clock_reads := clock_reads w;
     trace := trace w ++ [e]; market_rates_cache := market_rates_cache w;
     rows_to_insert := rows_to_insert w |} = advanced w 1 [e].
Proof. unfold advanced. f_equal. lia. Qed.

Lemma advanced_event w (e : event F) :
  {| requests_sent := requests_sent w; clock_reads := clock_reads w;
     trace := trace w ++ [e]; market_rates_cache := market_rates_cache w;
     rows_to_insert := rows_to_insert w |} = advanced w 0 [e].
Proof. unfold advanced. f_equal. lia. Qed.

Lemma py_float_not_http v s : py_float E v <> Raise (HTTPError s).
Proof.
  destruct v as [| b | z | x | str | |]; cbn; try done.
  - by destruct (f_of_int (Z.b2z b)).
  - by destruct (f_of_int z).
  - by destruct (float_of_str E str).
Qed.

(** One request is sent, whatever comes back. *)
Lemma fetch_market_rate_world r w :
  (fetch_market_rate E r w).2 = advanced w 1 [HttpGet r].
Proof.
  unfold fetch_market_rate. run. rewrite advanced_1.
  destruct (upstream E (requests_sent w) r) as [| status body]; [done |].
  run. destruct ((400 <=? status) && (status <? 600)); [done |]. run.
  destruct body as [data |]; [| done]. run.
  destruct (py_get data "value" (PyInt 0)) as [value |]; [| done].
  by destruct (py_float E value).
Qed.

(** The body of the [try] raises HTTPError 429 exactly on a rate limit. *)
Lemma fetch_market_rate_limited r w :
  rate_limited (upstream E (requests_sent w) r) = true <->
  (fetch_market_rate E r w).1 = Raise (HTTPError 429).
Proof.
  unfold fetch_market_rate. run.
  destruct (upstream E (requests_sent w) r) as [| status body]; [done |].
  run. cbn [rate_limited].
  destruct ((400 <=? status) && (status <? 600)) eqn:Herror; run.
  - split; [by intros ->%Z.eqb_eq |]. intros [= ->]. done.
  - split; [intros ->%Z.eqb_eq; done |].
    destruct body as [data |]; [| done]. run.
    destruct data; try done. cbn.
    destruct (py_float E _) as [x | e] eqn:Hfloat; [done |].
    intros [= ->]. by apply py_float_not_http in Hfloat.
Qed.

Lemma fetch_market_rate_result r w :
  (fetch_market_rate E r w).1 = fetch_result E (upstream E (requests_sent w) r).
Proof.
  unfold fetch_market_rate, fetch_result. run.
  destruct (upstream E (requests_sent w) r) as [| status body]; [done |].
  run. destruct ((400 <=? status) && (status <? 600)); [done |]. run.
  destruct body as [data |]; [| done]. run. cbn.
  destruct (py_get data "value" (PyInt 0)) as [value |]; [| done]. cbn.
  by destruct (py_float E value).
Qed.

(** One iteration of the retry loop, by what the [try] body does. *)
Lemma attempts_step r n d w :
  attempts E r (S n) d w =
    match fetch_market_rate E r w with
    | (Ok x, w1) => (Ok (Some x), w1)
    | (Raise e, w1) =>
        if bool_decide (e = HTTPError 429) then
          attempts E r n (d * 2)
            (advanced w1 0 [Print (RateLimitedRetrying d); Sleep (inject_Z d)])
        else (Ok None, advanced w1 0 [Print (ErrorFetchingMarketRate e)])
    end.
Proof.
  cbn [attempts]. run.
  destruct (fetch_market_rate E r w) as [[x | e] w1]; [done |].
  case_bool_decide as Hlimited.
  - subst e. run. f_equal. unfold advanced. f_equal; [lia |].
    by rewrite <- app_assoc.
  - destruct e as [| | | | | | | status | |];
      try (by rewrite <- advanced_event).
    destruct (Z.eqb_spec status 429) as [-> | _]; [done |].
    by rewrite <- advanced_event.
Qed.

(** On a rate limit: sleep for [delay], double it, go on. *)
Lemma attempts_rate_limited r n d w :
  rate_limited (upstream E (requests_sent w) r) = true ->
  attempts E r (S n) d w =
    attempts E r n (d * 2)
      (advanced w 1 [HttpGet r; Print (RateLimitedRetrying d);
                     Sleep (inject_Z d)]).
Proof.
  intros Hlimited%fetch_market_rate_limited. rewrite attempts_step.
  pose proof (fetch_market_rate_world r w) as Hworld.
  destruct (fetch_market_rate E r w) as [res w1]. cbn in Hlimited, Hworld.
  subst res w1. rewrite bool_decide_eq_true_2 by done.
  by rewrite advanced_advanced.
Qed.

(** On anything else the function returns at once: the rate on success,
    None after a diagnostic on failure. *)
Lemma attempts_settled r n d w :
  rate_limited (upstream E (requests_sent w) r) = false ->
  attempts E r (S n) d w =
    match (fetch_market_rate E r w).1 with
    | Ok x => (Ok (Some x), advanced w 1 [HttpGet r])
    | Raise e =>
        (Ok None, advanced w 1 [HttpGet r; Print (ErrorFetchingMarketRate e)])
    end.
Proof.
  intros Hlimited. rewrite attempts_step.
  pose proof (fetch_market_rate_world r w) as Hworld.
  pose proof (fetch_market_rate_limited r w) as Hiff.
  destruct (fetch_market_rate E r w) as [[x | e] w1]; cbn in *; subst w1;
    [done |].
  rewrite bool_decide_eq_false_2; [by rewrite advanced_advanced |].
  intros ->. destruct Hiff as [_ Hiff]. rewrite Hiff in Hlimited; done.
Qed.

(** The loop always returns, after at most [n] requests, and leaves the
    locals of [main] alone. *)
Lemma attempts_returns r n d w :
  exists v k t,
    attempts E r n d w = (Ok v, advanced w k t)
    /\ (k <= n)%nat /\ (0 < n -> 0 < k)%nat
    /\ http_gets t = replicate k r /\ inserted t = [].
Proof.
  revert d w. induction n as [| n IH]; intros d w.
  - exists None, 0%nat, [Print FailedAfterRetries].
    split; [| done]. cbn. run. by rewrite advanced_event.
  - destruct (rate_limited (upstream E (requests_sent w) r)) eqn:Hlimited.
    + rewrite attempts_rate_limited by done.
      destruct (IH (d * 2) (advanced w 1 [HttpGet r;
                  Print (RateLimitedRetrying d); Sleep (inject_Z d)]))
        as (v & k & t & -> & Hk & _ & Hgets & Hins).
      rewrite advanced_advanced. exists v, (1 + k)%nat. eexists.
      split; [done |].
      unfold http_gets, inserted in *. cbn. rewrite Hgets, Hins.
      repeat split; lia.
    + rewrite attempts_settled by done.
      destruct (fetch_market_rate E r w).1;
        eexists _, 1%nat, _; (split; [done |]); cbn; repeat split; lia.
Qed.

Lemma attempts_settled_rate r n d w :
  rate_limited (upstream E (requests_sent w) r) = false ->
  exists t,
    attempts E r (S n) d w =
      (Ok (settled_rate E (upstream E (requests_sent w) r)),
       advanced w 1 (HttpGet r :: t))
    /\ http_gets t = [] /\ sleeps t = [] /\ inserted t = [].
Proof.
  intros Hlimited. rewrite attempts_settled by done.
  unfold settled_rate. rewrite fetch_market_rate_result.
  destruct (fetch_result E _); eexists; split; done.
Qed.

(** A well-shaped identifier reaches the retry loop with 3 attempts and a
    delay of 1 second. *)
Lemma get_market_rate_attempts id fiat chain token :
  split "/" id !! 3%nat = Some chain ->
  split "/" id !! 4%nat = Some token ->
  get_market_rate E id fiat =
    attempts E (RateRequest chain token (lower fiat)) 3 1.
Proof. intros Hc Ht. unfold get_market_rate. by rewrite Hc, Ht. Qed.

End Resolver.

(** C5: the resolver, on an identifier with chain id and token address,
    sends at most 3 requests.  After [k] rate-limited responses (HTTP 429)
    it has slept 1, 2, ... seconds, [k] delays out of 1, 2, 4; on the first
    response that is not a rate limit it returns at once, the rate on
    success and None on any failure; after 3 rate-limited responses it
    returns None without a 4th request, whatever that would have answered. *)
Theorem rate_resolver_retry_policy :
  (forall (F : Type) (HF : PyFloat F) (E : environment F)
          (id fiat chain token : string) (w : world F) (k : nat),
     split "/" id !! 3%nat = Some chain ->
     split "/" id !! 4%nat = Some token ->
     let r := RateRequest chain token (lower fiat) in
     (k <= 3)%nat ->
     (forall i, (i < k)%nat ->
        rate_limited (upstream E (requests_sent w + i) r) = true) ->
     ((k < 3)%nat ->
        rate_limited (upstream E (requests_sent w + k) r) = false) ->
     exists t,
       get_market_rate E id fiat w =
         (Ok (if decide (k = 3%nat) then None
              else settled_rate E (upstream E (requests_sent w + k) r)),
          advanced w (Nat.min (k + 1) 3) t)
       /\ http_gets t = replicate (Nat.min (k + 1) 3) r
       /\ sleeps t = take k [1; 2; 4]%Q)
  /\ (forall (F : Type) (HF : PyFloat F) (E : environment F)
            (id fiat chain token : string) (w : world F),
        split "/" id !! 3%nat = Some chain ->
        split "/" id !! 4%nat = Some token ->
        exists v k t,
          get_market_rate E id fiat w = (Ok v, advanced w k t)
          /\ (k <= 3)%nat /\ length (http_gets t) = k)
  /\ (let E := rate_limiting_upstream 3 in
      let r := RateRequest "1" "0x0000000000000000000000000000000000000000"
                 "eur" in
      settled_rate E (upstream E 3 r) = Some 2000%float
      /\ get_market_rate E eth "EUR" initial_world =
         (Ok None,
          advanced initial_world 3
            [HttpGet r; Print (RateLimitedRetrying 1); Sleep 1;
             HttpGet r; Print (RateLimitedRetrying 2); Sleep 2;
             HttpGet r; Print (RateLimitedRetrying 4); Sleep 4;
             Print FailedAfterRetries])).
Proof.
  split; [| split].
  - intros F HF E id fiat chain token w k Hchain Htoken r Hk Hlimited Hsettled.
    rewrite (get_market_rate_attempts E id fiat chain token) by done.
    fold r.
    assert (forall i (w' : world F), (i < k)%nat ->
              requests_sent w' = (requests_sent w + i)%nat ->
              rate_limited (upstream E (requests_sent w') r) = true) as Hl.
    { intros i w' Hi ->. by apply Hlimited. }
    assert (forall w' : world F, (k < 3)%nat ->
              requests_sent w' = (requests_sent w + k)%nat ->
              rate_limited (upstream E (requests_sent w') r) = false) as Hs.
    { intros w' Hlt ->. by apply Hsettled. }
    clear Hlimited Hsettled.
    destruct k as [| [| [| [| k]]]]; [| | | | lia].
    + destruct (attempts_settled_rate E r 2 1 w) as (t & -> & Hg & Hsl & _);
        [apply Hs; lia |].
      rewrite Nat.add_0_r. eexists. split; [done |].
      unfold http_gets, sleeps in *. cbn. by rewrite Hg, Hsl.
    + rewrite attempts_rate_limited by (apply (Hl 0%nat); lia).
      destruct (attempts_settled_rate E r 1 (1 * 2)
                  (advanced w 1 [HttpGet r; Print (RateLimitedRetrying 1);
                                 Sleep (inject_Z 1)]))
        as (t & -> & Hg & Hsl & _); [apply Hs; cbn; lia |].
      rewrite advanced_advanced. eexists. split; [done |].
      unfold http_gets, sleeps in *. cbn. by rewrite Hg, Hsl.
    + rewrite attempts_rate_limited by (apply (Hl 0%nat); lia).
      rewrite attempts_rate_limited by (apply (Hl 1%nat); cbn; lia).
      rewrite advanced_advanced.
      destruct (attempts_settled_rate E r 0 (1 * 2 * 2)
                  (advanced w (1 + 1)
                     ([HttpGet r; Print (RateLimitedRetrying 1);
                       Sleep (inject_Z 1)] ++
                      [HttpGet r; Print (RateLimitedRetrying (1 * 2));
                       Sleep (inject_Z (1 * 2))])))
        as (t & -> & Hg & Hsl & _); [apply Hs; cbn; lia |].
      rewrite advanced_advanced. eexists. split; [done |].
      unfold http_gets, sleeps in *. cbn. by rewrite Hg, Hsl.
    + rewrite attempts_rate_limited by (apply (Hl 0%nat); lia).
      rewrite attempts_rate_limited by (apply (Hl 1%nat); cbn; lia).
      rewrite attempts_rate_limited by (apply (Hl 2%nat); cbn; lia).
      rewrite !advanced_advanced. cbn [attempts]. run.
      rewrite advanced_event, advanced_advanced. eexists. split; done.
  - intros F HF E id fiat chain token w Hchain Htoken.
    rewrite (get_market_rate_attempts E id fiat chain token) by done.
    destruct (attempts_returns E (RateRequest chain token (lower fiat)) 3 1 w)
      as (v & k & t & ? & ? & _ & Hgets & _).
    exists v, k, t. by rewrite Hgets, length_replicate.
  - split; reflexivity.
Qed.

(** ** The rate cache *)

Section Cache.
Context {F : Type} `{PyFloat F}.
Variable E : environment F.
Implicit Types (w : world F).

(** A cache hit returns the stored value and does nothing else. *)
Lemma resolve_hit name id currency w v :
  market_rates_cache w !! cache_key id currency = Some v ->
  resolve E name id currency w = (Ok v, w).
Proof.
  intros Hhit. unfold resolve, cache_key in *. run. rewrite Hhit. run.
  by rewrite Hhit.
Qed.

(** A cache miss calls the resolver once and stores what it returned, or
    None when that is None or 0.0. *)
Lemma resolve_miss name id currency chain token w :
  split "/" id !! 3%nat = Some chain ->
  split "/" id !! 4%nat = Some token ->
  market_rates_cache w !! cache_key id currency = None ->
  exists rate k t,
    get_market_rate E id currency w = (Ok rate, advanced w k t)
    /\ (1 <= k <= 3)%nat
    /\ http_gets t = replicate k (RateRequest chain token (lower currency))
    /\ inserted t = []
    /\ exists t',
      let v := if rate_truthy rate then rate else None in
      resolve E name id currency w =
        (Ok v,
         {| requests_sent := requests_sent w + k;
            clock_reads := clock_reads w;
            trace := trace w ++ t ++ t';
            market_rates_cache :=
              <[cache_key id currency := v]> (market_rates_cache w);
            rows_to_insert := rows_to_insert w |})
      /\ http_gets t' = [] /\ inserted t' = [] /\ sleeps t' = [].
Proof.
  intros Hchain Htoken Hmiss.
  destruct (attempts_returns E (RateRequest chain token (lower currency)) 3 1 w)
    as (rate & k & t & Hrun & Hk & Hk1 & Hgets & Hins).
  rewrite <- (get_market_rate_attempts E id currency chain token) in Hrun
    by done.
  exists rate, k, t. split; [done |].
  repeat (split; [done || lia |]).
  unfold resolve. fold (cache_key id currency). run.
  rewrite Hmiss, Hrun. cbn [advanced market_rates_cache].
  destruct rate as [x |]; cbn [rate_truthy].
  - destruct (negb (f_is_zero x)); run.
    + exists [Print (MarketRateFor name currency x)].
      rewrite lookup_insert_eq. unfold advanced. cbn.
      by rewrite <- app_assoc.
    + exists [Print (CouldNotFetchMarketRate name currency)].
      rewrite lookup_insert_eq. unfold advanced. cbn.
      by rewrite <- app_assoc.
  - run. exists [Print (CouldNotFetchMarketRate name currency)].
    rewrite lookup_insert_eq. unfold advanced. cbn.
    by rewrite <- app_assoc.
Qed.

End Cache.

(** ** Normalising the entries of a response *)

(** Exhaustive case analysis of a pure computation that raised. *)
Ltac raised H :=
  unfold arith, to_float, of_option, mbind, result_bind in H;
  repeat (simplify_eq;
          match goal with
          | H' : context [match ?x with _ => _ end] |- _ => destruct x eqn:?
          end);
  by simplify_eq.

Section Exceptions.
Context {F : Type} `{PyFloat F}.
Implicit Types (a b v : pyval F) (e : exn).

(** Reading an entry and deriving its metrics raise Python errors, never a
    RequestException. *)
Lemma arith_exn int_op float_op a b e :
  arith int_op float_op a b = Raise e -> is_request_exception e = false.
Proof. intros He. raised He. Qed.

Lemma py_sub_exn a b e : py_sub a b = Raise e -> is_request_exception e = false.
Proof. apply arith_exn. Qed.

Lemma py_mul_exn a b e : py_mul a b = Raise e -> is_request_exception e = false.
Proof. apply arith_exn. Qed.

Lemma py_add_exn a b e : py_add a b = Raise e -> is_request_exception e = false.
Proof. unfold py_add. intros He. raised He. Qed.

Lemma py_truediv_exn a b e :
  py_truediv a b = Raise e -> is_request_exception e = false.
Proof. unfold py_truediv. intros He. raised He. Qed.

Lemma py_gt0_exn a e : py_gt0 a = Raise e -> is_request_exception e = false.
Proof. unfold py_gt0. intros He. raised He. Qed.

Lemma py_get_exn v key fallback e :
  py_get v key fallback = Raise e -> is_request_exception e = false.
Proof. unfold py_get. intros He. raised He. Qed.

Lemma py_iter_exn v e : py_iter v = Raise e -> is_request_exception e = false.
Proof. unfold py_iter. intros He. raised He. Qed.

Lemma derive_exn market_rate (q : raw_quote F) e :
  derive market_rate q = Raise e -> is_request_exception e = false.
Proof.
  intros He.
  unfold derive, spread_fields, expected_at_market, mbind, result_bind in He.
  repeat (simplify_eq;
          match goal with
          | H' : context [match ?x with _ => _ end] |- _ => destruct x eqn:?
          end);
    simplify_eq;
    eauto using py_sub_exn, py_mul_exn, py_add_exn, py_truediv_exn,
      py_gt0_exn.
Qed.

Lemma read_item_exn (item : pyval F) e :
  read_item item = Raise e -> is_request_exception e = false.
Proof.
  intros He. unfold read_item, mbind, result_bind in He.
  repeat (simplify_eq;
          match goal with
          | H' : context [match ?x with _ => _ end] |- _ => destruct x eqn:?
          end);
    simplify_eq; eauto using py_get_exn.
Qed.

End Exceptions.

Section Normalisation.
Context {F : Type} `{PyFloat F}.
Variable E : environment F.
Implicit Types (w : world F) (l : labels) (market_rate : option F).

Lemma appended_nil w : appended w [] = w.
Proof.
  destruct w. unfold appended. cbn. by rewrite Nat.add_0_r, app_nil_r.
Qed.

Lemma appended_appended w new1 new2 :
  appended (appended w new1) new2 = appended w (new1 ++ new2).
Proof.
  unfold appended. cbn. rewrite length_app, Nat.add_assoc, app_assoc. done.
Qed.

(** One entry: a row is appended, or the exception of reading or deriving
    is raised with the world as it was. *)
Lemma normalize_item_run l market_rate rank item w :
  normalize_item E l market_rate rank item w =
    match q ← read_item item; m ← derive market_rate q; Ok (q, m) with
    | Ok (q, m) =>
        (Ok tt,
         appended w
           [make_row l market_rate rank (clock E (clock_reads w)) q m])
    | Raise e => (Raise e, w)
    end.
Proof.
  unfold normalize_item. run.
  destruct (read_item item) as [q |]; [| done]. cbn.
  destruct (derive market_rate q) as [m |]; [| done]. cbn.
  unfold appended. cbn. f_equal. f_equal. lia.
Qed.

(** Rows are appended in the order of the entries, ranked from [rank]
    on. *)
Lemma normalize_items_rows l market_rate items : forall rank w w',
  normalize_items E l market_rate rank items w = (Ok tt, w') ->
  exists new,
    w' = appended w new
    /\ map Rank new =
         map (fun i => rank + Z.of_nat i) (seq 0 (length items))
    /\ Forall2 (fun row item =>
                  exists q m,
                    read_item item = Ok q /\ derive market_rate q = Ok m
                    /\ exists timestamp,
                      row = make_row l market_rate (Rank row) timestamp q m)
         new items.
Proof.
  induction items as [| item items IH]; intros rank w w' Hrun.
  - injection Hrun as <-. exists []. by rewrite appended_nil.
  - cbn [normalize_items] in Hrun. unfold mbind at 1, M_bind in Hrun.
    rewrite normalize_item_run in Hrun.
    destruct (read_item item) as [q |] eqn:Hq; [| done]. cbn in Hrun.
    destruct (derive market_rate q) as [m |] eqn:Hm; [| done]. cbn in Hrun.
    apply IH in Hrun as (new & -> & Hranks & Hrows).
    eexists (_ :: new). split; [by rewrite appended_appended |]. split.
    + cbn. rewrite Hranks. f_equal; [lia |].
      rewrite <- seq_shift, map_map. apply map_ext. intros i. lia.
    + constructor; [| done]. exists q, m. eauto.
Qed.

(** The loop over the entries raises only what reading and deriving
    raise. *)
Lemma normalize_items_exn l market_rate items : forall rank w w' e,
  normalize_items E l market_rate rank items w = (Raise e, w') ->
  is_request_exception e = false.
Proof.
  induction items as [| item items IH]; intros rank w w' e Hrun; [done |].
  cbn [normalize_items] in Hrun. unfold mbind at 1, M_bind in Hrun.
  rewrite normalize_item_run in Hrun.
  destruct (read_item item) as [q |] eqn:Hq; cbn in Hrun;
    [| injection Hrun as <- _; by eapply read_item_exn].
  destruct (derive market_rate q) as [m |] eqn:Hm; cbn in Hrun;
    [| injection Hrun as <- _; by eapply derive_exn].
  by eapply IH.
Qed.

End Normalisation.

Section NormalisationTotal.
Context {F : Type} `{PyFloatLaws F}.
Variable E : environment F.
Implicit Types (w : world F) (l : labels) (market_rate : option F).

(** Well-formed entries all become rows. *)
Lemma normalize_items_total l market_rate items : forall rank w,
  forallb well_formed_item items = true ->
  exists w', normalize_items E l market_rate rank items w = (Ok tt, w').
Proof.
  induction items as [| item items IH]; intros rank w Hitems; [by eexists |].
  cbn in Hitems. apply andb_true_iff in Hitems as [Hitem Hitems].
  cbn [normalize_items]. unfold mbind at 1, M_bind.
  rewrite normalize_item_run.
  unfold well_formed_item in Hitem.
  destruct (read_item item) as [q |]; [| done]. cbn.
  destruct (derive_total market_rate q Hitem) as [m ->]. cbn.
  by apply IH.
Qed.

End NormalisationTotal.

Section Quotes.
Context {F : Type} `{PyFloat F}.
Variable E : environment F.
Implicit Types (w : world F) (l : labels) (market_rate : option F).

Lemma get_quotes_run l w :
  get_quotes E (region_code l) (currency_code l) (amount l)
    (payment_method l) (crypto_id l) w =
    (match upstream E (requests_sent w) (quote_request l) with
     | NoResponse => Raise ConnectionError
     | Response status_code body =>
         if (400 <=? status_code) && (status_code <? 600)
         then Raise (HTTPError status_code)
         else of_option JSONDecodeError body
     end,
     advanced w 1 [HttpGet (quote_request l)]).
Proof.
  unfold get_quotes. fold (quote_request l). run. rewrite advanced_1.
  destruct (upstream E (requests_sent w) (quote_request l))
    as [| status body]; [done |].
  run. by destruct ((400 <=? status) && (status <? 600)).
Qed.

(** A failed fetch is reported and skipped: no row, no pause. *)
Lemma quotes_fetch_failed l market_rate w :
  fetch_failed (upstream E (requests_sent w) (quote_request l)) = true ->
  exists e,
    is_request_exception e = true
    /\ quotes_for_payment_method E l market_rate w =
         (Ok tt,
          advanced w 1
            [HttpGet (quote_request l);
             Print (ErrorFetchingQuotes (payment_method l) e)]).
Proof.
  intros Hfailed. unfold quotes_for_payment_method, fetch_and_normalize.
  unfold try_except, mbind at 1, M_bind. rewrite get_quotes_run.
  destruct (upstream E (requests_sent w) (quote_request l))
    as [| status body]; cbn in Hfailed.
  - exists ConnectionError. split; [done |]. cbn. run.
    by rewrite advanced_event, advanced_advanced.
  - destruct ((400 <=? status) && (status <? 600)).
    + exists (HTTPError status). split; [done |]. cbn. run.
      by rewrite advanced_event, advanced_advanced.
    + cbn in Hfailed. apply bool_decide_eq_true in Hfailed as ->.
      exists JSONDecodeError. split; [done |]. cbn. run.
      by rewrite advanced_event, advanced_advanced.
Qed.

(** An absent or false [success]: no row, only the pause. *)
Lemma quotes_empty l market_rate w s :
  answered E w l s -> truthy s = false ->
  quotes_for_payment_method E l market_rate w =
    (Ok tt, advanced w 1 [HttpGet (quote_request l); Sleep 0.1]).
Proof.
  intros (status & items & Hup & Hstatus & <-) Hempty.
  unfold quotes_for_payment_method, fetch_and_normalize.
  unfold try_except, mbind at 1, M_bind. rewrite get_quotes_run, Hup, Hstatus.
  cbn [of_option]. run. cbn [py_get]. rewrite Hempty. run.
  by rewrite advanced_event, advanced_advanced.
Qed.

(** A list of entries: the entries are normalised from rank 1, then comes
    the pause; what normalising raises is not handled. *)
Lemma quotes_listed l market_rate w entries :
  answered E w l (PyList entries) ->
  quotes_for_payment_method E l market_rate w =
    match normalize_items E l market_rate 1 entries
            (advanced w 1 [HttpGet (quote_request l)]) with
    | (Ok _, w') => (Ok tt, advanced w' 0 [Sleep 0.1])
    | (Raise e, w') => (Raise e, w')
    end.
Proof.
  intros (status & items & Hup & Hstatus & Hsuccess).
  unfold quotes_for_payment_method, fetch_and_normalize.
  unfold try_except, mbind at 1, M_bind. rewrite get_quotes_run, Hup, Hstatus.
  cbn [of_option]. run. cbn [py_get]. rewrite Hsuccess.
  destruct entries as [| entry entries].
  - change (truthy (PyList [])) with false. cbn [normalize_items]. run.
    by rewrite advanced_event.
  - change (truthy (PyList (entry :: entries))) with true. cbn [py_iter]. run.
    destruct (normalize_items E l market_rate 1 (entry :: entries) _)
      as [[[] | e] w'] eqn:Hrun.
    + run. by rewrite advanced_event.
    + apply normalize_items_exn in Hrun as ->. done.
Qed.

End Quotes.

Section Sweep.
Context {F : Type} `{PyFloatLaws F}.
Variable E : environment F.
Implicit Types (w : world F) (l : labels) (market_rate : option F).

Lemma for_each_returns {A} (items : list A) (body : A -> M F unit) :
  (forall x w, x ∈ items -> exists w', body x w = (Ok tt, w')) ->
  forall w, exists w', for_each items body w = (Ok tt, w').
Proof.
  induction items as [| x items IH]; intros Hbody w; [by eexists |].
  cbn [for_each]. unfold mbind, M_bind.
  destruct (Hbody x w) as [w1 ->]; [by left |].
  apply IH. intros y w' Hy. apply Hbody. by right.
Qed.

Lemma empty_success_answered w l :
  empty_success (upstream E (requests_sent w) (quote_request l)) = true ->
  exists s, answered E w l s /\ truthy s = false.
Proof.
  unfold empty_success, answered.
  destruct (upstream E _ _) as [| status [[] |]]; try done.
  intros [Hstatus Hempty%negb_true_iff]%andb_true_iff.
  apply negb_true_iff in Hstatus. eauto 10.
Qed.

Lemma well_formed_success_answered w l :
  well_formed_success (upstream E (requests_sent w) (quote_request l)) = true ->
  exists entries,
    answered E w l (PyList entries)
    /\ forallb well_formed_item entries = true.
Proof.
  unfold well_formed_success, answered.
  destruct (upstream E _ _) as [| status [[] |]]; try done.
  intros [Hstatus Hentries]%andb_true_iff.
  apply negb_true_iff in Hstatus.
  destruct (dict_lookup items "success") as [[] |] eqn:Hsuccess; try done.
  eexists. split; [| done]. do 2 eexists. by rewrite Hsuccess.
Qed.

(** Whatever an acceptable quote endpoint answers, one payment method is
    dealt with and the sweep goes on. *)
Lemma quotes_for_payment_method_returns l market_rate w :
  quotes_ok (upstream E (requests_sent w) (quote_request l)) = true ->
  exists w', quotes_for_payment_method E l market_rate w = (Ok tt, w').
Proof.
  unfold quotes_ok. rewrite !orb_true_iff. intros [[Hfailed | Hempty] | Hlist].
  - destruct (quotes_fetch_failed E l market_rate w Hfailed) as (e & _ & ->).
    by eexists.
  - apply empty_success_answered in Hempty as (s & Hs & Hempty).
    rewrite (quotes_empty E l market_rate w s) by done. by eexists.
  - apply well_formed_success_answered in Hlist as (entries & Hs & Hentries).
    rewrite (quotes_listed E l market_rate w entries) by done.
    destruct (normalize_items_total E l market_rate entries 1
                (advanced w 1 [HttpGet (quote_request l)]) Hentries)
      as [w' ->].
    by eexists.
Qed.

Lemma resolve_returns name id currency chain token w :
  split "/" id !! 3%nat = Some chain ->
  split "/" id !! 4%nat = Some token ->
  exists v w', resolve E name id currency w = (Ok v, w').
Proof.
  intros Hchain Htoken.
  destruct (market_rates_cache w !! cache_key id currency) as [v |] eqn:Hw.
  - rewrite (resolve_hit E name id currency w v Hw). by do 2 eexists.
  - destruct (resolve_miss E name id currency chain token w Hchain Htoken Hw)
      as (rate & k & t & _ & _ & _ & _ & t' & -> & _).
    by do 2 eexists.
Qed.

Lemma crypto_currencies_shape crypto :
  crypto ∈ crypto_currencies ->
  exists chain token,
    split "/" crypto.2 !! 3%nat = Some chain
    /\ split "/" crypto.2 !! 4%nat = Some token.
Proof.
  unfold crypto_currencies.
  rewrite !elem_of_cons, elem_of_nil.
  intros [-> | [-> | [-> | []]]]; by do 2 eexists.
Qed.

Lemma region_sweep_returns amount crypto region w :
  crypto ∈ crypto_currencies ->
  (forall n l, quotes_ok (upstream E n (quote_request l)) = true) ->
  exists w', region_sweep E amount crypto region w = (Ok tt, w').
Proof.
  intros (chain & token & Hchain & Htoken)%crypto_currencies_shape Hquotes.
  unfold region_sweep. unfold mbind at 1, M_bind.
  destruct (resolve_returns crypto.1 crypto.2 region.2 chain token w)
    as (v & w1 & ->); try done.
  unfold mbind at 1, M_bind. unfold set_rows at 1.
  unfold mbind at 1, M_bind.
  match goal with
  | |- context [for_each ?items ?body ?w0] =>
      destruct (for_each_returns items body
                  (fun x w' _ =>
                     quotes_for_payment_method_returns _ v w' (Hquotes _ _))
                  w0) as [w2 ->]
  end.
  run. destruct (rows_to_insert w2); by eexists.
Qed.

(** The sweep runs to completion whatever the rate endpoint does, as long
    as each answer of the quote endpoint is a failed fetch, an empty
    result or a list of well-formed entries. *)
Lemma main_returns w :
  (forall n l, quotes_ok (upstream E n (quote_request l)) = true) ->
  exists w', main E w = (Ok tt, w').
Proof.
  intros Hquotes. unfold main. unfold mbind at 1, M_bind, clear_cache.
  unfold mbind at 1, M_bind.
  match goal with
  | |- context [for_each PRICE_RANGE ?body ?w0] =>
      destruct (for_each_returns PRICE_RANGE body) with (w := w0)
        as [w1 ->]
  end.
  - intros amount w' _. run.
    apply for_each_returns. intros crypto w1 Hcrypto.
    apply for_each_returns. intros region w2 _.
    by apply region_sweep_returns.
  - run. by eexists.
Qed.

End Sweep.

(** ** Ranks, empty results and the sweep *)

Lemma ranks_from_one (n : nat) :
  map (fun i => 1 + Z.of_nat i) (seq 0 n) = map Z.of_nat (seq 1 n).
Proof. rewrite <- seq_shift, map_map. apply map_ext. intros i. lia. Qed.

(** C7: for a response whose [success] entry is a list of N provider
    entries, the rows appended are N rows, one per entry in the order of
    the list, with ranks 1, 2, ..., N; when the entries are well-formed the
    rows are produced. *)
Theorem ranks_follow_response_order :
  (forall (F : Type) (HF : PyFloat F) (E : environment F) (l : labels)
          (market_rate : option F) (w w' : world F)
          (entries : list (pyval F)),
     answered E w l (PyList entries) ->
     quotes_for_payment_method E l market_rate w = (Ok tt, w') ->
     exists new,
       rows_to_insert w' = (rows_to_insert w ++ new)%list
       /\ map Rank new = map Z.of_nat (seq 1 (length entries))
       /\ Forall2
            (fun row entry =>
               exists q m,
                 read_item entry = Ok q /\ derive market_rate q = Ok m
                 /\ exists timestamp,
                   row = make_row l market_rate (Rank row) timestamp q m)
            new entries)
  /\ (forall (F : Type) (HF : PyFloat F) (HL : PyFloatLaws F)
            (E : environment F) (l : labels) (market_rate : option F)
            (w : world F) (entries : list (pyval F)),
        answered E w l (PyList entries) ->
        forallb well_formed_item entries = true ->
        exists w', quotes_for_payment_method E l market_rate w = (Ok tt, w'))
  /\ (let E := quoting_upstream three_providers in
      let w' := (quotes_for_payment_method E sample_labels (Some 2000%float)
                   initial_world).2 in
      map (fun r => (Rank r, Provider r)) (rows_to_insert w') =
        [(1, PyStr "Zeta"); (2, PyStr "Alpha"); (3, PyStr "Mid")]).
Proof.
  split; [| split].
  - intros F HF E l market_rate w w' entries Hanswer Hrun.
    rewrite (quotes_listed E l market_rate w entries Hanswer) in Hrun.
    destruct (normalize_items E l market_rate 1 entries _)
      as [[[] | e] w1] eqn:Hitems; [| done].
    injection Hrun as <-.
    apply normalize_items_rows in Hitems as (new & -> & Hranks & Hrows).
    exists new. split; [done |]. split; [| done].
    by rewrite Hranks, ranks_from_one.
  - intros F HF HL E l market_rate w entries Hanswer Hentries.
    rewrite (quotes_listed E l market_rate w entries Hanswer).
    destruct (normalize_items_total E l market_rate entries 1
                (advanced w 1 [HttpGet (quote_request l)]) Hentries)
      as [w' ->].
    by eexists.
  - reflexivity.
Qed.

Section EmptyQuotes.
Context {F : Type} `{PyFloat F}.
Variable E : environment F.
Implicit Types (w : world F) (l : labels) (market_rate : option F).

Lemma inserted_app (t1 t2 : list (event F)) :
  inserted (t1 ++ t2) = (inserted t1 ++ inserted t2)%list.
Proof. apply omap_app. Qed.

Lemma for_each_invariant {A} (P : world F -> Prop) (items : list A)
    (body : A -> M F unit) :
  (forall x w, P w -> exists w', body x w = (Ok tt, w') /\ P w') ->
  forall w, P w -> exists w', for_each items body w = (Ok tt, w') /\ P w'.
Proof.
  intros Hbody. induction items as [| x items IH]; intros w Hw; [by eexists |].
  cbn [for_each]. unfold mbind, M_bind.
  destruct (Hbody x w Hw) as (w1 & -> & Hw1). by apply IH.
Qed.

Lemma empty_success_run l market_rate w :
  empty_success (upstream E (requests_sent w) (quote_request l)) = true ->
  quotes_for_payment_method E l market_rate w =
    (Ok tt, advanced w 1 [HttpGet (quote_request l); Sleep 0.1]).
Proof.
  unfold empty_success.
  destruct (upstream E _ _) as [| status [[] |]] eqn:Hup; try done.
  intros [Hstatus Hempty%negb_true_iff]%andb_true_iff.
  apply negb_true_iff in Hstatus.
  apply (quotes_empty E l market_rate w
           (default PyNone (dict_lookup items "success"))); [| done].
  by do 2 eexists.
Qed.

(** With empty results for every payment method, a region ends with no
    rows and hands nothing to the sink. *)
Lemma region_sweep_empty amount crypto region chain token w :
  split "/" crypto.2 !! 3%nat = Some chain ->
  split "/" crypto.2 !! 4%nat = Some token ->
  (forall n l, empty_success (upstream E n (quote_request l)) = true) ->
  exists w',
    region_sweep E amount crypto region w = (Ok tt, w')
    /\ rows_to_insert w' = [] /\ inserted (trace w') = inserted (trace w).
Proof.
  intros Hchain Htoken Hempty.
  unfold region_sweep. unfold mbind at 1, M_bind.
  assert (exists v w1,
            resolve E crypto.1 crypto.2 region.2 w = (Ok v, w1)
            /\ inserted (trace w1) = inserted (trace w)) as (v & w1 & -> & Hw1).
  { destruct (market_rates_cache w !! cache_key crypto.2 region.2)
      as [v |] eqn:Hw.
    - rewrite (resolve_hit E crypto.1 crypto.2 region.2 w v Hw). eauto.
    - destruct (resolve_miss E crypto.1 crypto.2 region.2 chain token w
                  Hchain Htoken Hw)
        as (rate & k & t & _ & _ & _ & Ht & t' & -> & _ & Ht' & _).
      do 2 eexists. split; [done |]. cbn [trace].
      by rewrite !inserted_app, Ht, Ht', !app_nil_r. }
  unfold mbind at 1, M_bind. unfold set_rows at 1.
  unfold mbind at 1, M_bind.
  match goal with
  | |- context [for_each ?items ?body ?w0] =>
      destruct (for_each_invariant
                  (fun w' => rows_to_insert w' = []
                             /\ inserted (trace w') = inserted (trace w))
                  items body) with (w := w0) as (w2 & -> & Hrows & Htrace)
  end.
  - intros pm w' [Hrows Htrace]. rewrite empty_success_run by done.
    eexists. split; [done |]. cbn [advanced rows_to_insert trace].
    split; [done |]. by rewrite inserted_app, app_nil_r.
  - done.
  - run. rewrite Hrows. by eexists.
Qed.

End EmptyQuotes.

(** C8: a response whose [success] entry is absent or false ([[]], for
    one) adds no row and raises nothing: one request, then the pause of 0.1
    seconds; a failed fetch instead prints a diagnostic and skips the
    pause.  When every payment method of a region gets such a response the
    region ends with no rows and nothing is handed to the sink. *)
Theorem empty_quote_set_is_normal :
  (forall (F : Type) (HF : PyFloat F) (E : environment F) (l : labels)
          (market_rate : option F) (w : world F) (s : pyval F),
     answered E w l s -> truthy s = false ->
     quotes_for_payment_method E l market_rate w =
       (Ok tt, advanced w 1 [HttpGet (quote_request l); Sleep 0.1]))
  /\ (forall (F : Type) (HF : PyFloat F) (E : environment F) (l : labels)
             (market_rate : option F) (w : world F),
        fetch_failed (upstream E (requests_sent w) (quote_request l)) = true ->
        exists e,
          is_request_exception e = true
          /\ quotes_for_payment_method E l market_rate w =
               (Ok tt,
                advanced w 1
                  [HttpGet (quote_request l);
                   Print (ErrorFetchingQuotes (payment_method l) e)]))
  /\ (forall (F : Type) (HF : PyFloat F) (E : environment F) (amount : Z)
             (crypto region : string * string) (chain token : string)
             (w : world F),
        split "/" crypto.2 !! 3%nat = Some chain ->
        split "/" crypto.2 !! 4%nat = Some token ->
        (forall n l, empty_success (upstream E n (quote_request l)) = true) ->
        exists w',
          region_sweep E amount crypto region w = (Ok tt, w')
          /\ rows_to_insert w' = []
          /\ inserted (trace w') = inserted (trace w))
  /\ (let E := quoting_upstream (PyDict [("success", PyList [])]) in
      quotes_for_payment_method E sample_labels (Some 2000%float)
        initial_world =
        (Ok tt,
         advanced initial_world 1
           [HttpGet (quote_request sample_labels); Sleep 0.1])
      /\ (main E initial_world).1 = Ok tt
      /\ inserted (trace (main E initial_world).2) = []).
Proof.
  split; [| split; [| split]].
  - intros F HF E l market_rate w s. apply quotes_empty.
  - intros F HF E l market_rate w. apply quotes_fetch_failed.
  - intros F HF E amount crypto region chain token w.
    apply region_sweep_empty.
  - by vm_compute.
Qed.

(** C4: the rate resolver returns for every upstream outcome when the
    identifier has a chain id and a token address; a failed quote fetch (no
    response, a 4xx or 5xx status, a body that is not JSON) is reported and
    leaves the rows and the cache as they were; and the sweep of [main]
    runs to completion whatever the rate endpoint does, when every answer
    of the quote endpoint is a failed fetch, an empty result or a list of
    well-formed entries. *)
Theorem sweep_absorbs_fetch_failures :
  (forall (F : Type) (HF : PyFloat F) (E : environment F)
          (id fiat chain token : string) (w : world F),
     split "/" id !! 3%nat = Some chain ->
     split "/" id !! 4%nat = Some token ->
     exists v w', get_market_rate E id fiat w = (Ok v, w'))
  /\ (forall (F : Type) (HF : PyFloat F) (E : environment F) (l : labels)
             (market_rate : option F) (w : world F),
        fetch_failed (upstream E (requests_sent w) (quote_request l)) = true ->
        exists w',
          quotes_for_payment_method E l market_rate w = (Ok tt, w')
          /\ rows_to_insert w' = rows_to_insert w
          /\ market_rates_cache w' = market_rates_cache w)
  /\ (forall (F : Type) (HF : PyFloat F) (HL : PyFloatLaws F)
             (E : environment F) (w : world F),
        (forall n l, quotes_ok (upstream E n (quote_request l)) = true) ->
        exists w', main E w = (Ok tt, w')).
Proof.
  split; [| split].
  - intros F HF E id fiat chain token w Hchain Htoken.
    rewrite (get_market_rate_attempts E id fiat chain token) by done.
    destruct (attempts_returns E (RateRequest chain token (lower fiat)) 3 1 w)
      as (v & k & t & -> & _).
    by do 2 eexists.
  - intros F HF E l market_rate w Hfailed.
    destruct (quotes_fetch_failed E l market_rate w Hfailed) as (e & _ & ->).
    by eexists.
  - intros F HF HL E w. apply main_returns.
Qed.

(** The resolver raises on an identifier with fewer than five segments,
    and a quote body that is not a dict ends the sweep. *)
Lemma sweep_does_not_absorb_everything :
  (get_market_rate (rate_limiting_upstream 0) "ETH" "EUR" initial_world).1
    = Raise IndexError
  /\ (let E := quoting_upstream (PyList []) in
      (main E initial_world).1 = Raise AttributeError
      /\ length (http_gets (trace (main E initial_world).2)) = 2%nat)
  /\ ~ (forall (E : environment float) (id fiat : string) (w : world float),
          exists v w', get_market_rate E id fiat w = (Ok v, w'))
  /\ ~ (forall (E : environment float) (w : world float),
          exists w', main E w = (Ok tt, w')).
Proof.
  split; [by vm_compute |]. split; [by vm_compute |]. split.
  - intros Htotal.
    destruct (Htotal (rate_limiting_upstream 0) "ETH" "EUR" initial_world)
      as (v & w' & Hrun).
    apply (f_equal fst) in Hrun. vm_compute in Hrun. done.
  - intros Htotal.
    destruct (Htotal (quoting_upstream (PyList [])) initial_world)
      as (w' & Hrun).
    apply (f_equal fst) in Hrun. vm_compute in Hrun. done.
Qed.

(** ** What a sweep sends to the rate endpoint *)

Section Frame.
Context {F : Type} `{PyFloat F}.
Variable E : environment F.
Variable P : world F -> Prop.

Lemma preserves_bind {A B} (m : M F A) (k : A -> M F B) :
  preserves P m -> (forall a, preserves P (k a)) -> preserves P (m ≫= k).
Proof.
  intros Hm Hk w Hw. unfold mbind, M_bind. specialize (Hm w Hw).
  destruct (m w) as [[a | e] w1]; [by apply Hk | done].
Qed.

Lemma preserves_try {A} (body : M F A) (handler : exn -> M F A) :
  preserves P body -> (forall e, preserves P (handler e)) ->
  preserves P (try_except body handler).
Proof.
  intros Hbody Hhandler w Hw. unfold try_except. specialize (Hbody w Hw).
  destruct (body w) as [[a | e] w1]; [done | by apply Hhandler].
Qed.

Lemma preserves_lift {A} (r : result A) : preserves P (lift r).
Proof. by intros w Hw. Qed.

Lemma preserves_ret {A} (a : A) : preserves P (mret a).
Proof. by intros w Hw. Qed.

Lemma preserves_for_each {A} (items : list A) (body : A -> M F unit) :
  (forall x, x ∈ items -> preserves P (body x)) ->
  preserves P (for_each items body).
Proof.
  induction items as [| x items IH]; intros Hbody; [apply preserves_ret |].
  cbn [for_each]. apply preserves_bind; [apply Hbody; by left |].
  intros _. apply IH. intros y Hy. apply Hbody. by right.
Qed.

(** Properties of the cache and of how often [r] was sent. *)
Variable r : request.
Hypothesis stable : forall w w',
  market_rates_cache w' = market_rates_cache w ->
  times_sent r (trace w') = times_sent r (trace w) ->
  P w -> P w'.

Lemma times_sent_app (t1 t2 : list (event F)) :
  times_sent r (t1 ++ t2) = (times_sent r t1 + times_sent r t2)%nat.
Proof.
  unfold times_sent, http_gets. by rewrite omap_app, filter_app, length_app.
Qed.

Lemma preserves_emit (e : event F) :
  times_sent r [e] = 0%nat -> preserves P (emit e).
Proof.
  intros He w. apply stable; [done |]. unfold emit. cbn [snd trace].
  rewrite times_sent_app, He. lia.
Qed.

Lemma preserves_print d : preserves P (print d).
Proof. by apply preserves_emit. Qed.

Lemma preserves_sleep s : preserves P (sleep s).
Proof. by apply preserves_emit. Qed.

Lemma preserves_requests_get r' : r' <> r -> preserves P (requests_get E r').
Proof.
  intros Hr w. unfold requests_get.
  assert (times_sent r (trace w ++ [HttpGet r']) = times_sent r (trace w))
    as Hsent.
  { rewrite times_sent_app. unfold times_sent, http_gets.
    change (omap _ [HttpGet r']) with [r'].
    rewrite filter_cons_False by done. cbn. lia. }
  destruct (upstream E (requests_sent w) r'); by apply stable.
Qed.

Lemma preserves_now : preserves P (now E).
Proof. intros w. by apply stable. Qed.

Lemma preserves_set_rows rows : preserves P (set_rows rows).
Proof. intros w. by apply stable. Qed.

Lemma preserves_get_rows : preserves P get_rows.
Proof. by intros w Hw. Qed.

Lemma preserves_raise_for_status response :
  preserves P (raise_for_status response).
Proof.
  unfold raise_for_status. destruct (_ && _); [apply preserves_lift |].
  apply preserves_ret.
Qed.

Lemma preserves_normalize_items l market_rate items : forall rank,
  preserves P (normalize_items E l market_rate rank items).
Proof.
  induction items as [| item items IH]; intros rank; [apply preserves_ret |].
  cbn [normalize_items]. apply preserves_bind; [| by intros _].
  unfold normalize_item, append_row.
  repeat (apply preserves_bind; [| intros ?]);
    auto using preserves_lift, preserves_now, preserves_get_rows,
      preserves_set_rows.
Qed.

(** Fetching and normalising the quotes of a payment method sends quote
    requests only and leaves the cache alone. *)
Lemma preserves_quotes l market_rate :
  quote_request l <> r ->
  preserves P (quotes_for_payment_method E l market_rate).
Proof.
  intros Hr. unfold quotes_for_payment_method. apply preserves_try.
  - unfold fetch_and_normalize, get_quotes. fold (quote_request l).
    unfold response_json.
    repeat (apply preserves_bind; [| intros ?]);
      auto using preserves_lift, preserves_sleep, preserves_requests_get,
        preserves_raise_for_status.
    destruct (truthy _); [| apply preserves_ret].
    apply preserves_bind; [apply preserves_lift |]. intros items.
    apply preserves_normalize_items.
  - intros e. destruct (is_request_exception e);
      [apply preserves_print | apply preserves_lift].
Qed.

End Frame.

(** The combinations of [main] that share a rate request share the cache
    key. *)
Lemma rate_request_of_key crypto region crypto' region' :
  crypto ∈ crypto_currencies -> region ∈ regions ->
  crypto' ∈ crypto_currencies -> region' ∈ regions ->
  rate_request_of crypto region = rate_request_of crypto' region' ->
  cache_key crypto.2 region.2 = cache_key crypto'.2 region'.2.
Proof.
  unfold crypto_currencies, regions.
  rewrite !elem_of_cons, !elem_of_nil.
  intros [-> | [-> | [-> | []]]] [-> | [-> | [-> | []]]]
         [-> | [-> | [-> | []]]] [-> | [-> | [-> | []]]];
    vm_compute; congruence.
Qed.

Section SweepRequests.
Context {F : Type} `{PyFloat F}.
Variable E : environment F.
Variable r : request.
Variable base : nat.
Hypothesis rate_request : forall l, quote_request l <> r.

Lemma sweep_invariant_stable (w w' : world F) :
  market_rates_cache w' = market_rates_cache w ->
  times_sent r (trace w') = times_sent r (trace w) ->
  sweep_invariant r base w -> sweep_invariant r base w'.
Proof. unfold sweep_invariant. by intros -> ->. Qed.

Lemma times_sent_gets (t : list (event F)) (r' : request) k :
  http_gets t = replicate k r' ->
  times_sent r t = if decide (r' = r) then k else 0%nat.
Proof.
  unfold times_sent. intros ->. induction k as [| k IH]; [by case_decide |].
  cbn [replicate]. case_decide.
  - rewrite filter_cons_True by done. cbn. by rewrite IH.
  - by rewrite filter_cons_False.
Qed.

Lemma resolve_keeps_invariant crypto region :
  crypto ∈ crypto_currencies -> region ∈ regions ->
  preserves (sweep_invariant r base) (resolve E crypto.1 crypto.2 region.2).
Proof.
  intros Hcrypto Hregion w [Hsent Hcached].
  destruct (crypto_currencies_shape crypto Hcrypto)
    as (chain & token & Hchain & Htoken).
  destruct (market_rates_cache w !! cache_key crypto.2 region.2)
    as [v |] eqn:Hw.
  { by rewrite (resolve_hit E crypto.1 crypto.2 region.2 w v Hw). }
  destruct (resolve_miss E crypto.1 crypto.2 region.2 chain token w
              Hchain Htoken Hw)
    as (rate & k & t & _ & Hk & Hgets & _ & t' & -> & Hgets' & _).
  cbn [snd]. unfold sweep_invariant. cbn [trace market_rates_cache].
  assert (rate_request_of crypto region =
            RateRequest chain token (lower region.2)) as Hrequest.
  { unfold rate_request_of. by rewrite Hchain, Htoken. }
  rewrite !times_sent_app, (times_sent_gets t _ k Hgets).
  assert (times_sent r t' = 0%nat) as ->.
  { unfold times_sent. by rewrite Hgets'. }
  rewrite <- Hrequest. case_decide as Hr.
  - assert (times_sent r (trace w) <= base)%nat as Hbase.
    { destruct (decide (base < times_sent r (trace w))%nat) as [Hlt |];
        [| lia].
      destruct (Hcached crypto region Hcrypto Hregion Hr Hlt) as [v Hv].
      congruence. }
    split; [lia |]. intros crypto' region' Hcrypto' Hregion' Hr' _.
    rewrite (rate_request_of_key crypto' region' crypto region) by congruence.
    rewrite lookup_insert_eq. by eexists.
  - split; [lia |]. intros crypto' region' Hcrypto' Hregion' Hr' Hlt.
    apply lookup_insert_is_Some'. right.
    apply Hcached; [done | done | done | lia].
Qed.

Lemma region_sweep_keeps_invariant amount crypto region :
  crypto ∈ crypto_currencies -> region ∈ regions ->
  preserves (sweep_invariant r base) (region_sweep E amount crypto region).
Proof.
  intros Hcrypto Hregion. unfold region_sweep.
  apply preserves_bind; [by apply resolve_keeps_invariant |].
  intros market_rate.
  pose proof sweep_invariant_stable as Hstable.
  apply preserves_bind; [by eapply preserves_set_rows |]. intros _.
  apply preserves_bind.
  { apply preserves_for_each. intros payment_method _.
    by eapply preserves_quotes. }
  intros _. apply preserves_bind; [apply preserves_get_rows |].
  intros [| row rows]; [apply preserves_ret |].
  apply preserves_bind; [by eapply preserves_print |]. intros _.
  by eapply preserves_emit.
Qed.

End SweepRequests.

(** In one run of [main], whether it completes or not, each rate request is
    sent at most 3 times. *)
Lemma main_rate_requests {F} `{PyFloat F} (E : environment F)
    (chain token fiat : string) (w : world F) :
  let r := RateRequest chain token fiat in
  (times_sent r (trace (main E w).2) <= times_sent r (trace w) + 3)%nat.
Proof.
  intros r.
  assert (preserves (sweep_invariant r (times_sent r (trace w)))
            (for_each PRICE_RANGE (fun amount =>
               print (FetchingQuotesFor amount);;
               for_each crypto_currencies (fun crypto =>
                 for_each regions (fun region =>
                   region_sweep E amount crypto region)));;
             print ScrapingComplete)) as Hsweep.
  { pose proof (sweep_invariant_stable (F:=F) r (times_sent r (trace w)))
      as Hstable.
    apply preserves_bind; [| intros _; by eapply preserves_print].
    apply preserves_for_each. intros amount _.
    apply preserves_bind; [by eapply preserves_print |]. intros _.
    apply preserves_for_each. intros crypto Hcrypto.
    apply preserves_for_each. intros region Hregion.
    by apply region_sweep_keeps_invariant. }
  unfold main. unfold mbind at 1, M_bind, clear_cache.
  refine (proj1 (Hsweep _ _)). split; cbn [trace]; [lia |].
  intros crypto region _ _ _ Hsent. lia.
Qed.

(** C6: of two resolves of a pair, the second sends nothing upstream,
    changes nothing and returns what the first returned, and so does every
    later resolve while the entry is cached.  The first, on a cache miss,
    sends between 1 and 3 requests (exactly 1 unless the response is a rate
    limit) and caches the rate, or None when the resolver returned None or
    0.0.  In one run of [main], whether it completes or raises, each rate
    request is sent at most 3 times: the pair is resolved once. *)
Theorem rate_cache_resolves_pair_once :
  (forall (F : Type) (HF : PyFloat F) (E : environment F)
         (name id currency chain token : string)
         (w w1 w2 : world F) (r1 r2 : result (option F)),
    split "/" id !! 3%nat = Some chain ->
    split "/" id !! 4%nat = Some token ->
    resolve E name id currency w = (r1, w1) ->
    resolve E name id currency w1 = (r2, w2) ->
    let first := upstream E (requests_sent w)
                   (RateRequest chain token (lower currency)) in
    exists v,
      r1 = Ok v /\ r2 = Ok v /\ w2 = w1
      /\ market_rates_cache w1 !! cache_key id currency = Some v
      /\ (forall w', market_rates_cache w' !! cache_key id currency = Some v ->
            resolve E name id currency w' = (Ok v, w'))
      /\ (requests_sent w <= requests_sent w1 <= requests_sent w + 3)%nat
      /\ (market_rates_cache w !! cache_key id currency = None ->
          (requests_sent w < requests_sent w1)%nat
          /\ (v = None \/ exists x, v = Some x /\ f_is_zero x = false)
          /\ (rate_limited first = false ->
              requests_sent w1 = (requests_sent w + 1)%nat
              /\ v = if rate_truthy (settled_rate E first)
                     then settled_rate E first else None)))
  /\ (forall (F : Type) (HF : PyFloat F) (E : environment F)
             (chain token fiat : string) (w : world F),
        let r := RateRequest chain token fiat in
        (times_sent r (trace (main E w).2)
           <= times_sent r (trace w) + 3)%nat).
Proof.
  split; [| intros F HF E; apply main_rate_requests].
  intros F HF E name id currency chain token w w1 w2 r1 r2 Hchain Htoken
    Hfirst Hsecond first.
  destruct (market_rates_cache w !! cache_key id currency) as [v |] eqn:Hw.
  - rewrite (resolve_hit E name id currency w v Hw) in Hfirst.
    injection Hfirst as <- <-.
    rewrite (resolve_hit E name id currency w v Hw) in Hsecond.
    injection Hsecond as <- <-.
    exists v. do 4 (split; [done |]).
    split; [intros w'; apply resolve_hit |]. split; [lia | done].
  - destruct (resolve_miss E name id currency chain token w Hchain Htoken Hw)
      as (rate & k & t & Hrate & Hk & Hgets & Hins & t' & Hrun & _).
    cbn zeta in Hrun. rewrite Hrun in Hfirst. injection Hfirst as <- <-.
    set (v := if rate_truthy rate then rate else None) in *.
    rewrite resolve_hit with (v := v) in Hsecond
      by (cbn; apply lookup_insert_eq).
    injection Hsecond as <- <-.
    exists v. split; [done |]. split; [done |]. split; [done |].
    split; [cbn; apply lookup_insert_eq |].
    split; [intros w'; apply resolve_hit |].
    split; [cbn; lia |]. intros _. split; [cbn; lia |]. split.
    + subst v. destruct rate as [x |]; cbn; [| by left].
      destruct (f_is_zero x) eqn:Hx; cbn; [by left | right; eauto].
    + intros Hsettled.
      rewrite (get_market_rate_attempts E id currency chain token) in Hrate
        by done.
      destruct (attempts_settled_rate E
                  (RateRequest chain token (lower currency)) 2 1 w Hsettled)
        as (t0 & Hrun0 & _).
      rewrite Hrun0 in Hrate. injection Hrate as <- Hworld _.
      split; [cbn; lia | done].
Qed.

(** With one rate-limited response, two resolves of a pair send two
    requests upstream, and so does a whole run of [main] for that pair. *)
Lemma rate_limited_pair_sends_two_requests :
  let E := rate_limiting_upstream 1 in
  let r := RateRequest "1" "0x0000000000000000000000000000000000000000"
             "eur" in
  let w1 := (resolve E "ETH (Mainnet)" eth "EUR" initial_world).2 in
  let w2 := (resolve E "ETH (Mainnet)" eth "EUR" w1).2 in
  requests_sent w2 = 2%nat
  /\ http_gets (trace w2) = [r; r]
  /\ length (http_gets (trace w2)) <> 1%nat
  /\ (main E initial_world).1 = Ok ()
  /\ times_sent r (trace (main E initial_world).2) = 2%nat
  /\ ~ (times_sent r (trace (main E initial_world).2) <= 1)%nat.
Proof. vm_compute. repeat split; (congruence || lia). Qed.

(** ** What a sweep does to the outside *)

Section Extends.
Context {F : Type}.
Implicit Types (w : world F).

Lemma extends_refl w : extends w w [] [].
Proof.
  unfold extends. by rewrite !app_nil_r, Nat.add_0_r.
Qed.

Lemma extends_trans w w1 w2 t1 t2 new1 new2 t new :
  extends w w1 t1 new1 -> extends w1 w2 t2 new2 ->
  t = (t1 ++ t2)%list -> new = (new1 ++ new2)%list ->
  extends w w2 t new.
Proof.
  unfold extends. intros (-> & -> & ->) (-> & -> & ->) -> ->.
  rewrite !app_assoc, length_app. repeat split. lia.
Qed.

Lemma extends_advanced w n t : extends w (advanced w n t) t [].
Proof. unfold extends. cbn. by rewrite app_nil_r, Nat.add_0_r. Qed.

Lemma extends_appended w new : extends w (appended w new) [] new.
Proof. unfold extends. cbn. by rewrite app_nil_r. Qed.

End Extends.

Section Worlds.
Context {F : Type} `{PyFloat F}.
Variable E : environment F.
Implicit Types (w : world F) (l : labels) (market_rate : option F).

(** Whether it returns or raises, [normalize_items] only appends rows,
    stamped with consecutive clock readings. *)
Lemma normalize_items_world l market_rate items : forall rank w,
  exists new,
    (normalize_items E l market_rate rank items w).2 = appended w new
    /\ Forall (made_row l market_rate rank) new
    /\ map Timestamp new = map (clock E) (seq (clock_reads w) (length new)).
Proof.
  induction items as [| item items IH]; intros rank w.
  - exists []. by rewrite appended_nil.
  - cbn [normalize_items]. unfold mbind at 1, M_bind.
    rewrite normalize_item_run.
    destruct (read_item item) as [q |] eqn:Hq; cbn;
      [| exists []; by rewrite appended_nil].
    destruct (derive market_rate q) as [m |] eqn:Hm; cbn;
      [| exists []; by rewrite appended_nil].
    destruct (IH (rank + 1) (appended w
                [make_row l market_rate rank (clock E (clock_reads w)) q m]))
      as (new & -> & Hnew & Hstamps).
    eexists (_ :: new). split; [by rewrite appended_appended |]. split.
    + constructor.
      * split; [cbn; lia |]. by exists q, m.
      * eapply Forall_impl; [done |]. intros r [Hr Hmade].
        split; [lia | done].
    + cbn [map length seq]. f_equal. rewrite Hstamps.
      cbn [appended clock_reads].
      cbn [length]. by rewrite Nat.add_1_r.
Qed.

End Worlds.

Section QuotesWorld.
Context {F : Type} `{PyFloat F}.
Variable E : environment F.
Implicit Types (w : world F) (l : labels) (market_rate : option F).

(** Whether it returns or raises, one payment method costs one request; it
    pauses at most once, for 0.1 seconds, and appends rows ranked from 1. *)
Lemma quotes_for_payment_method_world l market_rate w r w' :
  quotes_for_payment_method E l market_rate w = (r, w') ->
  exists t new,
    extends w w' (HttpGet (quote_request l) :: t) new
    /\ Forall quote_event t
    /\ Forall (made_row l market_rate 1) new
    /\ map Timestamp new = map (clock E) (seq (clock_reads w) (length new))
    /\ (r = Ok tt ->
        t = [Sleep 0.1%Q] \/ new = [] /\ exists d, t = [Print d]).
Proof.
  unfold quotes_for_payment_method, fetch_and_normalize, try_except.
  unfold mbind at 1, M_bind. rewrite get_quotes_run.
  set (w1 := advanced w 1 [HttpGet (quote_request l)]).
  assert (extends w w1 [HttpGet (quote_request l)] []) as Hw1
    by apply extends_advanced.
  assert (forall e,
            print (ErrorFetchingQuotes (payment_method l) e) w1 = (r, w') ->
            exists t new,
              extends w w' (HttpGet (quote_request l) :: t) new
              /\ Forall quote_event t
              /\ Forall (made_row l market_rate 1) new
              /\ map Timestamp new =
                   map (clock E) (seq (clock_reads w) (length new))
              /\ (r = Ok tt ->
                  t = [Sleep 0.1%Q] \/ new = [] /\ exists d, t = [Print d]))
    as Hprint.
  { intros e. run. rewrite advanced_event. intros [= <- <-].
    exists [Print (ErrorFetchingQuotes (payment_method l) e)], [].
    split; [| repeat split; eauto; by repeat constructor].
    eapply extends_trans; [done | apply extends_advanced | done | done]. }
  assert (forall e, (Raise e, w1) = (r, w') -> exists t new,
            extends w w' (HttpGet (quote_request l) :: t) new
            /\ Forall quote_event t
            /\ Forall (made_row l market_rate 1) new
            /\ map Timestamp new =
                 map (clock E) (seq (clock_reads w) (length new))
            /\ (r = Ok tt ->
                t = [Sleep 0.1%Q] \/ new = [] /\ exists d, t = [Print d]))
    as Hraise.
  { intros e [= <- <-]. exists [], []. split; [done |]. by repeat split. }
  destruct (upstream E (requests_sent w) (quote_request l))
    as [| status body]; [apply Hprint |].
  destruct ((400 <=? status) && (status <? 600)); [apply Hprint |].
  destruct body as [data |]; cbn [of_option]; [| apply Hprint].
  unfold mbind at 1, M_bind. unfold lift at 1.
  destruct (py_get data "success" PyNone) as [success | e] eqn:Hsuccess.
  2: { apply py_get_exn in Hsuccess as ->. apply Hraise. }
  unfold mbind at 1, M_bind.
  destruct (truthy success).
  - unfold mbind at 1, M_bind. unfold lift at 1.
    destruct (py_iter success) as [items | e] eqn:Hitems.
    2: { apply py_iter_exn in Hitems as ->. apply Hraise. }
    destruct (normalize_items_world E l market_rate items 1 w1)
      as (new & Hworld & Hnew & Hstamps).
    destruct (normalize_items E l market_rate 1 items w1)
      as [[[] | e] w2] eqn:Hrun; cbn [snd] in Hworld; subst w2.
    + run. rewrite advanced_event. intros [= <- <-].
      exists [Sleep 0.1%Q], new.
      split; [| repeat split; eauto; by repeat constructor].
      eapply extends_trans; [done | | done | done].
      eapply extends_trans;
        [apply extends_appended | apply extends_advanced | done |].
      by rewrite app_nil_r.
    + apply normalize_items_exn in Hrun as ->. intros [= <- <-].
      exists [], new. split; [| by repeat split].
      eapply extends_trans; [done | apply extends_appended | done | done].
  - run. rewrite advanced_event. intros [= <- <-]. exists [Sleep 0.1%Q], [].
    split; [| repeat split; eauto; by repeat constructor].
    eapply extends_trans; [done | apply extends_advanced | done | done].
Qed.

End QuotesWorld.

Section ResolveWorld.
Context {F : Type} `{PyFloat F}.
Variable E : environment F.
Implicit Types (w : world F) (r : request).

Lemma rate_event_mono r pauses pauses' (e : event F) :
  pauses ⊆ pauses' -> rate_event r pauses e -> rate_event r pauses' e.
Proof. intros Hsub. destruct e; cbn; auto. Qed.

Lemma advanced_inj w k k' (t t' : list (event F)) :
  advanced w k t = advanced w k' t' -> t = t'.
Proof.
  unfold advanced. intros [= _ Htrace]. by apply app_inv_head in Htrace.
Qed.

(** The retry loop sends only [r] and pauses only for the delays of its
    remaining attempts. *)
Lemma attempts_events r n d w :
  exists v k t,
    attempts E r n d w = (Ok v, advanced w k t)
    /\ Forall (rate_event r (delays n d)) t.
Proof.
  revert d w. induction n as [| n IH]; intros d w.
  - exists None, 0%nat, [Print FailedAfterRetries].
    split; [| by repeat constructor]. cbn. run. by rewrite advanced_event.
  - destruct (rate_limited (upstream E (requests_sent w) r)) eqn:Hlimited.
    + rewrite attempts_rate_limited by done.
      destruct (IH (d * 2) (advanced w 1 [HttpGet r;
                  Print (RateLimitedRetrying d); Sleep (inject_Z d)]))
        as (v & k & t & -> & Ht).
      rewrite advanced_advanced. do 3 eexists. split; [done |].
      repeat constructor.
      eapply Forall_impl; [done |]. intros e. apply rate_event_mono.
      cbn [delays]. intros s Hs. by right.
    + rewrite attempts_settled by done.
      destruct (fetch_market_rate E r w).1;
        eexists _, 1%nat, _; (split; [done |]).
      * repeat (constructor; [by cbn |]). constructor.
      * repeat (constructor; [by cbn |]). constructor.
Qed.

Lemma only_prints (t : list (event F)) :
  http_gets t = [] -> inserted t = [] -> sleeps t = [] ->
  forall r pauses, Forall (rate_event r pauses) t.
Proof.
  intros Hgets Hins Hsleeps r pauses.
  induction t as [| [] t IH]; [done | ..]; try done.
  constructor; [done |]. by apply IH.
Qed.

(** Resolving the rate of a configured pair returns; it sends only the rate
    request of the pair, pauses only for 1, 2 or 4 seconds and leaves the
    rows alone. *)
Lemma resolve_world crypto region w :
  crypto ∈ crypto_currencies ->
  exists v w' t,
    resolve E crypto.1 crypto.2 region.2 w = (Ok v, w')
    /\ extends w w' t []
    /\ Forall (rate_event (rate_request_of crypto region) [1; 2; 4]%Q) t.
Proof.
  intros (chain & token & Hchain & Htoken)%crypto_currencies_shape.
  destruct (market_rates_cache w !! cache_key crypto.2 region.2)
    as [v |] eqn:Hw.
  { rewrite (resolve_hit E crypto.1 crypto.2 region.2 w v Hw).
    exists v, w, []. split; [done |]. split; [apply extends_refl | done]. }
  destruct (resolve_miss E crypto.1 crypto.2 region.2 chain token w
              Hchain Htoken Hw)
    as (rate & k & t & Hrate & _ & _ & _ & t' & -> & Hgets & Hins & Hsleeps).
  eexists _, _, (t ++ t')%list. split; [done |]. split.
  { unfold extends. cbn [trace rows_to_insert clock_reads length].
    by rewrite app_nil_r, Nat.add_0_r. }
  assert (rate_request_of crypto region =
            RateRequest chain token (lower region.2)) as ->.
  { unfold rate_request_of. by rewrite Hchain, Htoken. }
  apply Forall_app. split; [| by apply only_prints].
  rewrite (get_market_rate_attempts E _ _ chain token) in Hrate by done.
  destruct (attempts_events (RateRequest chain token (lower region.2)) 3 1 w)
    as (v' & k' & t0 & Hrun & Ht0).
  rewrite Hrun in Hrate. assert (advanced w k' t0 = advanced w k t) as Ht
    by congruence.
  apply advanced_inj in Ht. by subst t0.
Qed.

End ResolveWorld.

Section MainEvents.
Context {F : Type} `{PyFloat F}.
Variable E : environment F.
Implicit Types (w : world F).

Lemma sweep_trace_extends t0 w w' t new :
  sweep_trace t0 w -> extends w w' t new -> Forall sweep_event t ->
  sweep_trace t0 w'.
Proof.
  intros (t1 & Ht1 & Hevents) (Htrace & _) Ht. exists (t1 ++ t)%list.
  split; [by rewrite Htrace, Ht1, app_assoc | by apply Forall_app].
Qed.

Lemma sweep_rate_request crypto region :
  crypto ∈ crypto_currencies -> region ∈ regions ->
  rate_request_of crypto region ∈ sweep_rate_requests.
Proof.
  intros Hcrypto Hregion. unfold sweep_rate_requests.
  apply list_elem_of_bind. exists crypto. split; [| done].
  apply list_elem_of_bind. exists region. split; [| done]. by left.
Qed.

Lemma sweep_quote_request amount crypto region payment_method :
  amount ∈ PRICE_RANGE -> crypto ∈ crypto_currencies -> region ∈ regions ->
  payment_method ∈ methods_of region ->
  quote_request
    {| amount := amount; crypto_name := crypto.1; crypto_id := crypto.2;
       region_code := region.1; currency_code := region.2;
       payment_method := payment_method |} ∈ sweep_quote_requests.
Proof.
  intros Hamount Hcrypto Hregion Hmethod. unfold sweep_quote_requests.
  apply list_elem_of_fmap_2. unfold sweep_labels.
  apply list_elem_of_bind. exists amount. split; [| done].
  apply list_elem_of_bind. exists crypto. split; [| done].
  apply list_elem_of_bind. exists region. split; [| done].
  apply list_elem_of_bind. exists payment_method. split; [| done]. by left.
Qed.

Lemma rate_event_sweep crypto region (e : event F) :
  crypto ∈ crypto_currencies -> region ∈ regions ->
  rate_event (rate_request_of crypto region) [1; 2; 4]%Q e -> sweep_event e.
Proof.
  intros Hcrypto Hregion. destruct e as [r | s | d | rows]; cbn; try done.
  - intros ->. left. by apply sweep_rate_request.
  - intros Hs. by right.
Qed.

Lemma made_row_sweep amount crypto region payment_method market_rate
    (r : row F) :
  payment_method ∈ methods_of region ->
  made_row
    {| amount := amount; crypto_name := crypto.1; crypto_id := crypto.2;
       region_code := region.1; currency_code := region.2;
       payment_method := payment_method |} market_rate 1 r ->
  sweep_row crypto region r.
Proof.
  intros Hmethod (Hrank & q & m & _ & ->). by repeat split.
Qed.

(** One (amount, crypto, region) combination of the sweep. *)
Lemma region_sweep_events t0 amount crypto region :
  amount ∈ PRICE_RANGE -> crypto ∈ crypto_currencies -> region ∈ regions ->
  preserves (sweep_trace t0) (region_sweep E amount crypto region).
Proof.
  intros Hamount Hcrypto Hregion w Hw.
  unfold region_sweep. unfold mbind at 1, M_bind.
  destruct (resolve_world E crypto region w Hcrypto)
    as (market_rate & w1 & t1 & -> & Hw1 & Ht1).
  assert (sweep_trace t0 w1) as Hsweep1.
  { eapply sweep_trace_extends; [done | done |].
    eapply Forall_impl; [done |]. intros e. by apply rate_event_sweep. }
  unfold mbind at 1, M_bind. unfold set_rows at 1.
  set (w2 := {| requests_sent := requests_sent w1;
                rows_to_insert := [] |}).
  set (I := fun w' : world F =>
              sweep_trace t0 w'
              /\ Forall (sweep_row crypto region) (rows_to_insert w')).
  unfold mbind at 1, M_bind.
  match goal with
  | |- context [for_each ?items ?body w2] =>
      pose proof (preserves_for_each I items body) as Hloop
  end.
  fold (methods_of region) in *.
  specialize (Hloop ltac:(
    intros payment_method Hmethod w' [Htrace Hrows];
    destruct (quotes_for_payment_method E _ market_rate w')
      as [r w''] eqn:Hrun;
    apply quotes_for_payment_method_world in Hrun
      as (t & new & Hext & Ht & Hnew & _);
    cbn [snd]; split;
    [ eapply sweep_trace_extends; [done | done |];
      constructor;
      [ right; by apply sweep_quote_request
      | eapply Forall_impl; [done |];
        intros [r' | s | d | rows] He; cbn in *;
        [done | subst; by left | done | done] ]
    | destruct Hext as (_ & -> & _); apply Forall_app; split; [done |];
      eapply Forall_impl; [done |]; intros r'; by apply made_row_sweep ])
    w2 ltac:(by split)).
  destruct (for_each _ _ w2) as [[[] | e] w3]; cbn [snd] in Hloop;
    destruct Hloop as [Htrace Hrows]; [| done].
  run. destruct (rows_to_insert w3) as [| row rows] eqn:Hw3; [done |].
  unfold append_to_bigquery. run.
  destruct Htrace as (t & Ht & Hevents). cbn [snd trace].
  exists (t ++ [Print (InsertingRows (length (row :: rows)) region.2
                         (upper region.1)); InsertRows (row :: rows)])%list.
  split; [by rewrite Ht, <- !app_assoc |].
  apply Forall_app. split; [done |]. repeat constructor; [done |].
  by exists crypto, region.
Qed.

(** Whatever the upstream answers, and whether the run completes or not,
    [main] sends, pauses and inserts only as the sweep is configured. *)
Lemma main_events w :
  exists t, trace (main E w).2 = (trace w ++ t)%list /\ Forall sweep_event t.
Proof.
  assert (preserves (sweep_trace (trace w))
            (for_each PRICE_RANGE (fun amount =>
               print (FetchingQuotesFor amount);;
               for_each crypto_currencies (fun crypto =>
                 for_each regions (fun region =>
                   region_sweep E amount crypto region)));;
             print ScrapingComplete)) as Hsweep.
  { assert (forall d, preserves (sweep_trace (trace w)) (print d)) as Hprint.
    { intros d w' (t & Ht & Hevents). exists (t ++ [Print d])%list.
      cbn. split; [by rewrite Ht, app_assoc |].
      apply Forall_app. split; [done | by repeat constructor]. }
    apply preserves_bind; [| intros _; apply Hprint].
    apply preserves_for_each. intros amount Hamount.
    apply preserves_bind; [apply Hprint |]. intros _.
    apply preserves_for_each. intros crypto Hcrypto.
    apply preserves_for_each. intros region Hregion.
    by apply region_sweep_events. }
  unfold main. unfold mbind at 1, M_bind, clear_cache.
  apply Hsweep. exists []. by rewrite app_nil_r.
Qed.

End MainEvents.

Section CompletedRun.
Context {F : Type} `{PyFloat F}.
Variable E : environment F.
Implicit Types (w : world F).

Lemma for_each_ok_inv {A} (I : world F -> Prop) (items : list A)
    (body : A -> M F unit) :
  (forall x w w', x ∈ items -> I w -> body x w = (Ok tt, w') -> I w') ->
  forall w w', I w -> for_each items body w = (Ok tt, w') -> I w'.
Proof.
  induction items as [| x items IH]; intros Hbody w w' Hw Hrun.
  - by injection Hrun as <-.
  - cbn [for_each] in Hrun. unfold mbind, M_bind in Hrun.
    destruct (body x w) as [[[] | e] w1] eqn:Hx; [| done].
    eapply IH; [| | done].
    + intros y w2 w3 Hy. apply Hbody. by right.
    + eapply Hbody; [by left | done | done].
Qed.

Lemma for_each_ok_acc {A B} (obs : world F -> list B) (f : A -> list B)
    (items : list A) (body : A -> M F unit) :
  (forall x w w', x ∈ items -> body x w = (Ok tt, w') ->
     obs w' = (obs w ++ f x)%list) ->
  forall w w', for_each items body w = (Ok tt, w') ->
    obs w' = (obs w ++ (items ≫= f))%list.
Proof.
  induction items as [| x items IH]; intros Hbody w w' Hrun.
  - injection Hrun as <-. by rewrite app_nil_r.
  - cbn [for_each] in Hrun. unfold mbind at 1, M_bind in Hrun.
    destruct (body x w) as [[[] | e] w1] eqn:Hx; [| done].
    apply IH in Hrun; [| intros y w2 w3 Hy; apply Hbody; by right].
    rewrite Hrun, (Hbody x w w1) by (done || by left).
    by rewrite <- app_assoc.
Qed.

Lemma http_gets_app (t1 t2 : list (event F)) :
  http_gets (t1 ++ t2) = (http_gets t1 ++ http_gets t2)%list.
Proof. apply omap_app. Qed.

Lemma quote_gets_app (t1 t2 : list (event F)) :
  quote_gets (t1 ++ t2) = (quote_gets t1 ++ quote_gets t2)%list.
Proof. unfold quote_gets. by rewrite http_gets_app, filter_app. Qed.

Lemma inserted_stamps_app (t1 t2 : list (event F)) :
  inserted_stamps (t1 ++ t2) = (inserted_stamps t1 ++ inserted_stamps t2)%list.
Proof.
  unfold inserted_stamps. by rewrite inserted_app, concat_app, map_app.
Qed.

Lemma rate_events_quiet r pauses (t : list (event F)) :
  is_quote_request r = false -> Forall (rate_event r pauses) t ->
  quote_gets t = [] /\ inserted_stamps t = [].
Proof.
  intros Hr. induction 1 as [| [r' | s | d | rows] t He Ht [IH1 IH2]];
    [done | | done | done | done].
  cbn in He. subst r'. split; [| done].
  unfold quote_gets in *. change (http_gets (HttpGet r :: t)) with
    (r :: http_gets t). by rewrite filter_cons_False by congruence.
Qed.

Lemma quote_events_quiet (t : list (event F)) :
  Forall quote_event t -> quote_gets t = [] /\ inserted_stamps t = [].
Proof.
  induction 1 as [| [r' | s | d | rows] t He Ht [IH1 IH2]]; done.
Qed.

Lemma quote_gets_trace w w' t new :
  extends w w' t new ->
  quote_gets (trace w') = (quote_gets (trace w) ++ quote_gets t)%list.
Proof. intros (-> & _). apply quote_gets_app. Qed.

(** One combination, when it completes, has sent the quote requests of the
    payment methods of its region, in their order. *)
Lemma region_sweep_quote_gets amount crypto region w w' :
  crypto ∈ crypto_currencies ->
  region_sweep E amount crypto region w = (Ok tt, w') ->
  quote_gets (trace w') =
    (quote_gets (trace w) ++
     (payment_method ← methods_of region;
      [quote_request
         {| amount := amount; crypto_name := crypto.1;
            crypto_id := crypto.2; region_code := region.1;
            currency_code := region.2;
            payment_method := payment_method |}]))%list.
Proof.
  intros Hcrypto. unfold region_sweep. unfold mbind at 1, M_bind.
  destruct (resolve_world E crypto region w Hcrypto)
    as (market_rate & w1 & t1 & -> & Hw1 & Ht1).
  apply rate_events_quiet in Ht1 as [Ht1 _]; [| done].
  apply quote_gets_trace in Hw1. rewrite Ht1, app_nil_r in Hw1.
  rewrite <- Hw1. clear Hw1 Ht1.
  unfold mbind at 1, M_bind. unfold set_rows at 1.
  set (w2 := {| requests_sent := requests_sent w1;
                rows_to_insert := [] |}).
  change (trace w1) with (trace w2).
  unfold mbind at 1, M_bind. fold (methods_of region).
  destruct (for_each _ _ w2) as [[[] | e] w3] eqn:Hloop; [| done].
  eapply (for_each_ok_acc (fun w => quote_gets (trace w))
            (fun payment_method =>
               [quote_request
                  {| amount := amount; crypto_name := crypto.1;
                     crypto_id := crypto.2; region_code := region.1;
                     currency_code := region.2;
                     payment_method := payment_method |}])) in Hloop.
  2: { intros payment_method w4 w5 _ Hrun.
       apply quotes_for_payment_method_world in Hrun
         as (t & new & Hext & Ht & _).
       apply quote_gets_trace in Hext. rewrite Hext. f_equal.
       apply quote_events_quiet in Ht as [Ht _].
       change (HttpGet ?r :: t) with ([HttpGet r] ++ t)%list.
       by rewrite quote_gets_app, Ht. }
  rewrite <- Hloop. unfold append_to_bigquery. run.
  destruct (rows_to_insert w3); run; intros [= <-]; [done |].
  cbn [trace]. rewrite <- app_assoc. by rewrite quote_gets_app, app_nil_r.
Qed.

Lemma sweep_quote_requests_loops :
  (amount ← PRICE_RANGE;
   crypto ← crypto_currencies;
   region ← regions;
   payment_method ← methods_of region;
   [quote_request
      {| amount := amount; crypto_name := crypto.1; crypto_id := crypto.2;
         region_code := region.1; currency_code := region.2;
         payment_method := payment_method |}]) = sweep_quote_requests.
Proof. by vm_compute. Qed.

Lemma sweep_loops_quote_gets w w' :
  for_each PRICE_RANGE (fun amount =>
    print (FetchingQuotesFor amount);;
    for_each crypto_currencies (fun crypto =>
      for_each regions (fun region => region_sweep E amount crypto region)))
    w = (Ok tt, w') ->
  quote_gets (trace w') = (quote_gets (trace w) ++ sweep_quote_requests)%list.
Proof.
  rewrite <- sweep_quote_requests_loops.
  apply (for_each_ok_acc (fun w => quote_gets (trace w))).
  intros amount w2 w3 _. unfold mbind at 1, M_bind.
  assert (quote_gets (trace w2) =
            quote_gets (trace (print (FetchingQuotesFor amount) w2).2)) as ->.
  { cbn [print emit snd trace]. by rewrite quote_gets_app, app_nil_r. }
  destruct (print (FetchingQuotesFor amount) w2) as [[[] | e] w4]; [| done].
  cbn [snd].
  apply (for_each_ok_acc (fun w => quote_gets (trace w))).
  intros crypto w5 w6 Hcrypto.
  apply (for_each_ok_acc (fun w => quote_gets (trace w))).
  intros region w7 w8 _. by apply region_sweep_quote_gets.
Qed.

(** A completed run has sent the quote requests of the sweep, each once, in
    the order of the loops. *)
Lemma main_quote_gets w w' :
  main E w = (Ok tt, w') ->
  quote_gets (trace w') = (quote_gets (trace w) ++ sweep_quote_requests)%list.
Proof.
  unfold main. unfold mbind at 1, M_bind, clear_cache.
  unfold mbind at 1, M_bind.
  destruct (for_each _ _ _) as [[[] | e] w1] eqn:Hloop; [| done].
  apply sweep_loops_quote_gets in Hloop. cbn [trace] in Hloop.
  run. intros [= <-]. cbn [trace]. by rewrite quote_gets_app, app_nil_r.
Qed.

Lemma stamped_extends c0 t0 w w' t new :
  stamped E c0 t0 true w -> extends w w' t new -> inserted_stamps t = [] ->
  map Timestamp new = map (clock E) (seq (clock_reads w) (length new)) ->
  stamped E c0 t0 true w'.
Proof.
  intros (t1 & Ht1 & Hc0 & Hstamps) (Htrace & Hrows & Hclock) Ht Hnew.
  exists (t1 ++ t)%list. split; [by rewrite Htrace, Ht1, app_assoc |].
  split; [lia |].
  rewrite inserted_stamps_app, Ht, app_nil_r, Hrows, map_app, app_assoc.
  rewrite Hstamps, Hnew, Hclock, <- map_app. f_equal.
  replace (clock_reads w + length new - c0)%nat
    with ((clock_reads w - c0) + length new)%nat by lia.
  rewrite seq_app. do 2 f_equal. lia.
Qed.

Lemma region_sweep_stamped c0 t0 amount crypto region w w' :
  crypto ∈ crypto_currencies ->
  stamped E c0 t0 false w ->
  region_sweep E amount crypto region w = (Ok tt, w') ->
  stamped E c0 t0 false w'.
Proof.
  intros Hcrypto Hw. unfold region_sweep. unfold mbind at 1, M_bind.
  destruct (resolve_world E crypto region w Hcrypto)
    as (market_rate & w1 & t1 & -> & Hw1 & Ht1).
  apply rate_events_quiet in Ht1 as [_ Ht1]; [| done].
  unfold mbind at 1, M_bind. unfold set_rows at 1.
  set (w2 := {| requests_sent := requests_sent w1;
                rows_to_insert := [] |}).
  assert (stamped E c0 t0 true w2) as Hw2.
  { destruct Hw as (t & Ht & Hc0 & Hstamps).
    destruct Hw1 as (Htrace & _ & Hclock). exists (t ++ t1)%list.
    cbn [w2 trace clock_reads rows_to_insert map length] in *.
    rewrite Nat.add_0_r in Hclock. rewrite Hclock.
    split; [by rewrite Htrace, Ht, app_assoc |]. split; [done |].
    by rewrite inserted_stamps_app, Ht1, !app_nil_r in *. }
  clearbody w2. clear Hw Hw1 Ht1 w w1.
  unfold mbind at 1, M_bind.
  destruct (for_each _ _ w2) as [[[] | e] w3] eqn:Hloop; [| done].
  eapply (for_each_ok_inv (stamped E c0 t0 true)) in Hloop; [| | done].
  2: { intros payment_method w4 w5 _ Hw4 Hrun.
       apply quotes_for_payment_method_world in Hrun
         as (t & new & Hext & Ht & _ & Hnew & _).
       eapply stamped_extends; [done | done | | done].
       apply quote_events_quiet in Ht as [_ Ht].
       change (HttpGet ?r :: t) with ([HttpGet r] ++ t)%list.
       by rewrite inserted_stamps_app, Ht. }
  unfold append_to_bigquery. run.
  destruct Hloop as (t & Ht & Hc0 & Hstamps).
  destruct (rows_to_insert w3) as [| row rows] eqn:Hrows; run;
    intros [= <-].
  - exists t. by rewrite app_nil_r in *.
  - eexists (t ++ [_; _])%list. cbn [trace clock_reads].
    split; [by rewrite Ht, <- !app_assoc |]. split; [done |].
    rewrite <- Hstamps, app_nil_r, inserted_stamps_app. f_equal.
    unfold inserted_stamps. cbn. by rewrite app_nil_r.
Qed.

(** A completed run has handed every row it built to the sink, once and in
    the order built: the inserted rows carry the clock readings of the run,
    in order. *)
Lemma main_stamped w w' :
  main E w = (Ok tt, w') ->
  exists t,
    trace w' = (trace w ++ t)%list /\ (clock_reads w <= clock_reads w')%nat
    /\ inserted_stamps t =
         map (clock E) (seq (clock_reads w) (clock_reads w' - clock_reads w)).
Proof.
  intros Hrun.
  assert (stamped E (clock_reads w) (trace w) false w') as (t & ? & ? & Ht).
  2: { exists t. by rewrite app_nil_r in Ht. }
  assert (forall d w1,
            stamped E (clock_reads w) (trace w) false w1 ->
            stamped E (clock_reads w) (trace w) false (print d w1).2)
    as Hprint.
  { intros d w1 (t & Ht & Hc0 & Hstamps). exists (t ++ [Print d])%list.
    cbn. split; [by rewrite Ht, app_assoc |]. split; [done |].
    by rewrite inserted_stamps_app, !app_nil_r in *. }
  revert Hrun. unfold main. unfold mbind at 1, M_bind, clear_cache.
  unfold mbind at 1, M_bind.
  match goal with
  | |- context [for_each _ _ ?w0] =>
      assert (stamped E (clock_reads w) (trace w) false w0) as Hw0
        by (exists []; cbn; by rewrite Nat.sub_diag, !app_nil_r);
      revert Hw0; generalize w0
  end.
  intros w0 Hw0.
  destruct (for_each _ _ w0) as [[[] | e] w1] eqn:Hloop; [| done].
  intros [= <-]. apply Hprint. revert Hloop.
  apply (for_each_ok_inv (stamped E (clock_reads w) (trace w) false));
    [| done].
  intros amount w2 w3 _ Hw2. unfold mbind at 1, M_bind.
  specialize (Hprint (FetchingQuotesFor amount) w2 Hw2).
  destruct (print (FetchingQuotesFor amount) w2) as [[[] | e'] w4];
    [| done].
  cbn [snd] in Hprint. revert Hprint. generalize w4. clear.
  intros w4 Hw4.
  apply (for_each_ok_inv (stamped E (clock_reads w) (trace w) false));
    [| done].
  intros crypto w5 w6 Hcrypto Hw5.
  apply (for_each_ok_inv (stamped E (clock_reads w) (trace w) false));
    [| done].
  intros region w7 w8 _ Hw7. by apply region_sweep_stamped.
Qed.

End CompletedRun.

(** ** Identifiers, numbers and columns *)

Lemma split_length sep s : length (split sep s) = S (occurrences sep s).
Proof.
  induction s as [| c s IH]; [done |]. cbn [split occurrences].
  destruct (Ascii.eqb c sep); cbn [length]; [by rewrite IH |].
  destruct (split sep s); [done |]. cbn in *. lia.
Qed.

Section Identifier.
Context {F : Type} `{PyFloat F}.
Variable E : environment F.
Implicit Types (id fiat : string).

Lemma get_market_rate_malformed id fiat (w : world F) :
  (occurrences "/" id < 4)%nat ->
  get_market_rate E id fiat w = (Raise IndexError, w).
Proof.
  intros Hslashes. unfold get_market_rate.
  pose proof (split_length "/" id) as Hlength.
  destruct (split "/" id !! 3%nat) as [chain |] eqn:Hchain.
  - destruct (split "/" id !! 4%nat) as [token |] eqn:Htoken; [| done].
    apply lookup_lt_Some in Htoken. lia.
  - done.
Qed.

Lemma well_shaped_identifier id :
  (4 <= occurrences "/" id)%nat ->
  exists chain token,
    split "/" id !! 3%nat = Some chain /\ split "/" id !! 4%nat = Some token.
Proof.
  intros Hslashes. pose proof (split_length "/" id) as Hlength.
  destruct (lookup_lt_is_Some_2 (split "/" id) 3) as [chain Hchain]; [lia |].
  destruct (lookup_lt_is_Some_2 (split "/" id) 4) as [token Htoken]; [lia |].
  eauto.
Qed.

End Identifier.

(** X7: the resolver raises exactly on identifiers with fewer than four
    slashes: IndexError, before any request is sent; on every other
    identifier it returns, whatever the upstream does. *)
Theorem get_market_rate_index_error :
  forall (F : Type) (HF : PyFloat F) (E : environment F) (id fiat : string)
         (w : world F),
    ((occurrences "/" id < 4)%nat ->
     get_market_rate E id fiat w = (Raise IndexError, w))
    /\ ((4 <= occurrences "/" id)%nat ->
        exists v k t,
          get_market_rate E id fiat w = (Ok v, advanced w k t)
          /\ (1 <= k <= 3)%nat).
Proof.
  intros F HF E id fiat w. split; [apply get_market_rate_malformed |].
  intros (chain & token & Hchain & Htoken)%well_shaped_identifier.
  rewrite (get_market_rate_attempts E id fiat chain token) by done.
  destruct (attempts_returns E (RateRequest chain token (lower fiat)) 3 1 w)
    as (v & k & t & -> & Hk & Hk1 & _).
  exists v, k, t. split; [done | lia].
Qed.

Section Numbers.
Context {F : Type} `{PyFloat F}.
Implicit Types (a b c : pyval F).

Lemma is_number_as_num a : is_number a = true <-> is_Some (as_num a).
Proof. destruct a; cbn; split; (done || by intros [? [=]] || eauto). Qed.

Lemma arith_numbers int_op float_op a b c :
  arith int_op float_op a b = Ok c ->
  is_number a = true /\ is_number b = true /\ is_number c = true.
Proof.
  unfold arith. intros Hc.
  destruct (as_num a) as [na |] eqn:Ha; [| done].
  destruct (as_num b) as [nb |] eqn:Hb; [| by destruct na].
  split; [apply is_number_as_num; by rewrite Ha |].
  split; [apply is_number_as_num; by rewrite Hb |].
  destruct na, nb; cbn in Hc; repeat bind_inv Hc; by simplify_eq.
Qed.

Lemma py_sub_numbers a b c :
  py_sub a b = Ok c ->
  is_number a = true /\ is_number b = true /\ is_number c = true.
Proof. apply arith_numbers. Qed.

Lemma py_mul_numbers a b c :
  py_mul a b = Ok c ->
  is_number a = true /\ is_number b = true /\ is_number c = true.
Proof. apply arith_numbers. Qed.

(** [+] yields a number only from two numbers. *)
Lemma py_add_numbers a b c :
  py_add a b = Ok c -> is_number b = true ->
  is_number a = true /\ is_number c = true.
Proof.
  intros Hc Hb. unfold py_add in Hc.
  destruct a, b; try done; by apply arith_numbers in Hc as (? & ? & ?).
Qed.

Lemma py_add_number a b c :
  py_add a b = Ok c -> is_number c = true ->
  is_number a = true /\ is_number b = true.
Proof.
  intros Hc Hnumber. unfold py_add in Hc.
  destruct a, b; try (by apply arith_numbers in Hc as (? & ? & ?));
    by simplify_eq.
Qed.

Lemma py_truediv_numbers a b c :
  py_truediv a b = Ok c ->
  is_number a = true /\ is_number b = true /\ is_number c = true.
Proof.
  unfold py_truediv. intros Hc.
  destruct (as_num a) as [na |] eqn:Ha; [| done].
  destruct (as_num b) as [nb |] eqn:Hb; [| by destruct na].
  split; [apply is_number_as_num; by rewrite Ha |].
  split; [apply is_number_as_num; by rewrite Hb |].
  destruct na as [x | x], nb as [y | y]; cbn in Hc;
    repeat (first [bind_inv Hc | destruct (_ =? _) | destruct (f_is_zero _)
                  | destruct (to_float _) eqn:?; cbn in Hc]);
    by simplify_eq.
Qed.

Lemma py_gt0_number a p : py_gt0 a = Ok p -> is_number a = true.
Proof.
  unfold py_gt0. intros Hp. apply is_number_as_num.
  by destruct (as_num a).
Qed.

Lemma percentage_number (positive : bool) a b c :
  (if positive then ratio ← py_truediv a b; py_mul ratio (PyInt 100)
   else Ok (PyInt 0)) = Ok c ->
  is_number c = true.
Proof.
  destruct positive; [| by intros [= <-]]. intros Hc. bind_inv Hc.
  by apply py_mul_numbers in Hc as (_ & _ & ?).
Qed.

Lemma spread_fields_numbers market_rate (q : raw_quote F) e s p f :
  spread_fields market_rate q = Ok (e, s, p, f) ->
  is_number e = true /\ is_number s = true /\ is_number p = true
  /\ is_number f = true.
Proof.
  unfold spread_fields. intros Hfields.
  destruct market_rate as [rate |]; [| by simplify_eq].
  destruct (rate_usable (Some rate) && truthy (amount_in q));
    [| by simplify_eq].
  destruct (expected_at_market rate q) as [expected |] eqn:He; [| done].
  cbn in Hfields. unfold expected_at_market in He.
  do 3 bind_inv He. apply py_truediv_numbers in He as (_ & _ & He).
  destruct (truthy (amount_out q)); [| by simplify_eq].
  destruct (py_sub expected (amount_out q)) as [spread |] eqn:Hs; [| done].
  cbn in Hfields.
  destruct (py_gt0 expected) as [positive |]; [| done]. cbn in Hfields.
  destruct (if positive then _ else _) as [percentage |] eqn:Hp; [| done].
  cbn in Hfields.
  destruct (py_mul spread (PyFloat_ rate)) as [in_fiat |] eqn:Hf; [| done].
  cbn in Hfields. simplify_eq. apply py_sub_numbers in Hs as (_ & _ & ?).
  apply percentage_number in Hp. by apply py_mul_numbers in Hf as (_ & _ & ?).
Qed.

(** Where [derive] returns, the amount paid in, the three fees and the
    seven derived figures are numbers. *)
Lemma derive_numbers market_rate (q : raw_quote F) m :
  derive market_rate q = Ok m ->
  is_number (amount_in q) = true
  /\ (is_number (network_fee q) = true /\ is_number (provider_fee q) = true
      /\ is_number (extra_fee q) = true)
  /\ (is_number (expected_amount_out m) = true /\ is_number (spread m) = true
      /\ is_number (spread_percentage m) = true
      /\ is_number (spread_in_fiat m) = true)
  /\ is_number (total_explicit_fee m) = true
  /\ is_number (total_fee_including_spread m) = true
  /\ is_number (total_fee_percentage m) = true.
Proof.
  intros (fees & Hfields & Hfees & Hexplicit & Htotal & positive & Hpositive
          & Hpercentage)%derive_Ok.
  apply spread_fields_numbers in Hfields as (He & Hs & Hp & Hf).
  apply py_add_numbers in Htotal as [Hexplicit' Htotal]; [| done].
  apply py_add_number in Hexplicit as [Hfees' Hextra]; [| done].
  apply py_add_number in Hfees as [Hnetwork Hprovider]; [| done].
  apply py_gt0_number in Hpositive. apply percentage_number in Hpercentage.
  done.
Qed.

End Numbers.

Lemma conforms_number {F} (v : pyval F) :
  is_number v = true -> conforms FLOAT v = true.
Proof. by destruct v. Qed.

(** X10: every row that is built has the columns of the schema, in its
    order; but for the three copied from the response, each column holds a
    value of its type: the computed ones and the fees are numbers. *)
Theorem rows_have_the_columns_of_the_schema :
  forall (F : Type) (HF : PyFloat F) (l : labels) (market_rate : option F)
         (rank : Z) (timestamp : string) (q : raw_quote F) (m : metrics F),
    derive market_rate q = Ok m ->
    Forall2 (fun column item =>
               item.1 = column.1
               /\ (column.1 ∈ copied_columns
                   \/ conforms column.2 item.2 = true))
      schema (row_dict (make_row l market_rate rank timestamp q m)).
Proof.
  intros F HF l market_rate rank timestamp q m
    (Hin & (Hn & Hp & He) & (Hx & Hs & Hsp & Hf) & Hex & Ht & Htp)
      %derive_numbers.
  unfold schema, row_dict, make_row, copied_columns. cbn.
  repeat (constructor;
          [split; [done |]; cbn;
           first [ by right; apply conforms_number
                 | by right
                 | by right; destruct market_rate
                 | left; by repeat constructor ] |]).
  constructor.
Qed.

Section ExactFees.
Implicit Types (a b c : pyval Q).
Local Open Scope Q_scope.

Lemma exact_mul a b c :
  py_mul a b = Ok c -> exact_value c == exact_value a * exact_value b.
Proof.
  intros Hc. apply (exact_arith Z.mul Qmult); [| exact Hc | tc_solve].
  intros m n. by rewrite inject_Z_mult.
Qed.

Lemma exact_lt_pos (x : Q) : 0 < x -> f_pos x = true.
Proof.
  intros Hx. cbn. unfold Exact.pos. apply negb_true_iff.
  destruct (Qle_bool x 0) eqn:Hle; [| done].
  apply Qle_bool_iff in Hle. lra.
Qed.

Lemma exact_gt0 a (p : bool) :
  py_gt0 a = Ok p -> 0 < exact_value a -> p = true.
Proof.
  unfold py_gt0, exact_value. destruct (as_num a) as [[z | x] |]; [| | done].
  - intros [= <-] Hz. apply Z.ltb_lt. rewrite (Zlt_Qlt 0 z). exact Hz.
  - intros [= <-] Hx. by apply exact_lt_pos.
Qed.

End ExactFees.

(** X11: in exact arithmetic, with a market rate above 0 and true amounts in
    and out, the total fee including the spread is what was paid less the
    market value of what was received, whatever the split into network,
    provider and extra fee and spread; the total fee percentage is that
    share of a positive amount paid. *)
Theorem total_fee_is_paid_less_market_value :
  forall (rate : Q) (q : raw_quote Q) (m : metrics Q),
    (0 < rate)%Q ->
    truthy (amount_in q) = true -> truthy (amount_out q) = true ->
    derive (Some rate) q = Ok m ->
    let paid := exact_value (amount_in q) in
    let received := (exact_value (amount_out q) * rate)%Q in
    (exact_value (total_fee_including_spread m) == paid - received)%Q
    /\ (exact_value (total_explicit_fee m) + exact_value (spread_in_fiat m)
        == paid - received)%Q
    /\ ((0 < paid)%Q ->
        (exact_value (total_fee_percentage m)
         == (paid - received) / paid * 100)%Q).
Proof.
  intros rate q m Hrate Hin Hout Hm paid received.
  pose proof (derive_numbers _ _ _ Hm)
    as (_ & (Hn & Hp & He) & _ & Hex & _).
  apply derive_Ok in Hm
    as (fees & Hfields & Hfees & Hexplicit & Htotal & positive & Hpositive
        & Hpercentage).
  rewrite (spread_fields_usable rate q) in Hfields
    by (done || by apply exact_lt_pos).
  destruct (expected_at_market rate q) as [expected |] eqn:Hexpected;
    [| done].
  cbn in Hfields. rewrite Hout in Hfields.
  destruct (py_sub expected (amount_out q)) as [spread |] eqn:Hspread;
    [| done].
  cbn in Hfields.
  destruct (py_gt0 expected) as [pos |]; [| done]. cbn in Hfields.
  destruct (if pos then _ else _) as [percentage |]; [| done].
  cbn in Hfields.
  destruct (py_mul spread (PyFloat_ rate)) as [in_fiat |] eqn:Hfiat;
    [| done].
  cbn in Hfields. injection Hfields as _ _ _ Hf.
  apply exact_expected_at_market in Hexpected.
  apply exact_sub in Hspread. apply exact_mul in Hfiat.
  change (exact_value (PyFloat_ rate)) with rate in Hfiat.
  assert (is_number fees = true) as Hnfees.
  { by apply (py_add_number _ _ _ Hexplicit). }
  apply exact_add in Hfees; [| by apply is_number_as_num].
  apply exact_add in Hexplicit; [| by apply is_number_as_num].
  apply exact_add in Htotal; [| by apply is_number_as_num].
  rewrite <- Hf in *.
  assert (exact_value (total_explicit_fee m) + exact_value in_fiat
          == paid - received)%Q as Hsum.
  { rewrite Hexplicit, Hfees, Hfiat, Hspread, Hexpected.
    unfold paid, received. field. lra. }
  split; [by rewrite Htotal |]. split; [done |].
  intros Hpaid. rewrite (exact_gt0 _ _ Hpositive Hpaid) in Hpercentage.
  destruct (py_truediv _ _) as [ratio |] eqn:Hratio; [| done].
  cbn in Hpercentage. apply exact_mul in Hpercentage.
  apply exact_truediv in Hratio.
  rewrite Hpercentage, Hratio, Htotal, Hsum. reflexivity.
Qed.

Lemma append_nil (s : string) : "" ++ s = s.
Proof. reflexivity. Qed.

Lemma append_cons c (s t : string) : String c s ++ t = String c (s ++ t).
Proof. reflexivity. Qed.

Lemma occurrences_app c s t :
  occurrences c (s ++ t) = (occurrences c s + occurrences c t)%nat.
Proof.
  induction s as [| c' s IH]; [done |].
  rewrite append_cons. cbn [occurrences]. rewrite IH. lia.
Qed.

(** X12: two pairs share a cache key only when they are the same pair, as
    long as the currency codes hold no underscore; those of the sweep hold
    none. *)
Theorem cache_key_identifies_the_pair :
  (forall id1 id2 currency1 currency2 : string,
     occurrences "_" currency1 = 0%nat -> occurrences "_" currency2 = 0%nat ->
     cache_key id1 currency1 = cache_key id2 currency2 ->
     id1 = id2 /\ currency1 = currency2)
  /\ Forall (fun region => occurrences "_" region.2 = 0%nat) regions.
Proof.
  split; [| by repeat constructor].
  unfold cache_key. intros id1.
  induction id1 as [| c1 id1 IH]; intros [| c2 id2] currency1 currency2 H1 H2;
    rewrite ?append_nil, ?append_cons, ?append_nil; intros Hkey.
  - by injection Hkey as ->.
  - injection Hkey as _ ->. rewrite occurrences_app in H1. cbn in H1. lia.
  - injection Hkey as _ <-. rewrite occurrences_app in H2. cbn in H2. lia.
  - injection Hkey as -> Hkey.
    by destruct (IH id2 currency1 currency2) as [-> ->].
Qed.

(** X8: a rate response without a [value] entry reads as the rate 0.0: the
    resolver returns it after one request, without a diagnostic, and the
    sweep then records the pair as failed: a warning, and None in the cache.
    *)
Theorem rate_without_value_is_zero :
  forall (F : Type) (HF : PyFloat F) (E : environment F)
         (name id currency chain token : string) (w : world F)
         (status : Z) (items : list (string * pyval F)) (zero : F),
    split "/" id !! 3%nat = Some chain ->
    split "/" id !! 4%nat = Some token ->
    let r := RateRequest chain token (lower currency) in
    upstream E (requests_sent w) r = Response status (Some (PyDict items)) ->
    (400 <=? status) && (status <? 600) = false ->
    dict_lookup items "value" = None ->
    f_of_int 0 = Some zero -> f_is_zero zero = true ->
    market_rates_cache w !! cache_key id currency = None ->
    get_market_rate E id currency w =
      (Ok (Some zero), advanced w 1 [HttpGet r])
    /\ exists w',
         resolve E name id currency w = (Ok None, w')
         /\ market_rates_cache w' !! cache_key id currency = Some None
         /\ trace w' =
              (trace w ++
               [HttpGet r; Print (CouldNotFetchMarketRate name currency)])%list.
Proof.
  intros F HF E name id currency chain token w status items zero Hchain
    Htoken r Hup Hstatus Hvalue Hzero Hiszero Hmiss.
  assert (get_market_rate E id currency w =
            (Ok (Some zero), advanced w 1 [HttpGet r])) as Hrate.
  { rewrite (get_market_rate_attempts E id currency chain token) by done.
    fold r. rewrite attempts_settled.
    - rewrite fetch_market_rate_result, Hup. cbn [fetch_result].
      rewrite Hstatus. cbn. rewrite Hvalue. cbn. by rewrite Hzero.
    - rewrite Hup. cbn. apply Z.eqb_neq. intros ->. done. }
  split; [done |].
  unfold resolve. fold (cache_key id currency). run.
  rewrite Hmiss, Hrate. cbn [rate_truthy]. rewrite Hiszero. run.
  cbn [negb advanced market_rates_cache]. rewrite lookup_insert_eq.
  eexists. split; [done |]. cbn [market_rates_cache trace].
  split; [apply lookup_insert_eq |]. cbn [advanced trace].
  by rewrite <- app_assoc.
Qed.

(** ** The BigQuery sink *)

Module SinkFacts.
Import Sink.

Section Facts.
Context {F : Type}.
Variable S : service F.
Implicit Types (c : cloud F).

Ltac step :=
  unfold set_up, create_bigquery_dataset_if_not_exists,
    create_bigquery_table_if_not_exists, append_to_bigquery, try_except,
    get_dataset, create_dataset, get_table, create_table, insert_rows_json,
    call, print, mbind, B_bind, mret, B_ret;
  cbn [datasets tables api_calls printed fst snd].

(** With the service reachable, the dataset is there afterwards; it is
    created, with a message, only when it was not there. *)
Lemma create_dataset_run c :
  unavailable S (api_calls c) = false ->
  unavailable S (Datatypes.S (api_calls c)) = false ->
  create_bigquery_dataset_if_not_exists S c =
    if decide (DATASET_ID ∈ datasets c) then
      (Done tt, {| datasets := datasets c; tables := tables c;
                   api_calls := api_calls c + 1; printed := printed c |})
    else
      (Done tt, {| datasets := {[DATASET_ID]} ∪ datasets c;
                   tables := tables c; api_calls := api_calls c + 2;
                   printed := printed c ++
                              [CreatedDataset PROJECT_ID DATASET_ID] |}).
Proof.
  intros H1 H2. step. rewrite H1. cbn [datasets api_calls].
  case_decide as Hin.
  - do 2 f_equal. lia.
  - rewrite H2. cbn [datasets tables api_calls printed]. do 2 f_equal. lia.
Qed.

Lemma create_table_run c :
  unavailable S (api_calls c) = false ->
  unavailable S (Datatypes.S (api_calls c)) = false ->
  DATASET_ID ∈ datasets c ->
  create_bigquery_table_if_not_exists S c =
    match tables c !! (DATASET_ID, TABLE_ID) with
    | Some _ =>
        (Done tt, {| datasets := datasets c; tables := tables c;
                     api_calls := api_calls c + 1; printed := printed c |})
    | None =>
        (Done tt,
         {| datasets := datasets c;
            tables := <[(DATASET_ID, TABLE_ID) :=
                         {| columns := schema; stored := [] |}]> (tables c);
            api_calls := api_calls c + 2;
            printed := printed c ++
                       [CreatedTable PROJECT_ID DATASET_ID TABLE_ID] |})
    end.
Proof.
  intros H1 H2 Hdataset. step. rewrite H1. cbn [tables api_calls].
  destruct (tables c !! (DATASET_ID, TABLE_ID)) as [t |] eqn:Htable.
  - do 2 f_equal. lia.
  - rewrite H2. cbn [datasets tables]. rewrite decide_True by done.
    cbn [datasets tables api_calls printed]. do 2 f_equal. lia.
Qed.

Lemma rejected_from_nil position schema (rows : list (json_row F)) :
  rejected_from S position schema rows = [] <->
  forallb (accepts S schema) rows = true.
Proof.
  revert position. induction rows as [| row rows IH]; intros position; [done |].
  cbn. destruct (accepts S schema row); cbn; [apply IH | done].
Qed.

Lemma append_run (rows : list (row F)) c :
  rows <> [] -> unavailable S (api_calls c) = false ->
  append_to_bigquery S rows c =
    match tables c !! (DATASET_ID, TABLE_ID) with
    | None =>
        (Failed NotFound,
         {| datasets := datasets c; tables := tables c;
            api_calls := api_calls c + 1; printed := printed c |})
    | Some t =>
        if forallb (accepts S (columns t)) (row_dict <$> rows) then
          (Done tt,
           {| datasets := datasets c;
              tables := <[(DATASET_ID, TABLE_ID) :=
                           {| columns := columns t;
                              stored := stored t ++ (row_dict <$> rows) |}]>
                          (tables c);
              api_calls := api_calls c + 1; printed := printed c |})
        else
          (Done tt,
           {| datasets := datasets c; tables := tables c;
              api_calls := api_calls c + 1;
              printed := printed c ++
                [InsertErrors (rejected S (columns t) (row_dict <$> rows))] |})
    end.
Proof.
  intros Hrows H1. destruct rows as [| row rows]; [done |]. step.
  rewrite H1. cbn [tables].
  destruct (tables c !! (DATASET_ID, TABLE_ID)) as [t |].
  2: { do 2 f_equal. lia. }
  pose proof (rejected_from_nil 0 (columns t) (row_dict <$> row :: rows))
    as Hnil.
  change (rejected_from S 0 ?x ?y) with (rejected S x y) in Hnil.
  destruct (rejected S (columns t) (row_dict <$> row :: rows))
    as [| error errors] eqn:Herrors.
  - rewrite (proj1 Hnil) by done. cbn [datasets tables api_calls printed].
    do 2 f_equal. lia.
  - destruct (forallb _ _);
      [destruct Hnil as [_ Hnil]; by specialize (Hnil eq_refl) |].
    cbn [datasets tables api_calls printed]. do 2 f_equal. lia.
Qed.

End Facts.
End SinkFacts.
Import SinkFacts.

(** X14: with the service reachable, setting up returns and the dataset and
    the table exist afterwards; what existed before is kept as it was, also
    a table with another schema; setting up again only looks: two calls,
    nothing created and nothing printed. *)
Theorem set_up_creates_what_is_missing :
  forall (F : Type) (S : Sink.service F) (c : Sink.cloud F),
    (forall n, Sink.unavailable S n = false) ->
    exists c',
      Sink.set_up S c = (Sink.Done tt, c')
      /\ Sink.DATASET_ID ∈ Sink.datasets c'
      /\ is_Some (Sink.tables c' !! (Sink.DATASET_ID, Sink.TABLE_ID))
      /\ Sink.datasets c ⊆ Sink.datasets c'
      /\ (forall key t,
            Sink.tables c !! key = Some t -> Sink.tables c' !! key = Some t)
      /\ Sink.set_up S c' =
           (Sink.Done tt,
            {| Sink.datasets := Sink.datasets c';
               Sink.tables := Sink.tables c';
               Sink.api_calls := Sink.api_calls c' + 2;
               Sink.printed := Sink.printed c' |}).
Proof.
  intros F S c Hup.
  assert (forall c1 : Sink.cloud F,
            Sink.DATASET_ID ∈ Sink.datasets c1 ->
            is_Some (Sink.tables c1 !! (Sink.DATASET_ID, Sink.TABLE_ID)) ->
            Sink.set_up S c1 =
              (Sink.Done tt,
               {| Sink.datasets := Sink.datasets c1;
                  Sink.tables := Sink.tables c1;
                  Sink.api_calls := Sink.api_calls c1 + 2;
                  Sink.printed := Sink.printed c1 |})) as Hagain.
  { intros c1 Hdataset [t Htable]. unfold Sink.set_up.
    unfold mbind, Sink.B_bind. rewrite create_dataset_run by done.
    rewrite decide_True by done. rewrite create_table_run by done.
    cbn [Sink.tables]. rewrite Htable. cbn. do 2 f_equal. lia. }
  assert (exists c',
            Sink.set_up S c = (Sink.Done tt, c')
            /\ Sink.DATASET_ID ∈ Sink.datasets c'
            /\ is_Some (Sink.tables c' !! (Sink.DATASET_ID, Sink.TABLE_ID))
            /\ Sink.datasets c ⊆ Sink.datasets c'
            /\ (forall key t,
                  Sink.tables c !! key = Some t ->
                  Sink.tables c' !! key = Some t))
    as (c' & Hrun & Hdataset & Htable & Hsub & Hkeep).
  { unfold Sink.set_up. unfold mbind, Sink.B_bind.
    rewrite create_dataset_run by done.
    destruct (decide (Sink.DATASET_ID ∈ Sink.datasets c)) as [Hdataset | Hnew];
      rewrite create_table_run by (done || set_solver); cbn [Sink.tables];
      destruct (Sink.tables c !! (Sink.DATASET_ID, Sink.TABLE_ID))
        as [t |] eqn:Htable;
      (eexists; split; [done |]); cbn [Sink.datasets Sink.tables];
      (split; [set_solver |]);
      (split; [by rewrite ?lookup_insert_eq, ?Htable |]);
      (split; [set_solver |]);
      intros key t' Hkey;
      try (rewrite lookup_insert_ne; [done | congruence]); done. }
  exists c'. repeat (split; [done |]). by apply Hagain.
Qed.


(** X15: any failure of the lookup is taken for absence: when the lookup of
    a dataset or table that exists does not reach the service and the next
    call does, the creation is attempted and its Conflict escapes; nothing
    is printed. *)
Theorem failed_lookup_is_taken_for_absence :
  forall (F : Type) (S : Sink.service F) (c : Sink.cloud F),
    Sink.unavailable S (Sink.api_calls c) = true ->
    Sink.unavailable S (Datatypes.S (Sink.api_calls c)) = false ->
    Sink.DATASET_ID ∈ Sink.datasets c ->
    ((Sink.create_bigquery_dataset_if_not_exists S c).1
       = Sink.Failed Sink.Conflict
     /\ Sink.printed (Sink.create_bigquery_dataset_if_not_exists S c).2
          = Sink.printed c)
    /\ (is_Some (Sink.tables c !! (Sink.DATASET_ID, Sink.TABLE_ID)) ->
        (Sink.create_bigquery_table_if_not_exists S c).1
          = Sink.Failed Sink.Conflict
        /\ Sink.printed (Sink.create_bigquery_table_if_not_exists S c).2
             = Sink.printed c).
Proof.
  intros F S c H1 H2 Hdataset. split.
  - unfold Sink.create_bigquery_dataset_if_not_exists, Sink.try_except,
      Sink.get_dataset, Sink.create_dataset, Sink.call, mbind, Sink.B_bind.
    rewrite H1. cbn [Sink.api_calls]. rewrite H2. cbn [Sink.datasets].
    by rewrite decide_True.
  - intros [t Htable].
    unfold Sink.create_bigquery_table_if_not_exists, Sink.try_except,
      Sink.get_table, Sink.create_table, Sink.call, mbind, Sink.B_bind.
    rewrite H1. cbn [Sink.api_calls]. rewrite H2.
    cbn [Sink.datasets Sink.tables]. rewrite decide_True by done.
    by rewrite Htable.
Qed.

(** X16: handing over no rows calls nothing. Handing over rows makes one
    call: without the table it raises NotFound; with it the function
    returns, the rows stored when the service accepts them all, and
    otherwise none stored and the errors printed. *)
Theorem append_stores_all_rows_or_none :
  forall (F : Type) (S : Sink.service F) (rows : list (row F))
         (c : Sink.cloud F),
    Sink.append_to_bigquery S [] c = (Sink.Done tt, c)
    /\ (rows <> [] -> Sink.unavailable S (Sink.api_calls c) = false ->
        let result := Sink.append_to_bigquery S rows c in
        Sink.api_calls result.2 = (Sink.api_calls c + 1)%nat
        /\ match Sink.tables c !! (Sink.DATASET_ID, Sink.TABLE_ID) with
           | None =>
               result.1 = Sink.Failed Sink.NotFound
               /\ Sink.tables result.2 = Sink.tables c
           | Some t =>
               result.1 = Sink.Done tt
               /\ if forallb (Sink.accepts S (Sink.columns t))
                       (row_dict <$> rows)
                  then
                    Sink.tables result.2 =
                      <[(Sink.DATASET_ID, Sink.TABLE_ID) :=
                         {| Sink.columns := Sink.columns t;
                            Sink.stored :=
                              (Sink.stored t ++ (row_dict <$> rows))%list
                         |}]>
                        (Sink.tables c)
                    /\ Sink.printed result.2 = Sink.printed c
                  else
                    Sink.tables result.2 = Sink.tables c
                    /\ exists errors,
                         errors <> []
                         /\ Sink.printed result.2 =
                              (Sink.printed c ++
                               [Sink.InsertErrors errors])%list
           end).
Proof.
  intros F S rows c. split; [done |]. intros Hrows Hup result.
  subst result. rewrite append_run by done.
  destruct (Sink.tables c !! (Sink.DATASET_ID, Sink.TABLE_ID)) as [t |];
    [| done].
  destruct (forallb _ _) eqn:Haccepted; [done |]. cbn.
  repeat (split; [done |]). eexists. split; [| done].
  intros Hnone%rejected_from_nil. congruence.
Qed.

(** ** The analysis script *)

(** X18: the price bins are the half-open ranges from 0 to 500, to 5000 and
    to 30001: an amount in one of them gets its label and no other; a
    negative amount, an amount from 30001 on and a null get no bin. *)
Theorem price_bins_are_half_open_ranges :
  forall (row : Sink.json_row Q) (x : Q),
    Analysis.number row "Amount" = Some x ->
    ((Analysis.PriceBin row = Some "Low (0-499)" <-> 0 <= x < 500)
     /\ (Analysis.PriceBin row = Some "Medium (500-4999)"
         <-> 500 <= x < 5000)
     /\ (Analysis.PriceBin row = Some "High (5k+)" <-> 5000 <= x < 30001)
     /\ (Analysis.PriceBin row = None <-> x < 0 \/ 30001 <= x))%Q.
Proof.
  intros row x Hx. unfold Analysis.PriceBin, Analysis.cut. rewrite Hx.
  cbn [mbind option_bind]. unfold Analysis.bins, Analysis.labels.
  rewrite !filter_cons, !filter_nil. cbn beta.
  destruct (Qle_bool 0 x) eqn:H0; destruct (Qle_bool 500 x) eqn:H1;
    destruct (Qle_bool 5000 x) eqn:H2; destruct (Qle_bool 30001 x) eqn:H3;
    repeat match goal with
      | H : Qle_bool _ _ = true |- _ => apply Qle_bool_iff in H
      | H : Qle_bool _ _ = false |- _ =>
          apply not_true_iff_false in H; rewrite Qle_bool_iff in H
      end;
    try (exfalso; lra);
    cbn; repeat split; intros;
    first [done | lra | exfalso; lra | left; lra | right; lra
          | naive_solver lra].
Qed.

Module AnalysisFacts.
Import Analysis.

Lemma all_chars_keep f s : all_chars f (keep f s) = true.
Proof.
  induction s as [| c s IH]; [done |]. cbn.
  destruct (f c) eqn:Hc; [| done]. cbn. by rewrite Hc.
Qed.

Lemma keep_all_chars f s : all_chars f s = true -> keep f s = s.
Proof.
  induction s as [| c s IH]; [done |]. cbn.
  intros [-> Hs]%andb_true_iff. by rewrite IH.
Qed.

Lemma rstrip_cons c s :
  rstrip (String c s) =
    match rstrip s with
    | EmptyString => if isspace c then EmptyString else String c EmptyString
    | kept => String c kept
    end.
Proof. done. Qed.

Lemma all_chars_rstrip f s :
  all_chars f s = true -> all_chars f (rstrip s) = true.
Proof.
  induction s as [| c s IH]; [done |]. rewrite rstrip_cons. cbn [all_chars].
  intros [Hc Hs]%andb_true_iff. specialize (IH Hs).
  destruct (rstrip s) as [| c' kept].
  - destruct (isspace c); [done |]. cbn. by rewrite Hc.
  - cbn [all_chars] in *. by rewrite Hc.
Qed.

Lemma ends_clean_rstrip s : Analysis.ends_clean (rstrip s) = true.
Proof.
  induction s as [| c s IH]; [done |]. rewrite rstrip_cons.
  destruct (rstrip s) as [| c' kept].
  - destruct (isspace c) eqn:Hc; [done |]. cbn. by rewrite Hc.
  - done.
Qed.

Lemma rstrip_ends_clean s : Analysis.ends_clean s = true -> rstrip s = s.
Proof.
  induction s as [| c s IH]; [done |]. rewrite rstrip_cons.
  destruct s as [| c' s].
  - cbn. by intros ->%negb_true_iff.
  - intros Hs. change (Analysis.ends_clean (String c' s) = true) in Hs.
    rewrite (IH Hs). done.
Qed.

Lemma occurrences_all_chars f c s :
  all_chars f s = true -> f c = false -> occurrences c s = 0%nat.
Proof.
  intros Hs Hc. induction s as [| c' s IH]; [done |]. cbn in *.
  apply andb_true_iff in Hs as [Hc' Hs]. rewrite (IH Hs).
  destruct (Ascii.eqb_spec c' c) as [-> |]; [congruence | done].
Qed.

End AnalysisFacts.
Import AnalysisFacts.

(** X19: the crypto name that goes into a file name holds only letters,
    digits, spaces and underscores and does not end in white space;
    sanitising it again changes nothing. No slash and no dot of a crypto
    name reaches the file name: the chart lands in its directory unless the
    region, which is not sanitised, holds a slash. *)
Theorem safe_crypto_keeps_charts_in_their_directory :
  forall crypto region : string,
    all_chars Analysis.kept_char (Analysis.safe_crypto crypto) = true
    /\ Analysis.ends_clean (Analysis.safe_crypto crypto) = true
    /\ Analysis.safe_crypto (Analysis.safe_crypto crypto)
       = Analysis.safe_crypto crypto
    /\ occurrences "." (Analysis.safe_crypto crypto) = 0%nat
    /\ occurrences "/" (Analysis.rank_chart crypto region)
       = (1 + occurrences "/" region)%nat
    /\ occurrences "/" (Analysis.fee_chart crypto region)
       = (1 + occurrences "/" region)%nat
    /\ occurrences "/" (Analysis.rank_vs_fee_chart crypto region)
       = (1 + occurrences "/" region)%nat.
Proof.
  intros crypto region.
  assert (all_chars Analysis.kept_char (Analysis.safe_crypto crypto) = true)
    as Hall.
  { apply all_chars_rstrip, all_chars_keep. }
  assert (Analysis.ends_clean (Analysis.safe_crypto crypto) = true) as Hclean.
  { apply ends_clean_rstrip. }
  assert (occurrences "/" (Analysis.safe_crypto crypto) = 0%nat) as Hslash.
  { by apply (occurrences_all_chars Analysis.kept_char). }
  split; [done |]. split; [done |]. split.
  { unfold Analysis.safe_crypto at 1. fold Analysis.kept_char.
    by rewrite keep_all_chars, rstrip_ends_clean. }
  split; [by apply (occurrences_all_chars Analysis.kept_char) |].
  unfold Analysis.rank_chart, Analysis.fee_chart, Analysis.rank_vs_fee_chart.
  rewrite !occurrences_app, Hslash. cbn. repeat split; lia.
Qed.

Module ChartFacts.
Import Analysis.

Section DropDuplicates.
Context {A : Type} `{EqDecision A}.



End DropDuplicates.




End ChartFacts.
Import ChartFacts.


Section CrossFile.
Variable S : Sink.service Q.
Implicit Types (c : Sink.cloud Q).

Lemma other_dataset (X : gset string) :
  Analysis.DATASET_ID ∈ ({[Sink.DATASET_ID]} ∪ X)
  <-> Analysis.DATASET_ID ∈ X.
Proof.
  rewrite elem_of_union, elem_of_singleton. split; [| by right].
  by intros [[=] |].
Qed.

Lemma other_table (T : gmap (string * string) (Sink.table Q)) t :
  <[(Sink.DATASET_ID, Sink.TABLE_ID) := t]> T
    !! (Analysis.DATASET_ID, Analysis.TABLE_ID)
  = T !! (Analysis.DATASET_ID, Analysis.TABLE_ID).
Proof. by apply lookup_insert_ne. Qed.

Lemma view_dataset c :
  Analysis.view (Sink.create_bigquery_dataset_if_not_exists S c).2
    = Analysis.view c.
Proof.
  unfold Sink.create_bigquery_dataset_if_not_exists, Sink.try_except,
    Sink.get_dataset, Sink.create_dataset, Sink.call, Sink.print, mbind,
    Sink.B_bind, Analysis.view.
  repeat (case_match; simplify_eq; cbn [Sink.datasets Sink.tables snd fst]);
    try done; f_equal; apply bool_decide_ext, other_dataset.
Qed.

Lemma view_table c :
  Analysis.view (Sink.create_bigquery_table_if_not_exists S c).2
    = Analysis.view c.
Proof.
  unfold Sink.create_bigquery_table_if_not_exists, Sink.try_except,
    Sink.get_table, Sink.create_table, Sink.call, Sink.print, mbind,
    Sink.B_bind, Analysis.view.
  repeat (case_match; simplify_eq; cbn [Sink.datasets Sink.tables snd fst]);
    try done; f_equal; apply other_table.
Qed.

Lemma view_append rows c :
  Analysis.view (Sink.append_to_bigquery S rows c).2 = Analysis.view c.
Proof.
  unfold Sink.append_to_bigquery, Sink.insert_rows_json, Sink.call,
    Sink.print, mbind, Sink.B_bind, mret, Sink.B_ret, Analysis.view.
  repeat (case_match; simplify_eq; cbn [Sink.datasets Sink.tables snd fst]);
    try done; f_equal; apply other_table.
Qed.

Lemma view_appends batches c :
  Analysis.view (Sink.appends S batches c).2 = Analysis.view c.
Proof.
  revert c. induction batches as [| rows batches IH]; intros c; [done |].
  cbn [Sink.appends]. unfold mbind, Sink.B_bind.
  pose proof (view_append rows c) as Hrows.
  destruct (Sink.append_to_bigquery S rows c) as [[[] | e] c1]; [| done].
  by rewrite IH.
Qed.

End CrossFile.

(** X17: the analysis queries the dataset [unbiased-reporting], the scraper
    writes to the dataset [articles]: whatever the scraper sets up and
    appends, what the analysis can see stays as it was, and in a project
    without the dataset of the analysis the script still fails to load and
    ends without a chart. *)
Theorem analysis_reads_another_dataset :
  forall (S S' : Sink.service Q) (batches : list (list (row Q)))
         (c : Sink.cloud Q),
    let c' := ((Sink.set_up S;; Sink.appends S batches) c).2 in
    Analysis.view c' = Analysis.view c
    /\ (Analysis.DATASET_ID ∉ Sink.datasets c ->
        (Analysis.script S' c').1 =
          ([Analysis.Printed Analysis.Connecting;
            Analysis.Printed Analysis.FailedToLoad], None)).
Proof.
  intros S S' batches c c'.
  assert (Analysis.view c' = Analysis.view c) as Hview.
  { subst c'. unfold Sink.set_up, mbind, Sink.B_bind.
    pose proof (view_dataset S c) as H1.
    destruct (Sink.create_bigquery_dataset_if_not_exists S c)
      as [[[] | e] c1]; [| done].
    pose proof (view_table S c1) as H2.
    destruct (Sink.create_bigquery_table_if_not_exists S c1)
      as [[[] | e] c2]; [| cbn in *; congruence].
    rewrite view_appends. cbn in *. congruence. }
  split; [done |]. intros Hmissing.
  injection Hview as Hdataset _.
  rewrite (bool_decide_eq_false_2 _ Hmissing) in Hdataset.
  apply bool_decide_eq_false in Hdataset.
  unfold Analysis.script, Analysis.query, Sink.call.
  destruct (Sink.unavailable S' (Sink.api_calls c')); [done |].
  cbn [Sink.datasets]. by rewrite decide_False.
Qed.

(** ** The URLs *)

Lemma unquote_quote_char c rest :
  unquote_char (quote_char c ++ rest) = Some (c, rest).
Proof.
  destruct c as [[] [] [] [] [] [] [] []]; reflexivity.
Qed.

Lemma all_chars_app f s t :
  all_chars f (s ++ t) = all_chars f s && all_chars f t.
Proof.
  induction s as [| c s IH]; [done |]. rewrite append_cons. cbn.
  by rewrite IH, andb_assoc.
Qed.

Lemma quote_char_quoted c : all_chars quoted_char (quote_char c) = true.
Proof. destruct c as [[] [] [] [] [] [] [] []]; vm_compute; reflexivity. Qed.

Lemma quote_char_kept c :
  unreserved c || Ascii.eqb c "/" = true -> quote_char c = String c "".
Proof. unfold quote_char. by intros ->. Qed.

Lemma quote_char_nonempty c : quote_char c <> "".
Proof. destruct c as [[] [] [] [] [] [] [] []]; vm_compute; discriminate. Qed.

Lemma quote_inj s1 s2 : quote s1 = quote s2 -> s1 = s2.
Proof.
  revert s2. induction s1 as [| c1 s1 IH]; intros [| c2 s2]; cbn [quote].
  - done.
  - intros Hq. pose proof (quote_char_nonempty c2) as Hc.
    destruct (quote_char c2); [done | discriminate Hq].
  - intros Hq. pose proof (quote_char_nonempty c1) as Hc.
    destruct (quote_char c1); [done | discriminate Hq].
  - intros Hq. apply (f_equal unquote_char) in Hq.
    rewrite !unquote_quote_char in Hq. injection Hq as -> Hq.
    by rewrite (IH s2).
Qed.

Lemma occurrences_quote c s :
  quoted_char c = false -> occurrences c (quote s) = 0%nat.
Proof.
  intros Hc. apply (occurrences_all_chars quoted_char); [| done].
  induction s as [| c' s IH]; [done |]. cbn [quote].
  by rewrite all_chars_app, quote_char_quoted.
Qed.

Lemma occurrences_uint c d :
  (nat_of_ascii c <? 48)%nat || (57 <? nat_of_ascii c)%nat = true ->
  occurrences c (NilEmpty.string_of_uint d) = 0%nat.
Proof.
  intros Hc. induction d as [| d IH | d IH | d IH | d IH | d IH | d IH
                             | d IH | d IH | d IH | d IH];
    [done | ..]; cbn [NilEmpty.string_of_uint occurrences]; rewrite IH;
    match goal with
    | |- context [Ascii.eqb ?a c] =>
        destruct (Ascii.eqb_spec a c) as [<- |]; [by vm_compute in Hc | done]
    end.
Qed.

Lemma occurrences_str c z :
  (nat_of_ascii c <? 45)%nat || (57 <? nat_of_ascii c)%nat = true ->
  occurrences c (str z) = 0%nat.
Proof.
  intros Hc. unfold str, NilZero.string_of_int, NilZero.string_of_uint.
  assert ((nat_of_ascii c <? 48)%nat || (57 <? nat_of_ascii c)%nat = true)
    as Hdigit.
  { apply orb_true_iff in Hc as [Hc%Nat.ltb_lt | ->]; [| by rewrite orb_true_r].
    apply orb_true_iff. left. apply Nat.ltb_lt. lia. }
  assert (forall d, occurrences c
            match d with
            | Decimal.Nil => "0"
            | _ => NilEmpty.string_of_uint d
            end = 0%nat) as Huint.
  { intros d. pose proof (occurrences_uint c d Hdigit) as Hd.
    destruct d; try done. cbn [occurrences].
    destruct (Ascii.eqb_spec "0" c) as [<- |]; [by vm_compute in Hc | done]. }
  destruct (Z.to_int z) as [d | d]; [apply Huint |].
  cbn [occurrences]. rewrite Huint.
  destruct (Ascii.eqb_spec "-" c) as [<- |]; [by vm_compute in Hc | done].
Qed.

(** X13: the crypto identifier and the payment method go into the URL of the
    quote endpoint percent-encoded: the encoding produces only unreserved
    characters, slashes and [%XX], it keeps apart what was apart, and it
    leaves text of unreserved characters and slashes as it is. So the URL
    has 8 separators of parameters and 9 assignments besides those that the
    region and the fiat code, which are not encoded, bring along. *)
Theorem quoted_fields_stay_in_their_parameter :
  (forall s, all_chars quoted_char (quote s) = true)
  /\ (forall s1 s2, quote s1 = quote s2 -> s1 = s2)
  /\ (forall s,
        all_chars (fun c => unreserved c || Ascii.eqb c "/") s = true ->
        quote s = s)
  /\ (forall (region id fiat : string) (amount : Z) (payment_method : string),
        let address :=
          url (QuoteRequest region id fiat amount payment_method) in
        occurrences "&" address
          = (8 + occurrences "&" region + occurrences "&" fiat)%nat
        /\ occurrences "=" address
           = (9 + occurrences "=" region + occurrences "=" fiat)%nat).
Proof.
  split; [| split; [exact quote_inj | split]].
  - induction s as [| c s IH]; [done |]. cbn [quote].
    by rewrite all_chars_app, quote_char_quoted.
  - induction s as [| c s IH]; [done |]. cbn [all_chars quote].
    intros [Hc Hs]%andb_true_iff. by rewrite quote_char_kept, IH.
  - intros region id fiat amount payment_method address. subst address.
    unfold url. rewrite !occurrences_app, !occurrences_quote by done.
    rewrite !occurrences_str by done. cbn. split; lia.
Qed.

(** ** What can end a sweep *)

Section DataErrors.
Context {F : Type} `{PyFloatLaws F}.
Implicit Types (a b : pyval F) (e : exn).

Lemma arith_data_error int_op float_op a b e :
  arith int_op float_op a b = Raise e -> is_data_error e = true.
Proof. intros He. raised He. Qed.

Lemma py_add_data_error a b e :
  py_add a b = Raise e -> is_data_error e = true.
Proof. unfold py_add. intros He. raised He. Qed.

Lemma py_gt0_data_error a e : py_gt0 a = Raise e -> is_data_error e = true.
Proof. unfold py_gt0. intros He. raised He. Qed.

Lemma py_get_data_error a key fallback e :
  py_get a key fallback = Raise e -> e = AttributeError.
Proof. unfold py_get. intros He. raised He. Qed.

Lemma py_iter_data_error a e : py_iter a = Raise e -> e = TypeError.
Proof. unfold py_iter. intros He. raised He. Qed.

(** Division raises ZeroDivisionError only on a divisor that is zero. *)
Lemma py_truediv_data_error a b e :
  py_truediv a b = Raise e -> is_zero_number b = false ->
  is_data_error e = true.
Proof.
  unfold py_truediv, is_zero_number. intros He Hb.
  destruct (as_num a) as [[x | x] |], (as_num b) as [[y | y] |];
    cbn in Hb, He; try rewrite Hb in He; raised He.
Qed.

Lemma positive_not_zero a : py_gt0 a = Ok true -> is_zero_number a = false.
Proof.
  intros Ha. destruct (is_zero_number a) eqn:Hzero; [| done].
  apply zero_number_not_positive in Hzero. congruence.
Qed.

Lemma percentage_data_error (positive : bool) a b e :
  py_gt0 b = Ok positive ->
  (if positive then ratio ← py_truediv a b; py_mul ratio (PyInt 100)
   else Ok (PyInt 0)) = Raise e ->
  is_data_error e = true.
Proof.
  intros Hb. destruct positive; [| done].
  destruct (py_truediv a b) as [ratio | e'] eqn:Hratio; cbn.
  - apply arith_data_error.
  - intros [= <-]. eapply py_truediv_data_error; [done |].
    by apply positive_not_zero.
Qed.

Lemma expected_at_market_data_error rate (q : raw_quote F) e :
  f_is_zero rate = false ->
  expected_at_market rate q = Raise e -> is_data_error e = true.
Proof.
  intros Hrate. unfold expected_at_market.
  destruct (py_sub (amount_in q) (network_fee q)) as [t1 |] eqn:H1; cbn;
    [| intros [= <-]; by eapply arith_data_error].
  destruct (py_sub t1 (provider_fee q)) as [t2 |] eqn:H2; cbn;
    [| intros [= <-]; by eapply arith_data_error].
  destruct (py_sub t2 (extra_fee q)) as [t3 |] eqn:H3; cbn;
    [| intros [= <-]; by eapply arith_data_error].
  intros He. by eapply py_truediv_data_error.
Qed.

Lemma spread_fields_data_error market_rate (q : raw_quote F) e :
  spread_fields market_rate q = Raise e -> is_data_error e = true.
Proof.
  unfold spread_fields. destruct market_rate as [rate |]; [| done].
  destruct (rate_usable (Some rate) && truthy (amount_in q)) eqn:Husable;
    [| done].
  apply andb_true_iff in Husable as [Husable _]. cbn in Husable.
  apply andb_true_iff in Husable as [Hrate%negb_true_iff _].
  destruct (expected_at_market rate q) as [expected |] eqn:He; cbn;
    [| intros [= <-]; by eapply expected_at_market_data_error].
  destruct (truthy (amount_out q)); [| done].
  destruct (py_sub expected (amount_out q)) as [spread |] eqn:Hs; cbn;
    [| intros [= <-]; by eapply arith_data_error].
  destruct (py_gt0 expected) as [positive |] eqn:Hp; cbn;
    [| intros [= <-]; by eapply py_gt0_data_error].
  destruct (if positive then _ else _) as [percentage |] eqn:Hpct; cbn;
    [| intros [= <-]; by eapply percentage_data_error].
  destruct (py_mul spread (PyFloat_ rate)) as [in_fiat |] eqn:Hf; cbn;
    [done | intros [= <-]; by eapply arith_data_error].
Qed.

(** The derivation raises only TypeError and OverflowError: it never
    divides by zero. *)
Lemma derive_data_error market_rate (q : raw_quote F) e :
  derive market_rate q = Raise e -> is_data_error e = true.
Proof.
  unfold derive.
  destruct (spread_fields market_rate q) as [[[[x s] p] f] |] eqn:Hfields;
    cbn; [| intros [= <-]; by eapply spread_fields_data_error].
  destruct (py_add (network_fee q) (provider_fee q)) as [fees |] eqn:H1;
    cbn; [| intros [= <-]; by eapply py_add_data_error].
  destruct (py_add fees (extra_fee q)) as [explicit |] eqn:H2; cbn;
    [| intros [= <-]; by eapply py_add_data_error].
  destruct (py_add explicit f) as [total |] eqn:H3; cbn;
    [| intros [= <-]; by eapply py_add_data_error].
  destruct (py_gt0 (amount_in q)) as [positive |] eqn:Hp; cbn;
    [| intros [= <-]; by eapply py_gt0_data_error].
  destruct (if positive then _ else _) as [percentage |] eqn:Hpct; cbn;
    [done | intros [= <-]; by eapply percentage_data_error].
Qed.

Lemma read_item_data_error (item : pyval F) e :
  read_item item = Raise e -> e = AttributeError.
Proof.
  intros He. unfold read_item, mbind, result_bind in He.
  repeat (simplify_eq;
          match goal with
          | H' : context [match ?x with _ => _ end] |- _ => destruct x eqn:?
          end);
    simplify_eq; eauto using py_get_data_error.
Qed.

Variable E : environment F.
Implicit Types (w : world F).

Lemma normalize_items_data_error l market_rate items : forall rank w w' e,
  normalize_items E l market_rate rank items w = (Raise e, w') ->
  is_data_error e = true.
Proof.
  induction items as [| item items IH]; intros rank w w' e Hrun; [done |].
  cbn [normalize_items] in Hrun. unfold mbind at 1, M_bind in Hrun.
  rewrite normalize_item_run in Hrun.
  destruct (read_item item) as [q |] eqn:Hq; cbn in Hrun;
    [| injection Hrun as <- _; by apply read_item_data_error in Hq as ->].
  destruct (derive market_rate q) as [m |] eqn:Hm; cbn in Hrun;
    [| injection Hrun as <- _; by eapply derive_data_error].
  by eapply IH.
Qed.

Lemma quotes_for_payment_method_data_error l market_rate w w' e :
  quotes_for_payment_method E l market_rate w = (Raise e, w') ->
  is_data_error e = true.
Proof.
  unfold quotes_for_payment_method, fetch_and_normalize, try_except.
  unfold mbind at 1, M_bind. rewrite get_quotes_run.
  destruct (upstream E (requests_sent w) (quote_request l))
    as [| status body]; [done |].
  destruct ((400 <=? status) && (status <? 600)); [done |].
  destruct body as [data |]; cbn [of_option]; [| done].
  unfold mbind at 1, M_bind. unfold lift at 1.
  destruct (py_get data "success" PyNone) as [success | e'] eqn:Hsuccess.
  2: { apply py_get_data_error in Hsuccess as ->. by intros [= <-]. }
  unfold mbind at 1, M_bind.
  destruct (truthy success); [| done].
  unfold mbind at 1, M_bind. unfold lift at 1.
  destruct (py_iter success) as [items | e'] eqn:Hitems.
  2: { apply py_iter_data_error in Hitems as ->. by intros [= <-]. }
  destruct (normalize_items E l market_rate 1 items _)
    as [[[] | e'] w2] eqn:Hrun; [done |].
  pose proof (normalize_items_exn _ _ _ _ _ _ _ _ Hrun) as ->.
  apply normalize_items_data_error in Hrun. by intros [= <-].
Qed.

Lemma for_each_raises {A} (X : exn -> Prop) (items : list A)
    (body : A -> M F unit) :
  (forall x w e w', x ∈ items -> body x w = (Raise e, w') -> X e) ->
  forall w e w', for_each items body w = (Raise e, w') -> X e.
Proof.
  induction items as [| x items IH]; intros Hbody w e w' Hrun; [done |].
  cbn [for_each] in Hrun. unfold mbind, M_bind in Hrun.
  destruct (body x w) as [[[] | e'] w1] eqn:Hx.
  - eapply IH; [| done]. intros y w2 e2 w3 Hy. apply Hbody. by right.
  - injection Hrun as <- _. eapply Hbody; [by left | done].
Qed.

Lemma region_sweep_data_error amount crypto region w w' e :
  crypto ∈ crypto_currencies ->
  region_sweep E amount crypto region w = (Raise e, w') ->
  is_data_error e = true.
Proof.
  intros Hcrypto. unfold region_sweep. unfold mbind at 1, M_bind.
  destruct (resolve_world E crypto region w Hcrypto)
    as (market_rate & w1 & t1 & -> & _).
  unfold mbind at 1, M_bind. unfold set_rows at 1.
  unfold mbind at 1, M_bind.
  destruct (for_each _ _ _) as [[[] | e'] w3] eqn:Hloop.
  - unfold append_to_bigquery. run. by destruct (rows_to_insert w3).
  - intros [= <- _]. revert Hloop.
    apply (for_each_raises (fun e => is_data_error e = true)).
    intros payment_method w4 e4 w5 _.
    apply quotes_for_payment_method_data_error.
Qed.

Lemma main_data_error w w' e :
  main E w = (Raise e, w') -> is_data_error e = true.
Proof.
  unfold main. unfold mbind at 1, M_bind, clear_cache.
  unfold mbind at 1, M_bind.
  destruct (for_each _ _ _) as [[[] | e'] w1] eqn:Hloop; [done |].
  intros [= <- _]. revert Hloop.
  apply (for_each_raises (fun e => is_data_error e = true)).
  intros amount w2 e2 w3 _. unfold mbind at 1, M_bind. run.
  apply (for_each_raises (fun e => is_data_error e = true)).
  intros crypto w4 e4 w5 Hcrypto.
  apply (for_each_raises (fun e => is_data_error e = true)).
  intros region w6 e6 w7 _.
  by apply region_sweep_data_error.
Qed.

End DataErrors.

(** ** Reading an entry *)

Section Entries.
Context {F : Type} `{PyFloat F}.
Implicit Types (v : pyval F) (items : list (string * pyval F)).

Lemma py_get_not_dict v key fallback :
  is_dict v = false -> py_get v key fallback = Raise AttributeError.
Proof. by destruct v. Qed.

Lemma py_get_dict v key fallback :
  is_dict v = true -> exists value, py_get v key fallback = Ok value.
Proof. destruct v; try done. by eexists. Qed.

Lemma read_item_null_quote items v :
  dict_lookup items "quote" = Some v -> is_dict v = false ->
  read_item (PyDict items) = Raise AttributeError.
Proof.
  intros Hquote Hv. unfold read_item. cbn [py_get mbind result_bind].
  destruct (py_get _ "name" _) as [name | e] eqn:Hname.
  - rewrite Hquote. cbn [default from_option id mbind result_bind].
    by rewrite (py_get_not_dict v "amountIn" PyNone Hv).
  - by apply py_get_data_error in Hname as ->.
Qed.

Lemma null_fee_raises market_rate (q : raw_quote F) :
  network_fee q = PyNone -> derive market_rate q = Raise TypeError.
Proof.
  intros Hfee. unfold derive, spread_fields.
  assert (forall a, py_sub a (network_fee q) = Raise TypeError) as Hsub.
  { intros a. rewrite Hfee. unfold py_sub, arith. cbn.
    by destruct (as_num a) as [[] |]. }
  assert (py_add (network_fee q) (provider_fee q) = Raise TypeError) as Hadd.
  { rewrite Hfee. by destruct (provider_fee q). }
  destruct market_rate as [rate |]; [| by rewrite Hadd].
  destruct (rate_usable (Some rate) && truthy (amount_in q));
    [| by rewrite Hadd].
  unfold expected_at_market. by rewrite Hsub.
Qed.

End Entries.

(** X9: an entry without [providerInfo] and [quote] reads as the provider
    N/A with null amounts and fees of 0; a [providerInfo] or [quote] that is
    present but not a dict (a null, for one) raises AttributeError, and so
    does an entry that is not a dict; a network fee that is present but null
    is not replaced by 0, and deriving the metrics raises TypeError. *)
Theorem absent_sections_default_and_null_sections_raise :
  forall (F : Type) (HF : PyFloat F) (items : list (string * pyval F)),
    (dict_lookup items "providerInfo" = None ->
     dict_lookup items "quote" = None ->
     read_item (PyDict items) =
       Ok {| provider_name := PyStr "N/A"; amount_in := PyNone;
             amount_out := PyNone; exchange_rate := PyNone;
             network_fee := PyInt 0; provider_fee := PyInt 0;
             extra_fee := PyInt 0 |})
    /\ (forall v,
          dict_lookup items "providerInfo" = Some v -> is_dict v = false ->
          read_item (PyDict items) = Raise AttributeError)
    /\ (forall v,
          dict_lookup items "quote" = Some v -> is_dict v = false ->
          read_item (PyDict items) = Raise AttributeError)
    /\ (forall v : pyval F,
          is_dict v = false -> read_item v = Raise AttributeError)
    /\ (forall fields (q : raw_quote F) (market_rate : option F),
          dict_lookup items "quote" = Some (PyDict fields) ->
          dict_lookup fields "networkFee" = Some PyNone ->
          read_item (PyDict items) = Ok q ->
          derive market_rate q = Raise TypeError).
Proof.
  intros F HF items. split; [| split; [| split; [| split]]].
  - intros Hinfo Hquote. unfold read_item. cbn. by rewrite Hinfo, Hquote.
  - intros v Hinfo Hv. unfold read_item. cbn [py_get mbind result_bind].
    rewrite Hinfo. cbn [default from_option id].
    by rewrite (py_get_not_dict v "name" (PyStr "N/A") Hv).
  - apply read_item_null_quote.
  - intros v Hv. unfold read_item.
    by rewrite (py_get_not_dict v "providerInfo" (PyDict []) Hv).
  - intros fields q market_rate Hquote Hfee Hq.
    apply null_fee_raises.
    destruct (read_item_fields items fields q Hq Hquote)
      as (_ & _ & -> & _). by rewrite Hfee.
Qed.

(** ** The sweep as a whole *)

Lemma sweep_events_split {F} (t : list (event F)) :
  Forall sweep_event t ->
  Forall (fun r => r ∈ sweep_rate_requests \/ r ∈ sweep_quote_requests)
    (http_gets t)
  /\ Forall (fun seconds => seconds ∈ [0.1; 1; 2; 4]%Q) (sleeps t)
  /\ Forall sweep_batch (inserted t).
Proof.
  induction 1 as [| [r | s | d | rows] t He Ht (IH1 & IH2 & IH3)];
    [done | ..]; repeat split; try done; by constructor.
Qed.

Lemma append_inj_l (prefix s t : string) :
  prefix ++ s = prefix ++ t -> s = t.
Proof.
  induction prefix as [| c prefix IH]; [done |].
  rewrite !append_cons. intros [= Hrest]. by apply IH.
Qed.

Lemma NoDup_decide {A} `{EqDecision A} (l : list A) :
  bool_decide (NoDup l) = true -> NoDup l.
Proof. apply bool_decide_eq_true. Qed.

(** No request tuple occurs twice in the loops of [main]. *)
Lemma NoDup_sweep_quote_requests : NoDup sweep_quote_requests.
Proof.
  rewrite <- sweep_quote_requests_loops.
  assert (forall region, region ∈ regions -> NoDup (methods_of region))
    as Hmethods.
  { unfold regions. intros region.
    rewrite !elem_of_cons, elem_of_nil.
    intros [-> | [-> | [-> | []]]]; by apply NoDup_decide. }
  assert (forall crypto crypto',
            crypto ∈ crypto_currencies -> crypto' ∈ crypto_currencies ->
            crypto.2 = crypto'.2 -> crypto = crypto') as Hcryptos.
  { unfold crypto_currencies. intros crypto crypto'.
    rewrite !elem_of_cons, !elem_of_nil.
    by intros [-> | [-> | [-> | []]]] [-> | [-> | [-> | []]]]. }
  assert (forall region region',
            region ∈ regions -> region' ∈ regions ->
            lower region.1 = lower region'.1 -> region = region') as Hregions.
  { unfold regions. intros region region'.
    rewrite !elem_of_cons, !elem_of_nil.
    by intros [-> | [-> | [-> | []]]] [-> | [-> | [-> | []]]]. }
  apply NoDup_bind; [| | by apply NoDup_decide].
  { intros amount amount' r _ _ H1 H2.
    apply list_elem_of_bind in H1 as (c1 & H1 & _).
    apply list_elem_of_bind in H1 as (g1 & H1 & _).
    apply list_elem_of_bind in H1 as (m1 & ->%list_elem_of_singleton & _).
    apply list_elem_of_bind in H2 as (c2 & H2 & _).
    apply list_elem_of_bind in H2 as (g2 & H2 & _).
    apply list_elem_of_bind in H2 as (m2 & H2%list_elem_of_singleton & _).
    by injection H2. }
  intros amount _. apply NoDup_bind; [| | by apply NoDup_decide].
  { intros crypto crypto' r Hc Hc' H1 H2.
    apply list_elem_of_bind in H1 as (g1 & H1 & _).
    apply list_elem_of_bind in H1 as (m1 & ->%list_elem_of_singleton & _).
    apply list_elem_of_bind in H2 as (g2 & H2 & _).
    apply list_elem_of_bind in H2 as (m2 & H2%list_elem_of_singleton & _).
    apply Hcryptos; [done | done |]. by injection H2. }
  intros crypto _. apply NoDup_bind; [| | by apply NoDup_decide].
  { intros region region' r Hg Hg' H1 H2.
    apply list_elem_of_bind in H1 as (m1 & ->%list_elem_of_singleton & _).
    apply list_elem_of_bind in H2 as (m2 & H2%list_elem_of_singleton & _).
    apply Hregions; [done | done |]. by injection H2. }
  intros region Hregion. apply NoDup_bind; [| | by apply Hmethods].
  { intros method method' r _ _.
    intros ->%list_elem_of_singleton Hr%list_elem_of_singleton.
    injection Hr as Hr. by apply append_inj_l in Hr. }
  intros method _. apply NoDup_singleton.
Qed.

(** X1: whatever the upstream answers, and whether the run completes or not,
    [main] sends only the 9 rate requests and the 1209 quote requests of its
    configuration: no payment method is asked for in a region that does not
    list it. *)
Theorem sweep_sends_only_configured_requests :
  forall (F : Type) (HF : PyFloat F) (E : environment F) (w : world F),
    exists t,
      trace (main E w).2 = (trace w ++ t)%list
      /\ Forall (fun r => r ∈ sweep_rate_requests
                          \/ r ∈ sweep_quote_requests) (http_gets t)
      /\ length sweep_rate_requests = 9%nat
      /\ length sweep_quote_requests = 1209%nat.
Proof.
  intros F HF E w. destruct (main_events E w) as (t & Ht & Hevents).
  exists t. split; [done |].
  by apply sweep_events_split in Hevents as (? & _).
Qed.

(** X2: whatever the upstream answers, every pause of [main] is one of 0.1,
    1, 2 and 4 seconds. *)
Theorem sweep_pauses_are_short :
  forall (F : Type) (HF : PyFloat F) (E : environment F) (w : world F),
    exists t,
      trace (main E w).2 = (trace w ++ t)%list
      /\ Forall (fun seconds => seconds ∈ [0.1; 1; 2; 4]%Q) (sleeps t).
Proof.
  intros F HF E w. destruct (main_events E w) as (t & Ht & Hevents).
  exists t. split; [done |].
  by apply sweep_events_split in Hevents as (_ & ? & _).
Qed.

(** X3: whatever the upstream answers, every batch that [main] hands to the
    sink is not empty and holds rows of one (crypto, region) combination of
    the configuration: they carry its crypto name, its currency, its region
    code in upper case, a payment method of the region and a rank of at
    least 1. *)
Theorem sweep_inserts_batches_of_one_combination :
  forall (F : Type) (HF : PyFloat F) (E : environment F) (w : world F),
    exists t,
      trace (main E w).2 = (trace w ++ t)%list
      /\ Forall sweep_batch (inserted t).
Proof.
  intros F HF E w. destruct (main_events E w) as (t & Ht & Hevents).
  exists t. split; [done |].
  by apply sweep_events_split in Hevents as (_ & _ & ?).
Qed.

(** X4: a run of [main] that completes has sent the 1209 quote requests of
    the configuration, each once, in the order of the loops: amounts, then
    cryptos, then regions, then payment methods; no failure of a fetch makes
    it skip or repeat one. *)
Theorem completed_sweep_sends_each_quote_request_once :
  forall (F : Type) (HF : PyFloat F) (E : environment F) (w w' : world F),
    main E w = (Ok tt, w') ->
    quote_gets (trace w') = (quote_gets (trace w) ++ sweep_quote_requests)%list
    /\ NoDup sweep_quote_requests.
Proof.
  intros F HF E w w' Hrun. split; [by apply (main_quote_gets E) |].
  apply NoDup_sweep_quote_requests.
Qed.

(** X5: a run of [main] that completes has handed every row it built to the
    sink, once and in the order built: the timestamps of the inserted rows
    are the clock readings of the run, in order. *)
Theorem completed_sweep_inserts_every_row_once :
  forall (F : Type) (HF : PyFloat F) (E : environment F) (w w' : world F),
    main E w = (Ok tt, w') ->
    exists t,
      trace w' = (trace w ++ t)%list
      /\ (clock_reads w <= clock_reads w')%nat
      /\ inserted_stamps t =
           map (clock E)
             (seq (clock_reads w) (clock_reads w' - clock_reads w)).
Proof. intros F HF E w w'. apply main_stamped. Qed.

(** X6: the sink apart (handing over a batch is an event of the sweep here;
    its errors are those of [Sink]), what ends a run of [main] early is a
    TypeError, an AttributeError or an OverflowError, raised by an entry of
    a response: never an error of a request, of an identifier or of the
    cache, and never a division by zero. *)
Theorem only_data_errors_end_the_sweep :
  forall (F : Type) (HF : PyFloat F) (HL : PyFloatLaws F) (E : environment F)
         (w w' : world F) (e : exn),
    main E w = (Raise e, w') ->
    is_data_error e = true /\ is_request_exception e = false.
Proof.
  intros F HF HL E w w' e Hrun. apply (main_data_error E) in Hrun.
  split; [done |]. by destruct e.
Qed.

(** ** The theorems at sample inputs *)

Lemma expected_amount_out_at_market_rate_witness :
  f_pos 2000%float = true
  /\ truthy (amount_in (example_quote 0.49%float)) = true
  /\ well_formed (example_quote 0.49%float) = true
  /\ exists m e,
       derive (Some 2000%float) (example_quote 0.49%float) = Ok m
       /\ (t1 ← py_sub (PyInt 1000) (PyInt 5);
           t2 ← py_sub t1 (PyInt 10);
           after_fees ← py_sub t2 (PyInt 0);
           py_truediv after_fees (PyFloat_ 2000%float)) = Ok e
       /\ expected_amount_out m = e.
Proof.
  refine (conj eq_refl (conj eq_refl (conj eq_refl _))).
  exact (proj1 expected_amount_out_at_market_rate float binary64 binary64_laws
           2000%float (example_quote 0.49%float) eq_refl eq_refl eq_refl).
Defined.

Lemma degraded_path_zero_fields_witness :
  let q := example_quote 0.49%float in
  spread_fields None q = Ok (PyInt 0, PyInt 0, PyInt 0, PyInt 0)
  /\ (forall m,
        derive None q = Ok m ->
        expected_amount_out m = PyInt 0 /\ spread m = PyInt 0
        /\ spread_percentage m = PyInt 0 /\ spread_in_fiat m = PyInt 0)
  /\ (PyFloatLaws float -> well_formed q = true -> returns (derive None q)).
Proof.
  exact (degraded_path_zero_fields float binary64 None
           (example_quote 0.49%float) (or_introl eq_refl)).
Defined.

Lemma total_fee_percentage_guard_witness :
  amount_in raw_without_amount_in = PyNone
  /\ ~ returns (derive (Some 2000%float) raw_without_amount_in).
Proof.
  refine (conj eq_refl _).
  exact (proj1 total_fee_percentage_guard float binary64 (Some 2000%float)
           raw_without_amount_in eq_refl).
Defined.

Lemma zero_amount_out_has_no_spread_witness :
  let q := with_amount_out (example_quote 0%float) (PyInt 0) in
  f_pos 2000%float = true /\ truthy (amount_in q) = true
  /\ well_formed q = true /\ is_zero_number (amount_out q) = true
  /\ exists m e,
       derive (Some 2000%float) q = Ok m
       /\ expected_at_market 2000%float q = Ok e
       /\ expected_amount_out m = e
       /\ spread m = PyInt 0 /\ spread_percentage m = PyInt 0
       /\ spread_in_fiat m = PyInt 0
       /\ derive (Some 2000%float) (with_amount_out q PyNone) = Ok m.
Proof.
  refine (conj eq_refl (conj eq_refl (conj eq_refl (conj eq_refl _)))).
  exact (zero_amount_out_has_no_spread float binary64 binary64_laws 2000%float
           (with_amount_out (example_quote 0%float) (PyInt 0))
           eq_refl eq_refl eq_refl eq_refl).
Defined.

Lemma spread_when_fees_exceed_amount_witness :
  let q := overcharged_quote in
  let e := PyFloat_ (-0.005)%float in
  f_pos 2000%float = true /\ truthy (amount_in q) = true
  /\ truthy (amount_out q) = true /\ well_formed q = true
  /\ expected_at_market 2000%float q = Ok e /\ py_gt0 e = Ok false
  /\ exists m s,
       derive (Some 2000%float) q = Ok m
       /\ expected_amount_out m = e
       /\ py_sub e (amount_out q) = Ok s /\ spread m = s
       /\ spread_percentage m = PyInt 0
       /\ py_mul s (PyFloat_ 2000%float) = Ok (spread_in_fiat m).
Proof.
  refine (conj eq_refl (conj eq_refl (conj eq_refl (conj eq_refl
            (conj eq_refl (conj eq_refl _)))))).
  exact (proj1 spread_when_fees_exceed_amount float binary64 binary64_laws
           2000%float overcharged_quote (PyFloat_ (-0.005)%float)
           eq_refl eq_refl eq_refl eq_refl eq_refl eq_refl).
Defined.

Lemma rate_resolver_retry_policy_witness :
  let E := rate_limiting_upstream 2 in
  let r := RateRequest "1" "0x0000000000000000000000000000000000000000"
             "eur" in
  exists t,
    get_market_rate E eth "EUR" initial_world =
      (Ok (Some 2000%float), advanced initial_world 3 t)
    /\ http_gets t = [r; r; r]
    /\ sleeps t = [1; 2]%Q.
Proof.
  refine (proj1 rate_resolver_retry_policy float binary64
            (rate_limiting_upstream 2) eth "EUR" "1"
            "0x0000000000000000000000000000000000000000" initial_world
            2%nat eq_refl eq_refl _ _ _).
  - repeat constructor.
  - intros [| [| i]] Hi; [reflexivity | reflexivity |].
    exfalso. exact (Nat.nle_succ_0 _ (le_S_n _ _ (le_S_n _ _ Hi))).
  - intros _. reflexivity.
Defined.

Lemma rate_cache_resolves_pair_once_witness :
  let E := rate_limiting_upstream 1 in
  let first := resolve E "ETH (Mainnet)" eth "EUR" initial_world in
  let second := resolve E "ETH (Mainnet)" eth "EUR" first.2 in
  exists v,
    first.1 = Ok v /\ second.1 = Ok v /\ second.2 = first.2
    /\ market_rates_cache first.2 !! cache_key eth "EUR" = Some v
    /\ (forall w', market_rates_cache w' !! cache_key eth "EUR" = Some v ->
          resolve E "ETH (Mainnet)" eth "EUR" w' = (Ok v, w'))
    /\ (0 <= requests_sent first.2 <= 0 + 3)%nat.
Proof.
  destruct (proj1 rate_cache_resolves_pair_once float binary64
              (rate_limiting_upstream 1) "ETH (Mainnet)" eth "EUR" "1"
              "0x0000000000000000000000000000000000000000" initial_world
              (resolve (rate_limiting_upstream 1) "ETH (Mainnet)" eth "EUR"
                 initial_world).2
              (resolve (rate_limiting_upstream 1) "ETH (Mainnet)" eth "EUR"
                 (resolve (rate_limiting_upstream 1) "ETH (Mainnet)" eth
                    "EUR" initial_world).2).2
              (resolve (rate_limiting_upstream 1) "ETH (Mainnet)" eth "EUR"
                 initial_world).1
              (resolve (rate_limiting_upstream 1) "ETH (Mainnet)" eth "EUR"
                 (resolve (rate_limiting_upstream 1) "ETH (Mainnet)" eth
                    "EUR" initial_world).2).1
              eq_refl eq_refl (surjective_pairing _) (surjective_pairing _))
    as (v & H1 & H2 & H3 & H4 & H5 & H6 & _).
  exists v. exact (conj H1 (conj H2 (conj H3 (conj H4 (conj H5 H6))))).
Defined.

Lemma ranks_follow_response_order_witness :
  let E := quoting_upstream three_providers in
  let w' := (quotes_for_payment_method E sample_labels (Some 2000%float)
               initial_world).2 in
  exists new,
    rows_to_insert w' = (rows_to_insert initial_world ++ new)%list
    /\ map Rank new = map Z.of_nat (seq 1 3)
    /\ Forall2
         (fun row entry =>
            exists q m,
              read_item entry = Ok q /\ derive (Some 2000%float) q = Ok m
              /\ exists timestamp,
                row = make_row sample_labels (Some 2000%float) (Rank row)
                        timestamp q m)
         new three_entries.
Proof.
  refine (proj1 ranks_follow_response_order float binary64
            (quoting_upstream three_providers) sample_labels
            (Some 2000%float) initial_world _ three_entries _ _).
  - exists 200, [("success", PyList three_entries)]. repeat split.
  - reflexivity.
Defined.

Lemma empty_quote_set_is_normal_witness :
  let E := quoting_upstream (PyDict []) in
  answered E initial_world sample_labels (PyNone : pyval float)
  /\ quotes_for_payment_method E sample_labels None initial_world =
       (Ok tt,
        advanced initial_world 1
          [HttpGet (quote_request sample_labels); Sleep 0.1]).
Proof.
  assert (answered (quoting_upstream (PyDict [])) initial_world sample_labels
            (PyNone : pyval float)) as Hanswered.
  { exists 200, []. repeat split. }
  refine (conj Hanswered _).
  exact (proj1 empty_quote_set_is_normal float binary64
           (quoting_upstream (PyDict [])) sample_labels None initial_world
           PyNone Hanswered eq_refl).
Defined.

Lemma sweep_absorbs_fetch_failures_witness :
  let E := quoting_upstream three_providers in
  (forall n l, quotes_ok (upstream E n (quote_request l)) = true)
  /\ exists w', main E initial_world = (Ok tt, w').
Proof.
  assert (forall n l,
            quotes_ok (upstream (quoting_upstream three_providers) n
                         (quote_request l)) = true) as Hquotes.
  { intros n l. reflexivity. }
  refine (conj Hquotes _).
  exact (proj2 (proj2 sweep_absorbs_fetch_failures) float binary64
           binary64_laws (quoting_upstream three_providers) initial_world
           Hquotes).
Defined.

Lemma completed_sweep_sends_each_quote_request_once_witness :
  let E := rate_limiting_upstream 0 in
  quote_gets (trace (main E initial_world).2) =
    (quote_gets (trace (initial_world (F:=float))) ++ sweep_quote_requests)%list
  /\ NoDup sweep_quote_requests.
Proof.
  apply (completed_sweep_sends_each_quote_request_once float binary64
           (rate_limiting_upstream 0) initial_world
           (main (rate_limiting_upstream 0) initial_world).2).
  vm_compute. reflexivity.
Defined.

Lemma completed_sweep_inserts_every_row_once_witness :
  let w' := (main stamping_upstream initial_world).2 in
  exists t,
    trace w' = (trace (initial_world (F:=float)) ++ t)%list
    /\ (clock_reads (initial_world (F:=float)) <= clock_reads w')%nat
    /\ inserted_stamps t =
         map (clock stamping_upstream)
           (seq (clock_reads (initial_world (F:=float)))
              (clock_reads w' - clock_reads (initial_world (F:=float)))).
Proof.
  apply (completed_sweep_inserts_every_row_once float binary64
           stamping_upstream initial_world
           (main stamping_upstream initial_world).2).
  vm_compute. reflexivity.
Defined.

Lemma only_data_errors_end_the_sweep_witness :
  is_data_error AttributeError = true
  /\ is_request_exception AttributeError = false.
Proof.
  apply (only_data_errors_end_the_sweep float binary64 binary64_laws
           (quoting_upstream (PyList [])) initial_world
           (main (quoting_upstream (PyList [])) initial_world).2
           AttributeError).
  vm_compute. reflexivity.
Defined.

Lemma get_market_rate_index_error_witness :
  get_market_rate (rate_limiting_upstream 0) "ETH" "EUR" initial_world =
    (Raise IndexError, initial_world).
Proof.
  apply (proj1 (get_market_rate_index_error float binary64
                  (rate_limiting_upstream 0) "ETH" "EUR" initial_world)).
  vm_compute. repeat constructor.
Defined.

Lemma rate_without_value_is_zero_witness :
  let r := RateRequest "1" "0x0000000000000000000000000000000000000000"
             "eur" in
  get_market_rate valueless_upstream eth "EUR" initial_world =
    (Ok (Some 0%float), advanced initial_world 1 [HttpGet r])
  /\ exists w',
       resolve valueless_upstream "ETH (Mainnet)" eth "EUR" initial_world
         = (Ok None, w')
       /\ market_rates_cache w' !! cache_key eth "EUR" = Some None
       /\ trace w' =
            (trace (initial_world (F:=float)) ++
             [HttpGet r;
              Print (CouldNotFetchMarketRate "ETH (Mainnet)" "EUR")])%list.
Proof.
  exact (rate_without_value_is_zero float binary64 valueless_upstream
           "ETH (Mainnet)" eth "EUR" "1"
           "0x0000000000000000000000000000000000000000" initial_world 200
           [] 0%float eq_refl eq_refl eq_refl eq_refl eq_refl eq_refl
           eq_refl eq_refl).
Defined.

Lemma absent_sections_default_and_null_sections_raise_witness :
  read_item (PyDict []) =
    Ok {| provider_name := PyStr "N/A"; amount_in := PyNone (F:=float);
          amount_out := PyNone; exchange_rate := PyNone;
          network_fee := PyInt 0; provider_fee := PyInt 0;
          extra_fee := PyInt 0 |}.
Proof.
  exact (proj1 (absent_sections_default_and_null_sections_raise float
                  binary64 []) eq_refl eq_refl).
Defined.

Lemma rows_have_the_columns_of_the_schema_witness :
  Forall2 (fun column item =>
             item.1 = column.1
             /\ (column.1 ∈ copied_columns
                 \/ conforms column.2 item.2 = true))
    schema (row_dict example_row).
Proof.
  apply (rows_have_the_columns_of_the_schema float binary64 sample_labels
           (Some 2000%float) 1 "2024-01-01T00:00:00"
           (example_quote 0.49%float) example_metrics).
  vm_compute. reflexivity.
Defined.

Lemma total_fee_is_paid_less_market_value_witness :
  let q := example_quote (49 # 100)%Q in
  let m := exact_example_metrics in
  let paid := exact_value (amount_in q) in
  let received := (exact_value (amount_out q) * 2000)%Q in
  (exact_value (total_fee_including_spread m) == paid - received)%Q
  /\ (exact_value (total_explicit_fee m) + exact_value (spread_in_fiat m)
      == paid - received)%Q
  /\ ((0 < paid)%Q ->
      (exact_value (total_fee_percentage m)
       == (paid - received) / paid * 100)%Q).
Proof.
  exact (total_fee_is_paid_less_market_value 2000%Q
           (example_quote (49 # 100)%Q) exact_example_metrics
           eq_refl eq_refl eq_refl eq_refl).
Defined.

Lemma cache_key_identifies_the_pair_witness :
  eth = eth /\ "EUR" = "EUR".
Proof.
  exact (proj1 cache_key_identifies_the_pair eth eth "EUR" "EUR"
           eq_refl eq_refl eq_refl).
Defined.

Lemma quoted_fields_stay_in_their_parameter_witness :
  quote "/payments/debit-credit-card" = "/payments/debit-credit-card".
Proof.
  exact (proj1 (proj2 (proj2 quoted_fields_stay_in_their_parameter))
           "/payments/debit-credit-card" eq_refl).
Defined.

Lemma set_up_creates_what_is_missing_witness :
  exists c' : Sink.cloud float,
    Sink.set_up reachable empty_project = (Sink.Done tt, c')
    /\ Sink.DATASET_ID ∈ Sink.datasets c'
    /\ is_Some (Sink.tables c' !! (Sink.DATASET_ID, Sink.TABLE_ID))
    /\ Sink.datasets (empty_project (F:=float)) ⊆ Sink.datasets c'
    /\ (forall key t,
          Sink.tables (empty_project (F:=float)) !! key = Some t ->
          Sink.tables c' !! key = Some t)
    /\ Sink.set_up reachable c' =
         (Sink.Done tt,
          {| Sink.datasets := Sink.datasets c';
             Sink.tables := Sink.tables c';
             Sink.api_calls := Sink.api_calls c' + 2;
             Sink.printed := Sink.printed c' |}).
Proof.
  exact (set_up_creates_what_is_missing float reachable empty_project
           (fun _ => eq_refl)).
Defined.

Lemma failed_lookup_is_taken_for_absence_witness :
  (Sink.create_bigquery_dataset_if_not_exists first_call_lost
     (project_set_up (F:=float))).1 = Sink.Failed Sink.Conflict
  /\ (Sink.create_bigquery_table_if_not_exists first_call_lost
        (project_set_up (F:=float))).1 = Sink.Failed Sink.Conflict.
Proof.
  assert (Sink.DATASET_ID ∈ Sink.datasets (project_set_up (F:=float)))
    as Hdataset by (by apply elem_of_singleton).
  destruct (failed_lookup_is_taken_for_absence float first_call_lost
              project_set_up eq_refl eq_refl Hdataset)
    as [[Hfirst _] Hsecond].
  split; [exact Hfirst |].
  apply Hsecond. eexists. apply lookup_singleton_eq.
Defined.

Lemma append_stores_all_rows_or_none_witness :
  let result :=
    Sink.append_to_bigquery reachable [example_row] project_set_up in
  result.1 = Sink.Done tt
  /\ Sink.tables result.2 !! (Sink.DATASET_ID, Sink.TABLE_ID) =
       Some {| Sink.columns := schema;
               Sink.stored := [row_dict example_row] |}.
Proof.
  assert ([example_row] <> []) as Hrows by discriminate.
  destruct (proj2 (append_stores_all_rows_or_none float reachable
                     [example_row] project_set_up) Hrows eq_refl)
    as [_ Hresult].
  assert (Sink.tables (project_set_up (F:=float))
            !! (Sink.DATASET_ID, Sink.TABLE_ID)
          = Some {| Sink.columns := schema; Sink.stored := [] |}) as Hlookup
    by apply lookup_singleton_eq.
  cbn zeta in Hresult. rewrite Hlookup in Hresult.
  destruct Hresult as (Hdone & Htables & _). cbn zeta.
  split; [exact Hdone |]. rewrite Htables. apply lookup_insert_eq.
Defined.

Lemma analysis_reads_another_dataset_witness :
  let c' :=
    ((Sink.set_up reachable;; Sink.appends reachable [[]])
       (empty_project (F:=Q))).2 in
  (Analysis.script reachable c').1 =
    ([Analysis.Printed Analysis.Connecting;
      Analysis.Printed Analysis.FailedToLoad], None).
Proof.
  apply (proj2 (analysis_reads_another_dataset reachable reachable [[]]
                  empty_project)).
  apply not_elem_of_empty.
Defined.

Lemma price_bins_are_half_open_ranges_witness :
  let row := [("Amount", PyInt 1100)] in
  ((Analysis.PriceBin row = Some "Low (0-499)" <-> 0 <= 1100 < 500)
   /\ (Analysis.PriceBin row = Some "Medium (500-4999)"
       <-> 500 <= 1100 < 5000)
   /\ (Analysis.PriceBin row = Some "High (5k+)" <-> 5000 <= 1100 < 30001)
   /\ (Analysis.PriceBin row = None <-> 1100 < 0 \/ 30001 <= 1100))%Q.
Proof.
  exact (price_bins_are_half_open_ranges [("Amount", PyInt 1100)] 1100%Q
           eq_refl).
Defined.
